(** * PocketLedger server: OTP authentication, owner-scoped CRUD and
      expense aggregation

    A shallow embedding of the Express/Mongoose handlers of the server
    (controllers, the [authenticate] middleware and the route tables),
    followed by the properties proved about them.

    Conventions of the embedding.
    - A MongoDB collection is the list of its documents in natural order;
      [findOne] returns the first match.
    - A JavaScript [Date] is its number of milliseconds since the epoch ([Z]).
    - A JavaScript [number] is the rational it denotes ([Q]). Where the
      rounding of binary64 can change what [Math.floor] or [Math.round]
      returns (the code generator, the percentages), products, quotients and
      sums are rounded as JavaScript rounds them ([Binary64.round]);
      elsewhere (the [$sum] of an aggregation, the average per day) the
      arithmetic is exact.
    - A string is the list of its characters, read as ASCII text.
    - A request field that may be [undefined] is an [option].
    - What the handlers take from their environment (the clock, [Math.random],
      the outcome of an SMS delivery, a storage failure) is an explicit input,
      the record [Env]; what they take from libraries (ObjectId parsing, JWT
      signing, the local calendar) is the class [Platform]. *)

From Stdlib Require Import ZArith QArith Qround Qpower Lqa.
From Stdlib Require Import List String Ascii Bool Lia.
From Stdlib Require Import Sorting.Sorted Sorting.Permutation.
Import ListNotations.

Local Open Scope string_scope.
Local Open Scope Z_scope.

(* ================================================================== *)
(** ** JavaScript primitives used by the handlers *)

Module Js.

(** [!s] for a value that is a string or [undefined]. *)
Definition falsy (s : option string) : bool :=
  match s with
  | None => true
  | Some v => String.eqb v ""
  end.

(** [a !== b] where [a] may be [undefined] and [b] is a string. *)
Definition strictNeq (a : option string) (b : string) : bool :=
  match a with
  | None => true
  | Some v => negb (String.eqb v b)
  end.

Definition digitChar (d : Z) : ascii := ascii_of_nat (48 + Z.to_nat d).

Fixpoint decimalDigits (fuel : nat) (n : Z) (acc : string) : string :=
  match fuel with
  | O => acc
  | S fuel' =>
      let acc' := String (digitChar (n mod 10)) acc in
      if n / 10 =? 0 then acc' else decimalDigits fuel' (n / 10) acc'
  end.

(** [Number.prototype.toString] on an integer: shortest decimal rendering.
    A number below [2 ^ k] has at most [k] decimal digits. *)
Definition Number_toString (n : Z) : string :=
  if n <? 0
  then String "-" (decimalDigits (S (Z.to_nat (Z.log2 (- n)))) (- n) "")
  else decimalDigits (S (Z.to_nat (Z.log2 n))) n "".

Definition Math_floor (x : Q) : Z := Qfloor x.

(** [Math.round]: nearest integer, a tie goes up. *)
Definition Math_round (x : Q) : Z := Qfloor (x + (1 # 2)).

Definition isSpace (c : ascii) : bool :=
  let n := nat_of_ascii c in
  (Nat.eqb n 32 || (Nat.leb 9 n && Nat.leb n 13))%bool.

Fixpoint trimStart (s : string) : string :=
  match s with
  | String c rest => if isSpace c then trimStart rest else s
  | EmptyString => EmptyString
  end.

Fixpoint trimEnd (s : string) : string :=
  match s with
  | EmptyString => EmptyString
  | String c rest =>
      match trimEnd rest with
      | EmptyString => if isSpace c then EmptyString else String c EmptyString
      | rest' => String c rest'
      end
  end.

(** [String.prototype.trim], on the ASCII white space. *)
Definition trim (s : string) : string := trimEnd (trimStart s).

Definition isDigit (c : ascii) : bool :=
  let n := nat_of_ascii c in (Nat.leb 48 n && Nat.leb n 57)%bool.

Fixpoint allDigits (s : string) : bool :=
  match s with
  | EmptyString => true
  | String c rest => (isDigit c && allDigits rest)%bool
  end.

End Js.

(* ================================================================== *)
(** ** The arithmetic of JavaScript numbers *)

(** IEEE 754 binary64, round to nearest, ties to even: 53 significant bits,
    subnormal numbers below [2 ^ -1022]. A result of magnitude [2 ^ 1024]
    or more ([Infinity]) and a division by zero are outside the model. *)
Module Binary64.

Definition pow2 (e : Z) : Q := (2 ^ e)%Q.

(** The [e] with [2 ^ e <= x < 2 ^ (e + 1)], for a positive [x]. *)
Definition exponent (x : Q) : Z :=
  let e := Z.log2 (Qnum x) - Z.log2 (Zpos (Qden x)) in
  if Qle_bool (pow2 e) x then e else e - 1.

(** The exponent of the unit in the last place of [x]. *)
Definition ulpExponent (x : Q) : Z := Z.max (exponent x - 52) (-1074).

(** The integer nearest to [x]; of two at the same distance, the even one. *)
Definition nearestEven (x : Q) : Z :=
  let f := Qfloor x in
  match (x - inject_Z f ?= 1 # 2)%Q with
  | Lt => f
  | Gt => f + 1
  | Eq => if Z.even f then f else f + 1
  end.

Definition roundPositive (x : Q) : Q :=
  let u := pow2 (ulpExponent x) in
  (inject_Z (nearestEven (x / u)) * u)%Q.

(** The binary64 number nearest to [x]. *)
Definition round (x : Q) : Q :=
  match Qnum x with
  | Z0 => 0%Q
  | Zpos _ => roundPositive x
  | Zneg _ => (- roundPositive (- x))%Q
  end.

(** [a + b], [a * b] and [a / b] on numbers. *)
Definition add (a b : Q) : Q := round (a + b).
Definition mul (a b : Q) : Q := round (a * b).
Definition div (a b : Q) : Q := round (a / b).

End Binary64.

(* ================================================================== *)
(** ** authController.ts: the code generator *)

(** [Math.floor(100000 + Math.random() * 900000)], [random] being the value
    returned by [Math.random()], a binary64 number of [[0, 1)]. *)
Definition otpNumber (random : Q) : Z :=
  Js.Math_floor (Binary64.add 100000 (Binary64.mul random 900000)).

Definition generateOTP (random : Q) : string :=
  Js.Number_toString (otpNumber random).

(* ================================================================== *)
(** ** Library and runtime services *)

Definition ObjectId := string.

(** The three error classes of [jsonwebtoken]; [TokenExpiredError] and
    [NotBeforeError] are subclasses of [JsonWebTokenError]. *)
Inductive JwtError := JsonWebTokenError | TokenExpiredError | NotBeforeError.

Definition instanceof_JsonWebTokenError (e : JwtError) : bool := true.

Definition instanceof_TokenExpiredError (e : JwtError) : bool :=
  match e with TokenExpiredError => true | _ => false end.

(** Result of [jwt.verify]: the [userId] of the decoded payload, or the error
    thrown. *)
Inductive JwtResult :=
| Decoded (userId : string)
| JwtThrows (e : JwtError).

Class Platform := {
  (** [mongoose.Types.ObjectId.isValid] *)
  ObjectId_isValid : string -> bool;
  (** the ObjectId a string is cast to in a query or by [new ObjectId(s)];
      an ObjectId is represented by its [toString()] *)
  ObjectId_cast : string -> ObjectId;
  (** the [_id] given to the n-th document the server creates *)
  ObjectId_fresh : nat -> ObjectId;
  (** [jwt.sign({ userId }, secret, { expiresIn: '30d' })] at a given time *)
  jwt_sign : string -> string -> Z -> string;
  (** [jwt.verify(token, secret)] at a given time *)
  jwt_verify : string -> string -> Z -> JwtResult;
  (** [parseFloat]; [None] is [NaN] *)
  parseFloat : string -> option Q;
  (** [new Date(s)]; [None] is an invalid date *)
  Date_parse : string -> option Z;
  (** [new Date(d.getFullYear(), d.getMonth(), 1)] in the server's time zone *)
  startOfMonth : Z -> Z;
  (** [new Date(d.getFullYear(), d.getMonth() + 1, 0, 23, 59, 59, 999)] *)
  endOfMonth : Z -> Z;
  (** [new Date(d.getFullYear(), 0, 1)] *)
  startOfYear : Z -> Z;
  (** [$dateToString] with format [%Y-%m-%d] *)
  dateToString : Z -> string
}.

(** [process.env] and the Twilio client built from it at start-up. *)
Record Config := {
  JWT_SECRET : option string;
  twilioClient : bool;
  TWILIO_PHONE_NUMBER : option string;
  NODE_ENV : option string
}.

(** What one request reads from its environment. *)
Record Env := {
  processEnv : Config;
  now : Z;                 (* new Date() / Date.now() *)
  random : Q;              (* Math.random() *)
  smsFails : bool;         (* client.messages.create rejects *)
  insertManyFails : bool   (* the storage layer rejects Category.insertMany *)
}.

(* ================================================================== *)
(** ** models: the documents and the store *)

Record User := {
  user_id : ObjectId;
  phoneNumber : string;
  otp : option string;
  otpExpires : option Z;
  isVerified : bool;
  user_createdAt : Z;
  user_updatedAt : Z
}.

Record Category := {
  cat_id : ObjectId;
  cat_name : string;
  cat_color : string;
  cat_icon : option string;
  cat_userId : string;
  cat_createdAt : Z;
  cat_updatedAt : Z
}.

Record Expense := {
  exp_id : ObjectId;
  amount : Q;
  description : string;
  categoryId : ObjectId;
  date : Z;
  receiptUrl : option string;
  exp_userId : string;
  exp_createdAt : Z;
  exp_updatedAt : Z
}.

Record Store := {
  users : list User;
  categories : list Category;
  expenses : list Expense;
  uploads : list string;   (* names of the files of the uploads directory *)
  created : nat            (* number of ObjectIds generated so far *)
}.

Definition with_users (s : Store) (us : list User) : Store :=
  {| users := us; categories := categories s; expenses := expenses s;
     uploads := uploads s; created := created s |}.

Definition with_categories (s : Store) (cs : list Category) : Store :=
  {| users := users s; categories := cs; expenses := expenses s;
     uploads := uploads s; created := created s |}.

Definition with_expenses (s : Store) (es : list Expense) : Store :=
  {| users := users s; categories := categories s; expenses := es;
     uploads := uploads s; created := created s |}.

Definition with_uploads (s : Store) (fs : list string) : Store :=
  {| users := users s; categories := categories s; expenses := expenses s;
     uploads := fs; created := created s |}.

Definition with_created (s : Store) (n : nat) : Store :=
  {| users := users s; categories := categories s; expenses := expenses s;
     uploads := uploads s; created := n |}.

(** BSON values as a query compares them: a string never equals an ObjectId,
    whatever their characters. *)
Inductive Bson :=
| BString (s : string)
| BObjectId (o : ObjectId).

Definition Bson_eqb (a b : Bson) : bool :=
  match a, b with
  | BString x, BString y => String.eqb x y
  | BObjectId x, BObjectId y => String.eqb x y
  | _, _ => false
  end.

(** The stored type of the owner field: [userId: { type: String }] in both
    [ExpenseSchema] and [CategorySchema]. *)
Definition exp_userId_bson (e : Expense) : Bson := BString (exp_userId e).

Module Mongo.

(** [Model.findOne(filter)] *)
Definition findOne {A} (filter : A -> bool) (coll : list A) : option A :=
  List.find filter coll.

(** [doc.save()] of a document read from the collection: the stored document
    with that [_id] is replaced. *)
Definition save {A} (idOf : A -> ObjectId) (doc : A) (coll : list A) : list A :=
  List.map (fun d => if String.eqb (idOf d) (idOf doc) then doc else d) coll.

(** [doc.save()] of a new document. *)
Definition insert {A} (doc : A) (coll : list A) : list A := coll ++ [doc].

(** [Model.findByIdAndDelete(id)]: the first document with that [_id] goes. *)
Fixpoint findByIdAndDelete {A} (idOf : A -> ObjectId) (id : ObjectId)
  (coll : list A) : list A :=
  match coll with
  | [] => []
  | d :: rest =>
      if String.eqb (idOf d) id then rest
      else d :: findByIdAndDelete idOf id rest
  end.

End Mongo.

(* ================================================================== *)
(** ** The JSON responses *)

Record UserView := {
  uv_id : string;
  uv_phoneNumber : string;
  uv_isVerified : bool;
  uv_createdAt : Z
}.

Record CategoryView := {
  cv_id : string;
  cv_name : string;
  cv_color : string;
  cv_icon : option string;
  cv_createdAt : Z;
  cv_updatedAt : Z
}.

(** The [category] object nested in an expense. *)
Record CategoryRef := {
  cr_id : string;
  cr_name : string;
  cr_color : string;
  cr_createdAt : Z;
  cr_updatedAt : Z
}.

Record ExpenseView := {
  ev_id : string;
  ev_title : string;
  ev_amount : Q;
  ev_categoryId : string;
  ev_category : CategoryRef;
  ev_date : Z;
  ev_photoUrl : option string;
  ev_userId : string;
  ev_createdAt : Z;
  ev_updatedAt : Z
}.

Record BreakdownItem := {
  bi_category : CategoryRef;
  bi_totalAmount : Q;
  bi_transactionCount : Z;
  bi_percentage : Z
}.

Record Summary := {
  totalExpenses : Q;
  monthlyExpenses : Q;
  categoryBreakdown : list BreakdownItem;
  recentTransactions : list ExpenseView
}.

Record CategoryStat := {
  cs_id : ObjectId;
  cs_name : string;
  cs_color : string;
  cs_icon : option string;
  cs_total : Q;
  cs_count : Z
}.

Record DayStat := {
  ds_day : string;
  ds_total : Q;
  ds_count : Z
}.

Record Stats := {
  totalAmount : Q;
  totalCount : Z;
  averagePerDay : Q;
  expensesByCategory : list CategoryStat;
  dailyExpenses : list DayStat;
  period : string;
  startDate : Z;
  endDate : Z
}.

Inductive Data :=
| NoData
| OtpSent (maskedPhone : string) (developmentOTP : option string)
| Session (token : string) (u : UserView)
| CategoryData (c : CategoryView)
| ExpenseData (e : ExpenseView)
| SummaryData (s : Summary)
| StatsData (s : Stats).

Record Response := {
  status : Z;
  success : bool;
  message : option string;
  data : Data
}.

(** [res.status(code).json({ success: false, message })] *)
Definition failure (code : Z) (msg : string) : Response :=
  {| status := code; success := false; message := Some msg; data := NoData |}.

(** [res.status(code).json({ success: true, message, data })] *)
Definition reply (code : Z) (msg : option string) (d : Data) : Response :=
  {| status := code; success := true; message := msg; data := d |}.

(** The error classes of the specification, read off a response. *)
Inductive ErrorClass :=
| InvalidInput | NotFound | InvalidCode | Expired | Unauthorized | Internal.

Definition classify (r : Response) : option ErrorClass :=
  if success r then None
  else if status r =? 404 then Some NotFound
  else if status r =? 401 then Some Unauthorized
  else if status r =? 400 then
    match message r with
    | Some "Invalid OTP" => Some InvalidCode
    | Some "OTP has expired. Please request a new one." => Some Expired
    | _ => Some InvalidInput
    end
  else Some Internal.

(* ================================================================== *)
(** ** The request *)

Record Body := {
  b_phoneNumber : option string;
  b_otp : option string;
  b_name : option string;
  b_color : option string;
  b_icon : option string;
  b_amount : option string;
  b_description : option string;
  b_categoryId : option string;
  b_date : option string
}.

(** [req.user], set by [authenticate]. *)
Record ReqUser := {
  ru_userId : string;
  ru_phoneNumber : string
}.

Record Request := {
  authorization : option string;   (* req.header('Authorization') *)
  params_id : string;              (* req.params.id *)
  query_period : option string;    (* req.query.period *)
  body : Body;
  file : option string;            (* req.file.filename *)
  req_user : option ReqUser
}.

Definition with_user (r : Request) (u : ReqUser) : Request :=
  {| authorization := authorization r; params_id := params_id r;
     query_period := query_period r; body := body r; file := file r;
     req_user := Some u |}.

Definition Handler := Env -> Request -> Store -> Response * Store.

(* ================================================================== *)
(** ** controllers/authController.ts *)

Section AuthController.
Context `{Platform}.

(** [jwt.sign] refuses an empty or missing secret by throwing; [None] is that
    exception. *)
Definition generateToken (env : Env) (userId : string) : option string :=
  match JWT_SECRET (processEnv env) with
  | Some secret =>
      if String.eqb secret "" then None
      else Some (jwt_sign secret userId (now env))
  | None => None
  end.

Definition defaultCategories : list (string * string * string) :=
  [ ("Food", "#10B981", "🍽️");
    ("Travel", "#3B82F6", "✈️");
    ("Stationery", "#F59E0B", "📝");
    ("Fast Food", "#EF4444", "🍕");
    ("Shopping", "#8B5CF6", "🛍️");
    ("Entertainment", "#EC4899", "🎬") ].

(** The unique index [{ userId: 1, name: 1 }] of the categories. *)
Definition violatesUniqueIndex (doc : Category) (coll : list Category) : bool :=
  existsb (fun c => String.eqb (cat_userId c) (cat_userId doc)
                    && String.eqb (cat_name c) (cat_name doc))%bool coll.

(** [Category.insertMany(docs)], ordered: the documents go in one by one and
    the first rejected one stops the insertion with an exception ([true] in
    the second component). The [_id]s are drawn from the generator. *)
Fixpoint insertMany (e : Env) (userId : string)
  (docs : list (string * string * string)) (n : nat) (coll : list Category)
  : list Category * nat * bool :=
  match docs with
  | [] => (coll, n, false)
  | (name, color, icon) :: rest =>
      let doc := {| cat_id := ObjectId_fresh n; cat_name := name;
                    cat_color := color; cat_icon := Some icon;
                    cat_userId := userId;
                    cat_createdAt := now e; cat_updatedAt := now e |} in
      if violatesUniqueIndex doc coll then (coll, n, true)
      else insertMany e userId rest (S n) (Mongo.insert doc coll)
  end.

(** [createDefaultCategories]: the [try] block and its [catch], which logs
    and returns. The boolean tells whether the [catch] ran. *)
Definition createDefaultCategories (e : Env) (userId : string) (s : Store)
  : Store * bool :=
  if insertManyFails e then (s, true)
  else
    let '(coll, n, thrown) :=
      insertMany e userId defaultCategories (created s) (categories s) in
    (with_created (with_categories s coll) n, thrown).

(** [/^\+[1-9]\d{1,14}$/.test(s)] *)
Definition phoneRegex_test (s : string) : bool :=
  match s with
  | String "+" (String c rest) =>
      (Js.isDigit c && negb (Ascii.eqb c "0")
       && Js.allDigits rest
       && Nat.leb 1 (String.length rest) && Nat.leb (String.length rest) 14)%bool
  | _ => false
  end.

(** [s.replace(/.(?=.{4})/g, '*')]: every character followed by at least four
    more becomes a star. *)
Fixpoint maskPhone (s : string) : string :=
  match s with
  | EmptyString => EmptyString
  | String c rest =>
      if Nat.leb 4 (String.length rest) then String "*" (maskPhone rest) else s
  end.

Definition byPhone (p : string) (u : User) : bool :=
  String.eqb (phoneNumber u) p.

Definition sendOTP : Handler := fun e req s =>
  match b_phoneNumber (body req) with
  | None => (failure 400 "Phone number is required", s)
  | Some phone =>
  if String.eqb phone "" then (failure 400 "Phone number is required", s)
  else if negb (phoneRegex_test phone) then
    (failure 400
       "Invalid phone number format. Please include country code (e.g., +1234567890)",
     s)
  else
    let code := generateOTP (random e) in
    let expires := now e + 10 * 60 * 1000 in
    let s' :=
      match Mongo.findOne (byPhone phone) (users s) with
      | None =>
          let user := {| user_id := ObjectId_fresh (created s);
                         phoneNumber := phone;
                         otp := Some code; otpExpires := Some expires;
                         isVerified := false;
                         user_createdAt := now e; user_updatedAt := now e |} in
          with_created (with_users s (Mongo.insert user (users s)))
                       (S (created s))
      | Some u =>
          let user := {| user_id := user_id u; phoneNumber := phoneNumber u;
                         otp := Some code; otpExpires := Some expires;
                         isVerified := isVerified u;
                         user_createdAt := user_createdAt u;
                         user_updatedAt := now e |} in
          with_users s (Mongo.save user_id user (users s))
      end in
    if (twilioClient (processEnv e)
        && negb (Js.falsy (TWILIO_PHONE_NUMBER (processEnv e))))%bool
    then
      if smsFails e then
        (failure 500
           "Failed to send OTP. Please check your phone number and try again.",
         s')
      else
        (reply 200 (Some "OTP sent successfully")
           (OtpSent (maskPhone phone) None), s')
    else
      (reply 200
         (Some "OTP generated successfully (Check server console for development OTP)")
         (OtpSent (maskPhone phone)
            (match NODE_ENV (processEnv e) with
             | Some mode =>
                 if String.eqb mode "development" then Some code else None
             | None => None
             end)),
       s')
  end.

Definition verifyOTP : Handler := fun e req s =>
  if (Js.falsy (b_phoneNumber (body req)) || Js.falsy (b_otp (body req)))%bool
  then (failure 400 "Phone number and OTP are required", s)
  else
  match b_phoneNumber (body req), b_otp (body req) with
  | Some phone, Some code =>
      match Mongo.findOne (byPhone phone) (users s) with
      | None => (failure 404 "User not found. Please request a new OTP.", s)
      | Some user =>
          if Js.strictNeq (otp user) code then (failure 400 "Invalid OTP", s)
          else if match otpExpires user with
                  | None => true
                  | Some expires => expires <? now e
                  end
          then (failure 400 "OTP has expired. Please request a new one.", s)
          else
            let isNewUser := negb (isVerified user) in
            let user' := {| user_id := user_id user;
                            phoneNumber := phoneNumber user;
                            otp := None; otpExpires := None;
                            isVerified := true;
                            user_createdAt := user_createdAt user;
                            user_updatedAt := now e |} in
            let s1 := with_users s (Mongo.save user_id user' (users s)) in
            let s2 := if isNewUser
                      then fst (createDefaultCategories e (user_id user') s1)
                      else s1 in
            match generateToken e (user_id user') with
            | None => (failure 500 "Internal server error", s2)
            | Some token =>
                (reply 200 (Some "Phone number verified successfully")
                   (Session token
                      {| uv_id := user_id user';
                         uv_phoneNumber := phoneNumber user';
                         uv_isVerified := isVerified user';
                         uv_createdAt := user_createdAt user' |}),
                 s2)
            end
      end
  | _, _ => (failure 400 "Phone number and OTP are required", s)
  end.

End AuthController.

(* ================================================================== *)
(** ** middleware/auth.ts *)

Section Middleware.
Context `{Platform}.

Definition byId (id : ObjectId) (u : User) : bool := String.eqb (user_id u) id.

(** [authenticate]: [next] is the rest of the route's chain, entered by the
    call [next()] with [req.user] set. [User.findById] casts its argument to
    an ObjectId and rejects when that is impossible; the rejection reaches the
    [catch], where it is none of the JWT errors. *)
Definition authenticate (next : Handler) : Handler := fun e req s =>
  match authorization req with
  | None =>
      (failure 401 "Access denied. No token provided or invalid format.", s)
  | Some authHeader =>
  if negb (String.prefix "Bearer " authHeader) then
    (failure 401 "Access denied. No token provided or invalid format.", s)
  else
    let token := String.substring 7 (String.length authHeader - 7) authHeader in
    match JWT_SECRET (processEnv e) with
    | None => (failure 500 "Server configuration error.", s)
    | Some secret =>
    if String.eqb secret "" then (failure 500 "Server configuration error.", s)
    else
      match jwt_verify token secret (now e) with
      | JwtThrows error =>
          if instanceof_JsonWebTokenError error then
            (failure 401 "Invalid token.", s)
          else if instanceof_TokenExpiredError error then
            (failure 401 "Token expired. Please login again.", s)
          else (failure 500 "Internal server error during authentication.", s)
      | Decoded userId =>
          if negb (ObjectId_isValid userId) then
            (failure 500 "Internal server error during authentication.", s)
          else
            match Mongo.findOne (byId (ObjectId_cast userId)) (users s) with
            | None => (failure 401 "User no longer exists.", s)
            | Some user =>
                if negb (isVerified user) then
                  (failure 401
                     "Account not verified. Please verify your phone number.",
                   s)
                else
                  next e (with_user req {| ru_userId := user_id user;
                                           ru_phoneNumber := phoneNumber user |})
                       s
            end
      end
    end
  end.

End Middleware.

(* ================================================================== *)
(** ** controllers/categoryController.ts *)

Section CategoryController.
Context `{Platform}.

(** [req.user?.userId] *)
Definition userIdOf (req : Request) : option string :=
  match req_user req with
  | Some u => Some (ru_userId u)
  | None => None
  end.

Definition isHex (c : ascii) : bool :=
  let n := nat_of_ascii c in
  ((Nat.leb 48 n && Nat.leb n 57) || (Nat.leb 65 n && Nat.leb n 70)
   || (Nat.leb 97 n && Nat.leb n 102))%bool.

Fixpoint allHex (s : string) : bool :=
  match s with
  | EmptyString => true
  | String c rest => (isHex c && allHex rest)%bool
  end.

(** [/^#([A-Fa-f0-9]{6}|[A-Fa-f0-9]{3})$/.test(s)] *)
Definition colorRegex_test (s : string) : bool :=
  match s with
  | String "#" rest =>
      (allHex rest && (Nat.eqb (String.length rest) 6
                       || Nat.eqb (String.length rest) 3))%bool
  | _ => false
  end.

(** The validators of [CategorySchema] run by [save]: [name] required and of
    at most 50 characters, [color] required and a hex colour. *)
Definition validCategory (c : Category) : bool :=
  (negb (String.eqb (cat_name c) "") && Nat.leb (String.length (cat_name c)) 50
   && colorRegex_test (cat_color c))%bool.

(** The filter [{ _id: id, userId }]. *)
Definition catByIdAndOwner (id userId : string) (c : Category) : bool :=
  (String.eqb (cat_id c) (ObjectId_cast id)
   && String.eqb (cat_userId c) userId)%bool.

(** The filter [{ name, userId, _id: { $ne: id } }]. *)
Definition catNameTaken (name userId id : string) (c : Category) : bool :=
  (String.eqb (cat_name c) name && String.eqb (cat_userId c) userId
   && negb (String.eqb (cat_id c) (ObjectId_cast id)))%bool.

Definition transformCategory (c : Category) : CategoryView :=
  {| cv_id := cat_id c; cv_name := cat_name c; cv_color := cat_color c;
     cv_icon := cat_icon c; cv_createdAt := cat_createdAt c;
     cv_updatedAt := cat_updatedAt c |}.

Definition getCategoryById : Handler := fun e req s =>
  match userIdOf req with
  | None => (failure 401 "User not authenticated", s)
  | Some userId =>
  if String.eqb userId "" then (failure 401 "User not authenticated", s)
  else if negb (ObjectId_isValid (params_id req)) then
    (failure 400 "Invalid category ID", s)
  else
    match Mongo.findOne (catByIdAndOwner (params_id req) userId) (categories s) with
    | None => (failure 404 "Category not found", s)
    | Some category => (reply 200 None (CategoryData (transformCategory category)), s)
    end
  end.

Definition updateCategory : Handler := fun e req s =>
  match userIdOf req with
  | None => (failure 401 "User not authenticated", s)
  | Some userId =>
  if String.eqb userId "" then (failure 401 "User not authenticated", s)
  else if negb (ObjectId_isValid (params_id req)) then
    (failure 400 "Invalid category ID", s)
  else if (Js.falsy (b_name (body req)) || Js.falsy (b_color (body req)))%bool then
    (failure 400 "Name and color are required", s)
  else
  match b_name (body req), b_color (body req) with
  | Some name, Some color =>
    match Mongo.findOne (catByIdAndOwner (params_id req) userId) (categories s) with
    | None => (failure 404 "Category not found", s)
    | Some category =>
        match Mongo.findOne (catNameTaken (Js.trim name) userId (params_id req))
                (categories s) with
        | Some _ => (failure 400 "Category with this name already exists", s)
        | None =>
            let category' :=
              {| cat_id := cat_id category;
                 cat_name := Js.trim name;
                 cat_color := color;
                 cat_icon := match b_icon (body req) with
                             | Some icon => Some (Js.trim icon)
                             | None => cat_icon category
                             end;
                 cat_userId := cat_userId category;
                 cat_createdAt := cat_createdAt category;
                 cat_updatedAt := now e |} in
            if negb (validCategory category') then
              (failure 500 "Internal server error", s)
            else
              (reply 200 (Some "Category updated successfully")
                 (CategoryData (transformCategory category')),
               with_categories s (Mongo.save cat_id category' (categories s)))
        end
    end
  | _, _ => (failure 400 "Name and color are required", s)
  end
  end.

Definition deleteCategory : Handler := fun e req s =>
  match userIdOf req with
  | None => (failure 401 "User not authenticated", s)
  | Some userId =>
  if String.eqb userId "" then (failure 401 "User not authenticated", s)
  else if negb (ObjectId_isValid (params_id req)) then
    (failure 400 "Invalid category ID", s)
  else
    match Mongo.findOne (catByIdAndOwner (params_id req) userId) (categories s) with
    | None => (failure 404 "Category not found", s)
    | Some _ =>
        (reply 200 (Some "Category deleted successfully") NoData,
         with_categories s
           (Mongo.findByIdAndDelete cat_id (ObjectId_cast (params_id req))
              (categories s)))
    end
  end.

End CategoryController.

(* ================================================================== *)
(** ** controllers/expenseController.ts: the single-record handlers *)

(** A handler step that either answers the request or goes on. *)
Inductive Step (A : Type) :=
| Return (r : Response)
| Continue (a : A).
Arguments Return {A} r.
Arguments Continue {A} a.

Fixpoint afterLastSlash (s : string) : option string :=
  match s with
  | EmptyString => None
  | String c rest =>
      match afterLastSlash rest with
      | Some t => Some t
      | None => if Ascii.eqb c "/" then Some rest else None
      end
  end.

(** [path.basename] *)
Definition basename (s : string) : string :=
  match afterLastSlash s with
  | Some t => t
  | None => s
  end.

(** [if (fs.existsSync(p)) fs.unlinkSync(p)] in the uploads directory. *)
Definition unlinkIfExists (name : string) (files : list string) : list string :=
  List.filter (fun f => negb (String.eqb f name)) files.

(** The receipt of an expense is removed when [receiptUrl] is truthy. *)
Definition removeReceipt (e : Expense) (files : list string) : list string :=
  match receiptUrl e with
  | Some url =>
      if String.eqb url "" then files else unlinkIfExists (basename url) files
  | None => files
  end.

Definition set_amount (x : Expense) (v : Q) : Expense :=
  {| exp_id := exp_id x; amount := v; description := description x;
     categoryId := categoryId x; date := date x; receiptUrl := receiptUrl x;
     exp_userId := exp_userId x; exp_createdAt := exp_createdAt x;
     exp_updatedAt := exp_updatedAt x |}.

Definition set_categoryId (x : Expense) (c : ObjectId) : Expense :=
  {| exp_id := exp_id x; amount := amount x; description := description x;
     categoryId := c; date := date x; receiptUrl := receiptUrl x;
     exp_userId := exp_userId x; exp_createdAt := exp_createdAt x;
     exp_updatedAt := exp_updatedAt x |}.

Definition set_description (x : Expense) (d : string) : Expense :=
  {| exp_id := exp_id x; amount := amount x; description := d;
     categoryId := categoryId x; date := date x; receiptUrl := receiptUrl x;
     exp_userId := exp_userId x; exp_createdAt := exp_createdAt x;
     exp_updatedAt := exp_updatedAt x |}.

Definition set_date (x : Expense) (d : Z) : Expense :=
  {| exp_id := exp_id x; amount := amount x; description := description x;
     categoryId := categoryId x; date := d; receiptUrl := receiptUrl x;
     exp_userId := exp_userId x; exp_createdAt := exp_createdAt x;
     exp_updatedAt := exp_updatedAt x |}.

Definition set_receiptUrl (x : Expense) (u : option string) : Expense :=
  {| exp_id := exp_id x; amount := amount x; description := description x;
     categoryId := categoryId x; date := date x; receiptUrl := u;
     exp_userId := exp_userId x; exp_createdAt := exp_createdAt x;
     exp_updatedAt := exp_updatedAt x |}.

Definition set_updatedAt (x : Expense) (t : Z) : Expense :=
  {| exp_id := exp_id x; amount := amount x; description := description x;
     categoryId := categoryId x; date := date x; receiptUrl := receiptUrl x;
     exp_userId := exp_userId x; exp_createdAt := exp_createdAt x;
     exp_updatedAt := t |}.

(** The validators of [ExpenseSchema] run by [save]: [amount] at least 0.01,
    [description] required and of at most 200 characters. *)
Definition validExpense (x : Expense) : bool :=
  (Qle_bool (1 # 100) (amount x)
   && negb (String.eqb (description x) "")
   && Nat.leb (String.length (description x)) 200)%bool.

Section ExpenseController.
Context `{Platform}.

(** The filter [{ _id: id, userId }]. *)
Definition expByIdAndOwner (id userId : string) (x : Expense) : bool :=
  (String.eqb (exp_id x) (ObjectId_cast id)
   && String.eqb (exp_userId x) userId)%bool.

(** [populate('categoryId', 'name color icon')]: the category with that
    [_id], whoever owns it. *)
Definition populate (x : Expense) (s : Store) : option Category :=
  Mongo.findOne (fun c => String.eqb (cat_id c) (categoryId x)) (categories s).

(** The nested [category] of a populated expense. Only [name], [color] and
    [icon] are selected, so both timestamps fall back to the current time. *)
Definition populatedRef (e : Env) (c : Category) : CategoryRef :=
  {| cr_id := cat_id c;
     cr_name := cat_name c;
     cr_color := if String.eqb (cat_color c) "" then "#10B981" else cat_color c;
     cr_createdAt := now e;
     cr_updatedAt := now e |}.

Definition transformExpense (e : Env) (x : Expense) (c : Category) : ExpenseView :=
  {| ev_id := exp_id x;
     ev_title := description x;
     ev_amount := amount x;
     ev_categoryId := cat_id c;
     ev_category := populatedRef e c;
     ev_date := date x;
     ev_photoUrl := receiptUrl x;
     ev_userId := exp_userId x;
     ev_createdAt := exp_createdAt x;
     ev_updatedAt := exp_updatedAt x |}.

Definition getExpenseById : Handler := fun e req s =>
  match userIdOf req with
  | None => (failure 401 "User not authenticated", s)
  | Some userId =>
  if String.eqb userId "" then (failure 401 "User not authenticated", s)
  else if negb (ObjectId_isValid (params_id req)) then
    (failure 400 "Invalid expense ID", s)
  else
    match Mongo.findOne (expByIdAndOwner (params_id req) userId) (expenses s) with
    | None => (failure 404 "Expense not found", s)
    | Some expense =>
        match populate expense s with
        | None => (failure 500 "Failed to populate category information", s)
        | Some c => (reply 200 None (ExpenseData (transformExpense e expense c)), s)
        end
    end
  end.

Definition updateAmount (req : Request) (x : Expense) : Step Expense :=
  match b_amount (body req) with
  | None => Continue x
  | Some a =>
      match parseFloat a with
      | None => Return (failure 400 "Amount must be a positive number")
      | Some amountNum =>
          if Qle_bool amountNum 0 then
            Return (failure 400 "Amount must be a positive number")
          else Continue (set_amount x amountNum)
      end
  end.

Definition updateCategoryRef (req : Request) (userId : string) (s : Store)
  (x : Expense) : Step Expense :=
  match b_categoryId (body req) with
  | None => Continue x
  | Some cid =>
      if negb (ObjectId_isValid cid) then
        Return (failure 400 "Invalid category ID")
      else
        match Mongo.findOne (catByIdAndOwner cid userId) (categories s) with
        | None => Return (failure 404 "Category not found")
        | Some _ => Continue (set_categoryId x (ObjectId_cast cid))
        end
  end.

(** [description] and [date]; an unparsable date is an invalid [Date], which
    [save] rejects. *)
Definition updateOtherFields (req : Request) (x : Expense) : option Expense :=
  let x1 := match b_description (body req) with
            | Some d => set_description x (Js.trim d)
            | None => x
            end in
  match b_date (body req) with
  | None => Some x1
  | Some d =>
      match Date_parse d with
      | Some t => Some (set_date x1 t)
      | None => None
      end
  end.

(** The file of [req.file] was written to the uploads directory by the upload
    middleware before the handler runs. *)
Definition updateExpense : Handler := fun e req s =>
  match userIdOf req with
  | None => (failure 401 "User not authenticated", s)
  | Some userId =>
  if String.eqb userId "" then (failure 401 "User not authenticated", s)
  else if negb (ObjectId_isValid (params_id req)) then
    (failure 400 "Invalid expense ID", s)
  else
    match Mongo.findOne (expByIdAndOwner (params_id req) userId) (expenses s) with
    | None => (failure 404 "Expense not found", s)
    | Some expense =>
    match updateAmount req expense with
    | Return r => (r, s)
    | Continue expense1 =>
    match updateCategoryRef req userId s expense1 with
    | Return r => (r, s)
    | Continue expense2 =>
        let s1 := match file req with
                  | Some _ => with_uploads s (removeReceipt expense2 (uploads s))
                  | None => s
                  end in
        match updateOtherFields req expense2 with
        | None => (failure 500 "Internal server error", s1)
        | Some expense3 =>
            let expense4 :=
              match file req with
              | Some filename =>
                  set_receiptUrl expense3 (Some ("/uploads/" ++ filename))
              | None => expense3
              end in
            let expense5 := set_updatedAt expense4 (now e) in
            if negb (validExpense expense5) then
              (failure 500 "Internal server error", s1)
            else
              let s2 := with_expenses s1 (Mongo.save exp_id expense5 (expenses s1)) in
              match populate expense5 s2 with
              | None =>
                  (failure 500 "Failed to populate category information", s2)
              | Some c =>
                  (reply 200 (Some "Expense updated successfully")
                     (ExpenseData (transformExpense e expense5 c)), s2)
              end
        end
    end
    end
    end
  end.

Definition deleteExpense : Handler := fun e req s =>
  match userIdOf req with
  | None => (failure 401 "User not authenticated", s)
  | Some userId =>
  if String.eqb userId "" then (failure 401 "User not authenticated", s)
  else if negb (ObjectId_isValid (params_id req)) then
    (failure 400 "Invalid expense ID", s)
  else
    match Mongo.findOne (expByIdAndOwner (params_id req) userId) (expenses s) with
    | None => (failure 404 "Expense not found", s)
    | Some expense =>
        let s1 := with_uploads s (removeReceipt expense (uploads s)) in
        (reply 200 (Some "Expense deleted successfully") NoData,
         with_expenses s1
           (Mongo.findByIdAndDelete exp_id (ObjectId_cast (params_id req))
              (expenses s1)))
    end
  end.

End ExpenseController.

(* ================================================================== *)
(** ** controllers/expenseController.ts: the aggregations *)

Module Aggregate.

(** [{ $sum: '$amount' }] *)
Definition sumAmounts (l : list Expense) : Q :=
  fold_left (fun acc x => (acc + amount x)%Q) l 0%Q.

Definition count (l : list Expense) : Z := Z.of_nat (List.length l).

(** [{ $group: { _id: null, total, count } }]: one document, none when the
    stage receives nothing. *)
Definition groupAll (l : list Expense) : list (Q * Z) :=
  match l with
  | [] => []
  | _ => [(sumAmounts l, count l)]
  end.

(** [$lookup] into the categories on [categoryId = _id] followed by
    [$unwind]: one document per matching category, none for a dangling
    reference. *)
Definition lookupUnwind (cats : list Category) (l : list Expense)
  : list (Expense * Category) :=
  flat_map (fun x =>
    map (fun c => (x, c))
        (filter (fun c => String.eqb (cat_id c) (categoryId x)) cats)) l.

(** One group of [{ $group: { _id: '$categoryId', ... } }]. *)
Record Group := {
  g_id : ObjectId;
  g_category : Category;   (* { $first: '$category' } *)
  g_total : Q;             (* { $sum: '$amount' } *)
  g_count : Z              (* { $sum: 1 } *)
}.

Fixpoint addToGroups (x : Expense) (c : Category) (gs : list Group) : list Group :=
  match gs with
  | [] => [ {| g_id := categoryId x; g_category := c;
               g_total := (0 + amount x)%Q; g_count := 1 |} ]
  | g :: rest =>
      if String.eqb (g_id g) (categoryId x) then
        {| g_id := g_id g; g_category := g_category g;
           g_total := (g_total g + amount x)%Q; g_count := g_count g + 1 |} :: rest
      else g :: addToGroups x c rest
  end.

Definition groupByCategory (l : list (Expense * Category)) : list Group :=
  fold_left (fun gs xc => addToGroups (fst xc) (snd xc) gs) l [].

(** [$sort] and [.sort()]: MongoDB leaves the order of documents that are
    equal on the sort keys open; here they keep their incoming order. *)
Fixpoint insertBy {A} (precedes : A -> A -> bool) (x : A) (l : list A) : list A :=
  match l with
  | [] => [x]
  | y :: rest =>
      if precedes x y then x :: l else y :: insertBy precedes x rest
  end.

Definition sortBy {A} (precedes : A -> A -> bool) (l : list A) : list A :=
  fold_right (insertBy precedes) [] l.

(** One group of the per-day series. *)
Fixpoint addToDays (day : string) (x : Expense) (ds : list DayStat) : list DayStat :=
  match ds with
  | [] => [ {| ds_day := day; ds_total := (0 + amount x)%Q; ds_count := 1 |} ]
  | d :: rest =>
      if String.eqb (ds_day d) day then
        {| ds_day := ds_day d; ds_total := (ds_total d + amount x)%Q;
           ds_count := ds_count d + 1 |} :: rest
      else d :: addToDays day x rest
  end.

End Aggregate.

Section ExpenseAggregations.
Context `{Platform}.

(** [{ date: -1, createdAt: -1 }] *)
Definition newerFirst (a b : Expense) : bool :=
  ((date b <? date a)
   || ((date a =? date b) && (exp_createdAt b <=? exp_createdAt a)))%bool.

(** [{ date: { $gte: lo, $lte: hi } }] *)
Definition dateWithin (lo hi : Z) (x : Expense) : bool :=
  ((lo <=? date x) && (date x <=? hi))%bool.

(** [item.category] of the breakdown is the whole category document. *)
Definition breakdownItem (monthly : Q) (g : Aggregate.Group) : BreakdownItem :=
  {| bi_category :=
       {| cr_id := Aggregate.g_id g;
          cr_name := cat_name (Aggregate.g_category g);
          cr_color := cat_color (Aggregate.g_category g);
          cr_createdAt := cat_createdAt (Aggregate.g_category g);
          cr_updatedAt := cat_updatedAt (Aggregate.g_category g) |};
     bi_totalAmount := Aggregate.g_total g;
     bi_transactionCount := Aggregate.g_count g;
     bi_percentage :=
       if negb (Qle_bool monthly 0)
       then Js.Math_round
              (Binary64.mul (Binary64.div (Aggregate.g_total g) monthly) 100)
       else 0 |}.

(** The recent transaction of the summary: no [photoUrl] key, and [null] when
    the category is not populated. *)
Definition formatRecent (e : Env) (s : Store) (x : Expense) : option ExpenseView :=
  match populate x s with
  | None => None
  | Some c =>
      Some {| ev_id := exp_id x; ev_title := description x;
              ev_amount := amount x; ev_categoryId := cat_id c;
              ev_category := populatedRef e c; ev_date := date x;
              ev_photoUrl := None; ev_userId := exp_userId x;
              ev_createdAt := exp_createdAt x;
              ev_updatedAt := exp_updatedAt x |}
  end.

(** [.filter(Boolean)] after the [map]. *)
Fixpoint dropNulls {A} (l : list (option A)) : list A :=
  match l with
  | [] => []
  | Some a :: rest => a :: dropNulls rest
  | None :: rest => dropNulls rest
  end.

(** The documents of a user that an aggregation [$match] on
    [userId: <value>] lets through: the stored string is compared with the
    value as given, without any cast. *)
Definition matchUserId (value : Bson) (l : list Expense) : list Expense :=
  filter (fun x => Bson_eqb (exp_userId_bson x) value) l.

(** [Expense.find({ userId })]: the filter is cast to the schema's string. *)
Definition findByUser (userId : string) (l : list Expense) : list Expense :=
  filter (fun x => String.eqb (exp_userId x) userId) l.

Definition firstTotal (r : list (Q * Z)) : Q :=
  match r with
  | (total, _) :: _ => total
  | [] => 0%Q
  end.

Definition firstCount (r : list (Q * Z)) : Z :=
  match r with
  | (_, n) :: _ => n
  | [] => 0
  end.

Definition summarize (e : Env) (userId : string) (s : Store) : Summary :=
  let lo := startOfMonth (now e) in
  let hi := endOfMonth (now e) in
  let totalExpensesResult :=
    Aggregate.groupAll (matchUserId (BString userId) (expenses s)) in
  let inMonth :=
    filter (dateWithin lo hi) (matchUserId (BString userId) (expenses s)) in
  let monthlyExpensesResult := Aggregate.groupAll inMonth in
  let breakdown :=
    Aggregate.sortBy
      (fun a b => Qle_bool (Aggregate.g_total b) (Aggregate.g_total a))
      (Aggregate.groupByCategory
         (Aggregate.lookupUnwind (categories s) inMonth)) in
  let recent :=
    firstn 5 (Aggregate.sortBy newerFirst (findByUser userId (expenses s))) in
  let monthly := firstTotal monthlyExpensesResult in
  {| totalExpenses := firstTotal totalExpensesResult;
     monthlyExpenses := monthly;
     categoryBreakdown := map (breakdownItem monthly) breakdown;
     recentTransactions := dropNulls (map (formatRecent e s) recent) |}.

Definition getExpenseSummary : Handler := fun e req s =>
  match userIdOf req with
  | None => (failure 401 "User not authenticated", s)
  | Some userId =>
  if String.eqb userId "" then (failure 401 "User not authenticated", s)
  else (reply 200 None (SummaryData (summarize e userId s)), s)
  end.

(** The [switch] on [period]; an absent [period] is ['month']. *)
Definition periodStart (e : Env) (p : string) : Z :=
  if String.eqb p "week" then now e - 7 * 24 * 60 * 60 * 1000
  else if String.eqb p "year" then startOfYear (now e)
  else startOfMonth (now e).

Definition categoryStat (g : Aggregate.Group) : CategoryStat :=
  {| cs_id := Aggregate.g_id g;
     cs_name := cat_name (Aggregate.g_category g);
     cs_color := cat_color (Aggregate.g_category g);
     cs_icon := cat_icon (Aggregate.g_category g);
     cs_total := Aggregate.g_total g;
     cs_count := Aggregate.g_count g |}.

Definition periodStats (e : Env) (userId : string) (p : string) (s : Store)
  : Stats :=
  let start := periodStart e p in
  (* userId: new mongoose.Types.ObjectId(userId) *)
  let owner := BObjectId (ObjectId_cast userId) in
  let matched := filter (dateWithin start (now e)) (matchUserId owner (expenses s)) in
  let totals := Aggregate.groupAll matched in
  let byCategory :=
    Aggregate.sortBy
      (fun a b => Qle_bool (Aggregate.g_total b) (Aggregate.g_total a))
      (Aggregate.groupByCategory
         (Aggregate.lookupUnwind (categories s) matched)) in
  let daily :=
    Aggregate.sortBy (fun a b => String.leb (ds_day a) (ds_day b))
      (fold_left (fun ds x => Aggregate.addToDays (dateToString (date x)) x ds)
                 matched []) in
  let daysDiff := Qceiling (inject_Z (now e - start) / inject_Z (1000 * 60 * 60 * 24))%Q in
  {| totalAmount := firstTotal totals;
     totalCount := firstCount totals;
     averagePerDay := if 0 <? daysDiff
                      then (firstTotal totals / inject_Z daysDiff)%Q
                      else 0%Q;
     expensesByCategory := map categoryStat byCategory;
     dailyExpenses := daily;
     period := p;
     startDate := start;
     endDate := now e |}.

(** [new mongoose.Types.ObjectId(userId)] throws on a string that is no
    ObjectId, which the [catch] turns into the 500 answer. *)
Definition getExpenseStats : Handler := fun e req s =>
  match userIdOf req with
  | None => (failure 401 "User not authenticated", s)
  | Some userId =>
  if String.eqb userId "" then (failure 401 "User not authenticated", s)
  else if negb (ObjectId_isValid userId) then
    (failure 500 "Internal server error", s)
  else
    let p := match query_period req with Some p => p | None => "month" end in
    (reply 200 None (StatsData (periodStats e userId p s)), s)
  end.

End ExpenseAggregations.

(* ================================================================== *)
(** ** routes: which handler serves which endpoint, behind which middleware *)

Inductive Endpoint :=
| AuthSendOtp | AuthVerifyOtp | AuthMe | Health
| CategoriesList | CategoriesCreate | CategoriesGet | CategoriesUpdate
| CategoriesDelete
| ExpensesSummary | ExpensesStats | ExpensesList | ExpensesCreate
| ExpensesGet | ExpensesUpdate | ExpensesDelete.

(** [router.use(authenticate)] in routes/categories.ts and routes/expenses.ts,
    and [router.get('/me', authenticate, getCurrentUser)] in routes/auth.ts. *)
Definition guarded (ep : Endpoint) : bool :=
  match ep with
  | AuthSendOtp | AuthVerifyOtp | Health => false
  | _ => true
  end.

Section Routes.
Context `{Platform}.

(** The handlers that are not embedded above (the listings, the creations,
    [/me] and [/health]) are left open. *)
Variable others : Endpoint -> Handler.

Definition controllerOf (ep : Endpoint) : Handler :=
  match ep with
  | AuthSendOtp => sendOTP
  | AuthVerifyOtp => verifyOTP
  | CategoriesGet => getCategoryById
  | CategoriesUpdate => updateCategory
  | CategoriesDelete => deleteCategory
  | ExpensesSummary => getExpenseSummary
  | ExpensesStats => getExpenseStats
  | ExpensesGet => getExpenseById
  | ExpensesUpdate => updateExpense
  | ExpensesDelete => deleteExpense
  | ep' => others ep'
  end.

Definition route (ep : Endpoint) : Handler :=
  if guarded ep then authenticate (controllerOf ep) else controllerOf ep.

End Routes.

(* ================================================================== *)
(** ** A reference platform

    An instance of [Platform] to run the handlers on concrete requests: 24
    hexadecimal digits for an ObjectId, the proleptic Gregorian calendar in
    UTC, decimal renderings for numbers and dates, and a token that is the
    user id, the expiry instant and the secret side by side. *)

Module Reference.

Fixpoint parseDigits (s : string) (acc : Z) : option Z :=
  match s with
  | EmptyString => Some acc
  | String c rest =>
      if Js.isDigit c
      then parseDigits rest (10 * acc + Z.of_nat (nat_of_ascii c - 48))
      else None
  end.

Definition parseDecimal (s : string) : option Z :=
  match s with
  | EmptyString => None
  | _ => parseDigits s 0
  end.

Fixpoint zeros (n : nat) : string :=
  match n with
  | O => EmptyString
  | S n' => String "0" (zeros n')
  end.

Definition padStart (width : nat) (s : string) : string :=
  zeros (width - String.length s) ++ s.

Definition isValid (s : string) : bool :=
  (Nat.eqb (String.length s) 24 && allHex s)%bool.

Definition fresh (n : nat) : ObjectId :=
  padStart 24 (Js.Number_toString (Z.of_nat n)).

Definition thirtyDays : Z := 30 * 24 * 60 * 60 * 1000.

Definition sign (secret userId : string) (t : Z) : string :=
  userId ++ padStart 13 (Js.Number_toString (t + thirtyDays)) ++ secret.

Definition verify (token secret : string) (t : Z) : JwtResult :=
  if negb (String.eqb (String.substring 37 (String.length token - 37) token) secret)
  then JwtThrows JsonWebTokenError
  else
    match parseDecimal (String.substring 24 13 token) with
    | None => JwtThrows JsonWebTokenError
    | Some expiry =>
        if expiry <? t then JwtThrows TokenExpiredError
        else Decoded (String.substring 0 24 token)
    end.

Definition msPerDay : Z := 24 * 60 * 60 * 1000.

(** Day number since 1970-01-01 of a civil date. *)
Definition daysFromCivil (y m d : Z) : Z :=
  let y' := if m <=? 2 then y - 1 else y in
  let era := y' / 400 in
  let yoe := y' - era * 400 in
  let doy := (153 * (if 2 <? m then m - 3 else m + 9) + 2) / 5 + d - 1 in
  let doe := yoe * 365 + yoe / 4 - yoe / 100 + doy in
  era * 146097 + doe - 719468.

(** Civil date (year, month, day) of a day number. *)
Definition civilFromDays (z : Z) : Z * Z * Z :=
  let z' := z + 719468 in
  let era := z' / 146097 in
  let doe := z' - era * 146097 in
  let yoe := (doe - doe / 1460 + doe / 36524 - doe / 146096) / 365 in
  let doy := doe - (365 * yoe + yoe / 4 - yoe / 100) in
  let mp := (5 * doy + 2) / 153 in
  let d := doy - (153 * mp + 2) / 5 + 1 in
  let m := if mp <? 10 then mp + 3 else mp - 9 in
  (if m <=? 2 then yoe + era * 400 + 1 else yoe + era * 400, m, d).

Definition monthStart (t : Z) : Z :=
  let '(y, m, _) := civilFromDays (t / msPerDay) in
  daysFromCivil y m 1 * msPerDay.

Definition monthEnd (t : Z) : Z :=
  let '(y, m, _) := civilFromDays (t / msPerDay) in
  (if m =? 12 then daysFromCivil (y + 1) 1 1 else daysFromCivil y (m + 1) 1)
  * msPerDay - 1.

Definition yearStart (t : Z) : Z :=
  let '(y, _, _) := civilFromDays (t / msPerDay) in
  daysFromCivil y 1 1 * msPerDay.

Definition isoDay (t : Z) : string :=
  let '(y, m, d) := civilFromDays (t / msPerDay) in
  padStart 4 (Js.Number_toString y) ++ "-"
  ++ padStart 2 (Js.Number_toString m) ++ "-"
  ++ padStart 2 (Js.Number_toString d).

(** 00:00:00.000 UTC of a civil date. *)
Definition utc (y m d : Z) : Z := daysFromCivil y m d * msPerDay.

#[export] Instance platform : Platform := {
  ObjectId_isValid := isValid;
  ObjectId_cast := fun s => s;
  ObjectId_fresh := fresh;
  jwt_sign := sign;
  jwt_verify := verify;
  parseFloat := fun s => option_map inject_Z (parseDecimal s);
  Date_parse := parseDecimal;
  startOfMonth := monthStart;
  endOfMonth := monthEnd;
  startOfYear := yearStart;
  dateToString := isoDay
}.

Definition config : Config :=
  {| JWT_SECRET := Some "s3cret"; twilioClient := false;
     TWILIO_PHONE_NUMBER := None; NODE_ENV := Some "development" |}.

Definition envAt (t : Z) (r : Q) : Env :=
  {| processEnv := config; now := t; random := r;
     smsFails := false; insertManyFails := false |}.

Definition emptyBody : Body :=
  {| b_phoneNumber := None; b_otp := None; b_name := None; b_color := None;
     b_icon := None; b_amount := None; b_description := None;
     b_categoryId := None; b_date := None |}.

Definition emptyStore : Store :=
  {| users := []; categories := []; expenses := []; uploads := []; created := 0 |}.

(** A request as a handler receives it behind [authenticate]. *)
Definition requestOf (userId id : string) (b : Body) : Request :=
  {| authorization := None; params_id := id; query_period := None; body := b;
     file := None;
     req_user := Some {| ru_userId := userId; ru_phoneNumber := "" |} |}.

Definition otpBody (phone : string) (code : option string) : Body :=
  {| b_phoneNumber := Some phone; b_otp := code; b_name := None; b_color := None;
     b_icon := None; b_amount := None; b_description := None;
     b_categoryId := None; b_date := None |}.

Definition otpRequest (phone : string) (code : option string) : Request :=
  {| authorization := None; params_id := ""; query_period := None;
     body := otpBody phone code; file := None; req_user := None |}.

End Reference.

(* ================================================================== *)
(** ** models/User.ts: the instance method *)

(** [isOTPValid], at a given time. *)
Definition isOTPValid (u : User) (code : string) (t : Z) : bool :=
  (negb (Js.strictNeq (otp u) code)
   && match otpExpires u with
      | None => false
      | Some expires => t <? expires
      end)%bool.

(* ================================================================== *)
(** ** middleware/auth.ts: the optional variant *)

Section OptionalAuth.
Context `{Platform}.

(** [optionalAuth]: every path ends in [next()]; an exception of
    [jwt.verify] or of [User.findById] is caught and ignored. *)
Definition optionalAuth (next : Handler) : Handler := fun e req s =>
  match authorization req with
  | None => next e req s
  | Some authHeader =>
  if negb (String.prefix "Bearer " authHeader) then next e req s
  else
    let token := String.substring 7 (String.length authHeader - 7) authHeader in
    match JWT_SECRET (processEnv e) with
    | None => next e req s
    | Some secret =>
    if String.eqb secret "" then next e req s
    else
      match jwt_verify token secret (now e) with
      | JwtThrows _ => next e req s
      | Decoded userId =>
          if negb (ObjectId_isValid userId) then next e req s
          else
            match Mongo.findOne (byId (ObjectId_cast userId)) (users s) with
            | Some user =>
                if isVerified user then
                  next e (with_user req {| ru_userId := user_id user;
                                           ru_phoneNumber := phoneNumber user |})
                       s
                else next e req s
            | None => next e req s
            end
      end
    end
  end.

End OptionalAuth.

(* ================================================================== *)
(** ** controllers/categoryController.ts: listing and creation *)

Section CategoryListing.
Context `{Platform}.

(** [{ createdAt: -1 }] *)
Definition newestCategoryFirst (a b : Category) : bool :=
  cat_createdAt b <=? cat_createdAt a.

(** [getCategories]: the failure answer, or the [data] array of the 200
    answer. *)
Definition getCategories (e : Env) (req : Request) (s : Store)
  : (Response + list CategoryView) * Store :=
  match userIdOf req with
  | None => (inl (failure 401 "User not authenticated"), s)
  | Some userId =>
  if String.eqb userId "" then (inl (failure 401 "User not authenticated"), s)
  else
    (inr (map transformCategory
            (Aggregate.sortBy newestCategoryFirst
               (filter (fun c => String.eqb (cat_userId c) userId)
                       (categories s)))),
     s)
  end.

(** The filter [{ name, userId }]. *)
Definition catByNameAndOwner (name userId : string) (c : Category) : bool :=
  (String.eqb (cat_name c) name && String.eqb (cat_userId c) userId)%bool.

(** The [pre('save')] hook of [CategorySchema] for a new document or a
    changed name, and the unique index behind it: both reject a document
    whose owner already has another category of that name. *)
Definition nameTakenByAnother (doc : Category) (coll : list Category) : bool :=
  existsb (fun c => String.eqb (cat_userId c) (cat_userId doc)
                    && String.eqb (cat_name c) (cat_name doc)
                    && negb (String.eqb (cat_id c) (cat_id doc)))%bool coll
  || violatesUniqueIndex doc coll.

(** [createCategory]. The filter of [Category.findOne({ name, userId })] is
    cast by the schema, whose [trim] applies to [name]. An [_id] drawn for a
    document that [save] rejects is drawn again for the next one. *)
Definition createCategory : Handler := fun e req s =>
  match userIdOf req with
  | None => (failure 401 "User not authenticated", s)
  | Some userId =>
  if String.eqb userId "" then (failure 401 "User not authenticated", s)
  else if (Js.falsy (b_name (body req)) || Js.falsy (b_color (body req)))%bool then
    (failure 400 "Name and color are required", s)
  else
  match b_name (body req), b_color (body req) with
  | Some name, Some color =>
      match Mongo.findOne (catByNameAndOwner (Js.trim name) userId)
                          (categories s) with
      | Some _ => (failure 400 "Category with this name already exists", s)
      | None =>
          let category :=
            {| cat_id := ObjectId_fresh (created s);
               cat_name := Js.trim name;
               cat_color := color;
               cat_icon := option_map Js.trim (b_icon (body req));
               cat_userId := userId;
               cat_createdAt := now e;
               cat_updatedAt := now e |} in
          if (negb (validCategory category)
              || nameTakenByAnother category (categories s))%bool then
            (failure 500 "Internal server error", s)
          else
            (reply 201 (Some "Category created successfully")
               (CategoryData (transformCategory category)),
             with_created
               (with_categories s (Mongo.insert category (categories s)))
               (S (created s)))
      end
  | _, _ => (failure 400 "Name and color are required", s)
  end
  end.

End CategoryListing.

(* ================================================================== *)
(** ** controllers/expenseController.ts: creation *)

Section ExpenseCreation.
Context `{Platform}.

(** [createExpense]. The file of [req.file] was written to the uploads
    directory by the upload middleware before the handler runs. *)
Definition createExpense : Handler := fun e req s =>
  match userIdOf req with
  | None => (failure 401 "User not authenticated", s)
  | Some userId =>
  if String.eqb userId "" then (failure 401 "User not authenticated", s)
  else if (Js.falsy (b_amount (body req)) || Js.falsy (b_description (body req))
           || Js.falsy (b_categoryId (body req)))%bool then
    (failure 400 "Amount, description, and category are required", s)
  else
  match b_amount (body req), b_description (body req), b_categoryId (body req) with
  | Some a, Some d, Some cid =>
      match parseFloat a with
      | None => (failure 400 "Amount must be a positive number", s)
      | Some amountNum =>
      if Qle_bool amountNum 0 then
        (failure 400 "Amount must be a positive number", s)
      else if negb (ObjectId_isValid cid) then
        (failure 400 "Invalid category ID", s)
      else
        match Mongo.findOne (catByIdAndOwner cid userId) (categories s) with
        | None => (failure 404 "Category not found", s)
        | Some _ =>
            (* date ? new Date(date) : new Date(); an invalid date is
               rejected by [save] *)
            match (match b_date (body req) with
                   | Some dt =>
                       if String.eqb dt "" then Some (now e) else Date_parse dt
                   | None => Some (now e)
                   end) with
            | None => (failure 500 "Internal server error", s)
            | Some day =>
                let expense :=
                  {| exp_id := ObjectId_fresh (created s);
                     amount := amountNum;
                     description := Js.trim d;
                     categoryId := ObjectId_cast cid;
                     date := day;
                     receiptUrl :=
                       match file req with
                       | Some filename => Some (Js.trim ("/uploads/" ++ filename))
                       | None => None
                       end;
                     exp_userId := userId;
                     exp_createdAt := now e;
                     exp_updatedAt := now e |} in
                if negb (validExpense expense) then
                  (failure 500 "Internal server error", s)
                else
                  let s1 := with_created
                              (with_expenses s (Mongo.insert expense (expenses s)))
                              (S (created s)) in
                  match populate expense s1 with
                  | None =>
                      (failure 500 "Failed to populate category information", s1)
                  | Some c =>
                      (reply 201 (Some "Expense created successfully")
                         (ExpenseData (transformExpense e expense c)), s1)
                  end
            end
        end
      end
  | _, _, _ => (failure 400 "Amount, description, and category are required", s)
  end
  end.

End ExpenseCreation.

(* ================================================================== *)
(** ** routes/expenses.ts: the upload filter *)

(** [fileFilter]: [true] when the callback accepts the file. *)
Definition fileFilter (mimetype : string) : bool :=
  String.prefix "image/" mimetype.

(* ================================================================== *)
(** ** The client: pages/Login.tsx and utils/helpers.ts *)

Module Client.

(** [/^[6-9]\d{9}$/.test(s)], the rule of the login form. *)
Definition mobileRegex_test (s : string) : bool :=
  match s with
  | String c rest =>
      (Nat.leb 54 (nat_of_ascii c) && Nat.leb (nat_of_ascii c) 57
       && Js.allDigits rest && Nat.eqb (String.length rest) 9)%bool
  | EmptyString => false
  end.

(** The phone number the login form submits. *)
Definition submittedPhone (mobile : string) : string := "+91" ++ mobile.

(** [isValidOTP]: [/^\d{4}$/.test(otp)] *)
Definition isValidOTP (code : string) : bool :=
  (Js.allDigits code && Nat.eqb (String.length code) 4)%bool.

(** [colors[i]] for a number [i]; [None] is [undefined]. *)
Definition index {A : Type} (l : list A) (i : Z) : option A :=
  if i <? 0 then None else nth_error l (Z.to_nat i).

Definition colors : list string :=
  [ "#ef4444"; "#f97316"; "#eab308"; "#22c55e";
    "#06b6d4"; "#3b82f6"; "#8b5cf6"; "#ec4899" ].

(** [getRandomColor], [random] being the value of [Math.random()]; the
    product by 8, a power of two, is exact in binary64. *)
Definition getRandomColor (random : Q) : option string :=
  index colors (Js.Math_floor (random * inject_Z (Z.of_nat (List.length colors)))%Q).

(** [calculatePercentage], on finite numbers. *)
Definition calculatePercentage (value total : Q) : Z :=
  if Qeq_bool total 0 then 0
  else Js.Math_round (Binary64.mul (Binary64.div value total) 100).

(** [s.replace(/\D/g, '')] *)
Fixpoint digitsOnly (s : string) : string :=
  match s with
  | EmptyString => EmptyString
  | String c rest =>
      if Js.isDigit c then String c (digitsOnly rest) else digitsOnly rest
  end.

(** [formatPhoneNumber] *)
Definition formatPhoneNumber (phone : string) : string :=
  let cleaned := digitsOnly phone in
  if Nat.eqb (String.length cleaned) 10 then
    String.substring 0 5 cleaned ++ " " ++ String.substring 5 5 cleaned
  else phone.

(** [isValidImageFile], on the file's type. *)
Definition isValidImageFile (type : string) : bool :=
  existsb (String.eqb type)
    [ "image/jpeg"; "image/jpg"; "image/png"; "image/gif"; "image/webp" ].

End Client.

(* ================================================================== *)
(** ** Predicates of the further properties *)

(** Every expense whose category is in the store refers to a category of
    its own user. *)
Definition linkedToOwnCategories (s : Store) : Prop :=
  forall x c, In x (expenses s) -> In c (categories s) ->
              cat_id c = categoryId x -> cat_userId c = exp_userId x.

(* ================================================================== *)
(** ** Auxiliary definitions of the lemmas *)

Section Derived.
Context `{Platform}.

(** The user record as [verifyOTP] saves it. *)
Definition verified (e : Env) (u : User) : User :=
  {| user_id := user_id u; phoneNumber := phoneNumber u;
     otp := None; otpExpires := None; isVerified := true;
     user_createdAt := user_createdAt u; user_updatedAt := now e |}.

(** The store after a successful [verifyOTP] for user [u]. *)
Definition afterVerification (e : Env) (u : User) (s : Store) : Store :=
  let s1 := with_users s (Mongo.save user_id (verified e u) (users s)) in
  if isVerified u then s1
  else fst (createDefaultCategories e (user_id u) s1).

(** The user record that [sendOTP] writes: the one found, refreshed, or a
    new one. *)
Definition issued (e : Env) (phone : string) (s : Store) : User :=
  match Mongo.findOne (byPhone phone) (users s) with
  | Some u =>
      {| user_id := user_id u; phoneNumber := phoneNumber u;
         otp := Some (generateOTP (random e));
         otpExpires := Some (now e + 10 * 60 * 1000);
         isVerified := isVerified u;
         user_createdAt := user_createdAt u; user_updatedAt := now e |}
  | None =>
      {| user_id := ObjectId_fresh (created s); phoneNumber := phone;
         otp := Some (generateOTP (random e));
         otpExpires := Some (now e + 10 * 60 * 1000);
         isVerified := false;
         user_createdAt := now e; user_updatedAt := now e |}
  end.

(** The documents an unhindered [insertMany] adds, the first [_id] being the
    [n]-th generated. *)
Fixpoint seededFrom (e : Env) (userId : string) (n : nat)
  (docs : list (string * string * string)) : list Category :=
  match docs with
  | [] => []
  | (name, color, icon) :: rest =>
      {| cat_id := ObjectId_fresh n; cat_name := name; cat_color := color;
         cat_icon := Some icon; cat_userId := userId;
         cat_createdAt := now e; cat_updatedAt := now e |}
      :: seededFrom e userId (S n) rest
  end.

End Derived.

(* ================================================================== *)
(** ** Sample data for the reference platform *)

Module Sample.
Import Reference.

Definition alice : string := "aaaaaaaaaaaaaaaaaaaaaaaa".
Definition bob : string := "bbbbbbbbbbbbbbbbbbbbbbbb".

Definition bobsCategory : Category :=
  {| cat_id := "c00000000000000000000001"; cat_name := "Food";
     cat_color := "#10B981"; cat_icon := None; cat_userId := bob;
     cat_createdAt := 1000; cat_updatedAt := 1000 |}.

Definition bobsExpense : Expense :=
  {| exp_id := "e00000000000000000000001"; amount := 25 # 2;
     description := "Lunch"; categoryId := cat_id bobsCategory;
     date := utc 2024 1 15; receiptUrl := Some "/uploads/receipt-1.png";
     exp_userId := bob; exp_createdAt := utc 2024 1 15;
     exp_updatedAt := utc 2024 1 15 |}.

Definition bobsStore : Store :=
  {| users := []; categories := [bobsCategory]; expenses := [bobsExpense];
     uploads := ["receipt-1.png"]; created := 2 |}.

(** A body carrying an icon only. *)
Definition iconOnly : Body :=
  {| b_phoneNumber := None; b_otp := None; b_name := None; b_color := None;
     b_icon := Some "x"; b_amount := None; b_description := None;
     b_categoryId := None; b_date := None |}.

(** The scenario of the specification: a code issued to [+15550001111]. *)
Definition phone : string := "+15550001111".

Definition issuedAt : Z := utc 2024 1 15.

(** [Math.random()] returned the binary64 number 446127 / 2 ^ 20, which gives
    the code 482913. *)
Definition issueEnv : Env := envAt issuedAt (446127 # 1048576).

Definition issuedStore : Store :=
  snd (sendOTP issueEnv (otpRequest phone None) emptyStore).

Definition issuedUser : User :=
  {| user_id := fresh 0; phoneNumber := phone; otp := Some "482913";
     otpExpires := Some (issuedAt + 600000); isVerified := false;
     user_createdAt := issuedAt; user_updatedAt := issuedAt |}.

(** A user verified earlier, and a request carrying a token minted for her. *)
Definition carol : User :=
  {| user_id := "cccccccccccccccccccccccc"; phoneNumber := "+15550002222";
     otp := None; otpExpires := None; isVerified := true;
     user_createdAt := utc 2024 1 1; user_updatedAt := utc 2024 1 2 |}.

Definition carolsToken : string := sign "s3cret" (user_id carol) (utc 2024 1 2).

Definition carolsRequest : Request :=
  {| authorization := Some ("Bearer " ++ carolsToken); params_id := "";
     query_period := None; body := emptyBody; file := None; req_user := None |}.

Definition carolsStore : Store :=
  {| users := [carol]; categories := []; expenses := []; uploads := [];
     created := 1 |}.

(** Bob's ledger in January 2024: three expenses dated the 1st, the 3rd and
    the 2nd in his category, and one dated the 4th whose category is gone. *)
Definition expenseOn (id : ObjectId) (day : Z) (cents : Z) (cat : ObjectId) : Expense :=
  {| exp_id := id; amount := cents # 100; description := "Item";
     categoryId := cat; date := utc 2024 1 day; receiptUrl := None;
     exp_userId := bob; exp_createdAt := utc 2024 1 5;
     exp_updatedAt := utc 2024 1 5 |}.

Definition bobsJanuary : Store :=
  {| users := []; categories := [bobsCategory];
     expenses :=
       [ expenseOn "e00000000000000000000011" 1 1000 (cat_id bobsCategory);
         expenseOn "e00000000000000000000013" 3 2000 (cat_id bobsCategory);
         expenseOn "e00000000000000000000012" 2 3000 (cat_id bobsCategory);
         expenseOn "e00000000000000000000014" 4 4000 "c000000000000000000000ff" ];
     uploads := []; created := 5 |}.

(** A request for the statistics of a period, as [getExpenseStats] receives
    it behind [authenticate]. *)
Definition statsRequest (userId p : string) : Request :=
  {| authorization := None; params_id := ""; query_period := Some p;
     body := emptyBody; file := None;
     req_user := Some {| ru_userId := userId; ru_phoneNumber := "" |} |}.

End Sample.

(* ================================================================== *)
(** ** Further sample data: servers, requests and bodies *)

Module Scenario.
Import Reference Sample.

(** A server with an SMS provider whose deliveries fail. *)
Definition smsConfig : Config :=
  {| JWT_SECRET := Some "s3cret"; twilioClient := true;
     TWILIO_PHONE_NUMBER := Some "+15005550006"; NODE_ENV := Some "production" |}.

Definition failingSmsEnv : Env :=
  {| processEnv := smsConfig; now := issuedAt; random := 446127 # 1048576;
     smsFails := true; insertManyFails := false |}.

(** A server started without [JWT_SECRET]. *)
Definition noSecretConfig : Config :=
  {| JWT_SECRET := None; twilioClient := false;
     TWILIO_PHONE_NUMBER := None; NODE_ENV := Some "development" |}.

Definition noSecretEnv : Env :=
  {| processEnv := noSecretConfig; now := issuedAt + 1000; random := 0;
     smsFails := false; insertManyFails := false |}.

(** A second issue one minute after the first: [Math.random() = 3/8]
    gives the code 437500. *)
Definition reissueEnv : Env := envAt (issuedAt + 60000) (3 # 8).

(** The token minted for the user of [phone] one second after the issue,
    and a request bearing it. *)
Definition mintedToken : string := sign "s3cret" (fresh 0) (issuedAt + 1000).

Definition bearing (token : string) : Request :=
  {| authorization := Some ("Bearer " ++ token); params_id := "";
     query_period := None; body := emptyBody; file := None; req_user := None |}.

(** A router whose other endpoints answer 404. *)
Definition noOthers : Endpoint -> Handler :=
  fun _ _ _ s => (failure 404 "Not found", s).

Definition categoryBody (name color : string) : Body :=
  {| b_phoneNumber := None; b_otp := None; b_name := Some name;
     b_color := Some color; b_icon := None; b_amount := None;
     b_description := None; b_categoryId := None; b_date := None |}.

Definition descriptionOnly (text : string) : Body :=
  {| b_phoneNumber := None; b_otp := None; b_name := None; b_color := None;
     b_icon := None; b_amount := None; b_description := Some text;
     b_categoryId := None; b_date := None |}.

Definition dateOnly (text : string) : Body :=
  {| b_phoneNumber := None; b_otp := None; b_name := None; b_color := None;
     b_icon := None; b_amount := None; b_description := None;
     b_categoryId := None; b_date := Some text |}.

(** Bob's request for his expense with a new receipt and a date that is
    not one. *)
Definition newReceiptBadDate : Request :=
  {| authorization := None; params_id := exp_id bobsExpense;
     query_period := None; body := dateOnly "tomorrow";
     file := Some "receipt-2.png";
     req_user := Some {| ru_userId := bob; ru_phoneNumber := "" |} |}.


End Scenario.

(* ================================================================== *)
(** * Properties *)
(* ================================================================== *)
(** ** Binary64 rounding *)

Section Binary64Facts.
Import Binary64.
Local Open Scope Q_scope.

Lemma pow2_pos (e : Z) : 0 < pow2 e.
Proof. apply Qpower_0_lt. reflexivity. Qed.

Lemma pow2_le (a b : Z) : (a <= b)%Z -> pow2 a <= pow2 b.
Proof. intros H. apply Qpower_le_compat_l; [exact H | discriminate]. Qed.

Lemma pow2_lt (a b : Z) : (a < b)%Z -> pow2 a < pow2 b.
Proof. intros H. apply Qpower_lt_compat_l; [exact H | reflexivity]. Qed.

Lemma pow2_lt_inv (a b : Z) : pow2 a < pow2 b -> (a < b)%Z.
Proof. intros H. apply (Qpower_lt_compat_l_inv 2); [exact H | reflexivity]. Qed.

Lemma pow2_plus (a b : Z) : pow2 (a + b) == pow2 a * pow2 b.
Proof. apply Qpower_plus. discriminate. Qed.

Lemma pow2_minus (a b : Z) : pow2 (a - b) == pow2 a / pow2 b.
Proof. apply Qpower_minus. discriminate. Qed.

Lemma pow2_Z (n : Z) : (0 <= n)%Z -> inject_Z (2 ^ n) == pow2 n.
Proof. intros H. now apply Zpower_Qpower. Qed.

(** A quotient by a power of two against a power of two. *)
Lemma div_pow2_le (x : Q) (a k : Z) : x <= pow2 a -> x / pow2 k <= pow2 (a - k).
Proof.
  intros H. rewrite pow2_minus.
  apply Qmult_le_compat_r; [exact H | ].
  apply Qinv_le_0_compat. apply Qlt_le_weak, pow2_pos.
Qed.

Lemma div_pow2_ge (x : Q) (a k : Z) : pow2 a <= x -> pow2 (a - k) <= x / pow2 k.
Proof.
  intros H. rewrite pow2_minus.
  apply Qmult_le_compat_r; [exact H | ].
  apply Qinv_le_0_compat. apply Qlt_le_weak, pow2_pos.
Qed.

Lemma div_pow2_mono (x y : Q) (k : Z) : x <= y -> x / pow2 k <= y / pow2 k.
Proof.
  intros H. apply Qmult_le_compat_r; [exact H | ].
  apply Qinv_le_0_compat. apply Qlt_le_weak, pow2_pos.
Qed.

(** The binade of a positive number. *)
Lemma exponent_spec (x : Q) :
  0 < x -> pow2 (exponent x) <= x /\ x < pow2 (exponent x + 1).
Proof.
  intros Hx. destruct x as [n d].
  assert (Hn : (0 < n)%Z).
  { unfold Qlt in Hx. simpl in Hx. lia. }
  unfold exponent. cbn [Qnum Qden].
  set (a := Z.log2 n). set (b := Z.log2 (Z.pos d)).
  destruct (Z.log2_spec n Hn) as [Ha1 Ha2]. fold a in Ha1, Ha2.
  destruct (Z.log2_spec (Z.pos d) eq_refl) as [Hb1 Hb2]. fold b in Hb1, Hb2.
  assert (Ha0 : (0 <= a)%Z) by apply Z.log2_nonneg.
  assert (Hb0 : (0 <= b)%Z) by apply Z.log2_nonneg.
  assert (Ex : n # d == inject_Z n / inject_Z (Z.pos d)) by apply Qmake_Qdiv.
  assert (Hd : 0 < inject_Z (Z.pos d)) by reflexivity.
  assert (Hlo : pow2 (a - b - 1) <= n # d).
  { rewrite Ex. apply Qle_shift_div_l; [exact Hd | ].
    apply Qle_trans with (pow2 (a - b - 1) * pow2 (b + 1)).
    - apply Qmult_le_l; [apply pow2_pos | ].
      rewrite <- pow2_Z by lia. rewrite <- Zle_Qle.
      replace (Z.succ b) with (b + 1)%Z in Hb2 by lia. lia.
    - rewrite <- pow2_plus. replace (a - b - 1 + (b + 1))%Z with a by lia.
      rewrite <- pow2_Z by lia. rewrite <- Zle_Qle. exact Ha1. }
  assert (Hhi : n # d < pow2 (a - b + 1)).
  { rewrite Ex. apply Qlt_shift_div_r; [exact Hd | ].
    apply Qlt_le_trans with (pow2 (a - b + 1) * pow2 b).
    - rewrite <- pow2_plus. replace (a - b + 1 + b)%Z with (a + 1)%Z by lia.
      rewrite <- pow2_Z by lia. rewrite <- Zlt_Qlt.
      replace (Z.succ a) with (a + 1)%Z in Ha2 by lia. exact Ha2.
    - apply Qmult_le_l; [apply pow2_pos | ].
      rewrite <- pow2_Z by lia. rewrite <- Zle_Qle. exact Hb1. }
  destruct (Qle_bool (pow2 (a - b)) (n # d)) eqn:E.
  - apply Qle_bool_iff in E. split; [exact E | exact Hhi].
  - split.
    + exact Hlo.
    + replace (a - b - 1 + 1)%Z with (a - b)%Z by lia.
      apply Qnot_le_lt. intros H. apply Qle_bool_iff in H. congruence.
Qed.

Lemma exponent_unique (x : Q) (e : Z) :
  pow2 e <= x -> x < pow2 (e + 1) -> exponent x = e.
Proof.
  intros Hlo Hhi.
  assert (Hx : 0 < x) by (eapply Qlt_le_trans; [apply pow2_pos | exact Hlo]).
  destruct (exponent_spec x Hx) as [H1 H2].
  assert (A : (e < exponent x + 1)%Z).
  { apply pow2_lt_inv. eapply Qle_lt_trans; eassumption. }
  assert (B : (exponent x < e + 1)%Z).
  { apply pow2_lt_inv. eapply Qle_lt_trans; eassumption. }
  lia.
Qed.

Lemma exponent_mono (x y : Q) : 0 < x -> x <= y -> (exponent x <= exponent y)%Z.
Proof.
  intros Hx Hxy.
  assert (Hy : 0 < y) by (eapply Qlt_le_trans; eassumption).
  destruct (exponent_spec x Hx) as [H1 _].
  destruct (exponent_spec y Hy) as [_ H2].
  assert (A : (exponent x < exponent y + 1)%Z).
  { apply pow2_lt_inv. eapply Qle_lt_trans; [exact H1 | ].
    eapply Qle_lt_trans; eassumption. }
  lia.
Qed.

(** Rounding to the nearest integer, ties to even. *)
Lemma nearestEven_cases (x : Q) :
  let f := Qfloor x in
  (nearestEven x = f /\ x - inject_Z f <= 1 # 2)
  \/ (nearestEven x = (f + 1)%Z /\ 1 # 2 <= x - inject_Z f).
Proof.
  intros f. unfold nearestEven. fold f.
  destruct (x - inject_Z f ?= 1 # 2) eqn:E.
  - apply (proj2 (Qeq_alt _ _)) in E.
    destruct (Z.even f); [left | right]; split; try reflexivity;
      rewrite E; apply Qle_refl.
  - apply (proj2 (Qlt_alt _ _)) in E. left. split; [reflexivity | now apply Qlt_le_weak].
  - apply (proj2 (Qgt_alt _ _)) in E. right. split; [reflexivity | now apply Qlt_le_weak].
Qed.

Lemma nearestEven_Z (n : Z) : nearestEven (inject_Z n) = n.
Proof.
  unfold nearestEven. rewrite Qfloor_Z.
  assert (E : (inject_Z n - inject_Z n ?= 1 # 2) = Lt).
  { apply (proj1 (Qlt_alt _ _)). lra. }
  now rewrite E.
Qed.

Lemma nearestEven_error (x : Q) :
  x - (1 # 2) <= inject_Z (nearestEven x) <= x + (1 # 2).
Proof.
  pose proof (Qfloor_le x) as H1. pose proof (Qlt_floor x) as H2.
  rewrite inject_Z_plus in H2. change (inject_Z 1) with 1 in H2.
  destruct (nearestEven_cases x) as [[-> H] | [-> H]].
  - split; lra.
  - rewrite inject_Z_plus. change (inject_Z 1) with 1. split; lra.
Qed.

Lemma nearestEven_mono (x y : Q) : x <= y -> (nearestEven x <= nearestEven y)%Z.
Proof.
  intros Hxy.
  assert (Hf : (Qfloor x <= Qfloor y)%Z) by now apply Qfloor_resp_le.
  destruct (Z.eq_dec (Qfloor x) (Qfloor y)) as [E | N].
  - unfold nearestEven. rewrite <- E.
    destruct (x - inject_Z (Qfloor x) ?= 1 # 2) eqn:Ex;
      destruct (y - inject_Z (Qfloor x) ?= 1 # 2) eqn:Ey;
      try lia; try (destruct (Z.even (Qfloor x)); lia);
      try apply (proj2 (Qeq_alt _ _)) in Ex; try apply (proj2 (Qlt_alt _ _)) in Ex;
      try apply (proj2 (Qgt_alt _ _)) in Ex;
      try apply (proj2 (Qeq_alt _ _)) in Ey; try apply (proj2 (Qlt_alt _ _)) in Ey;
      try apply (proj2 (Qgt_alt _ _)) in Ey;
      exfalso; lra.
  - destruct (nearestEven_cases x) as [[-> _] | [-> _]];
      destruct (nearestEven_cases y) as [[-> _] | [-> _]]; lia.
Qed.

Lemma nearestEven_nonneg (x : Q) : 0 <= x -> (0 <= nearestEven x)%Z.
Proof.
  intros H. rewrite <- (nearestEven_Z 0). now apply nearestEven_mono.
Qed.

(** Rounding a positive number. *)
Lemma round_positive (x : Q) : 0 < x -> round x = roundPositive x.
Proof.
  intros H. unfold round. destruct x as [[| p | p] d]; try reflexivity;
    unfold Qlt in H; simpl in H; lia.
Qed.

Lemma round_zero (x : Q) : x == 0 -> round x = 0.
Proof.
  intros H. unfold round. destruct x as [[| p | p] d]; try reflexivity;
    unfold Qeq in H; simpl in H; lia.
Qed.

Lemma roundPositive_nonneg (x : Q) : 0 < x -> 0 <= roundPositive x.
Proof.
  intros H. unfold roundPositive. cbv zeta.
  apply Qmult_le_0_compat; [ | apply Qlt_le_weak, pow2_pos].
  change 0 with (inject_Z 0). rewrite <- Zle_Qle.
  apply nearestEven_nonneg.
  apply Qle_shift_div_l; [apply pow2_pos | ]. lra.
Qed.

Lemma roundPositive_upper (x : Q) :
  0 < x ->
  roundPositive x <= pow2 (Z.max (exponent x + 1) (ulpExponent x)).
Proof.
  intros H. destruct (exponent_spec x H) as [_ Hhi].
  set (k := ulpExponent x). set (U := Z.max (exponent x + 1) k).
  unfold roundPositive. cbv zeta. fold k.
  assert (Hq : x / pow2 k <= inject_Z (2 ^ (U - k))).
  { rewrite pow2_Z by lia. apply div_pow2_le.
    apply Qle_trans with (pow2 (exponent x + 1)); [now apply Qlt_le_weak | ].
    apply pow2_le. lia. }
  apply nearestEven_mono in Hq. rewrite nearestEven_Z in Hq.
  apply Qle_trans with (inject_Z (2 ^ (U - k)) * pow2 k).
  - apply Qmult_le_compat_r; [now rewrite <- Zle_Qle | ].
    apply Qlt_le_weak, pow2_pos.
  - rewrite pow2_Z by lia. rewrite <- pow2_plus.
    replace (U - k + k)%Z with U by lia. apply Qle_refl.
Qed.

Lemma roundPositive_lower (x : Q) :
  0 < x -> ulpExponent x = (exponent x - 52)%Z ->
  pow2 (exponent x) <= roundPositive x.
Proof.
  intros H Hk. destruct (exponent_spec x H) as [Hlo _].
  unfold roundPositive. cbv zeta. rewrite Hk.
  assert (Hq : inject_Z (2 ^ 52) <= x / pow2 (exponent x - 52)).
  { rewrite pow2_Z by lia.
    replace 52%Z with (exponent x - (exponent x - 52))%Z at 1 by lia.
    now apply div_pow2_ge. }
  apply nearestEven_mono in Hq. rewrite nearestEven_Z in Hq.
  apply Qle_trans with (inject_Z (2 ^ 52) * pow2 (exponent x - 52)).
  - rewrite pow2_Z by lia. rewrite <- pow2_plus.
    replace (52 + (exponent x - 52))%Z with (exponent x) by lia. apply Qle_refl.
  - apply Qmult_le_compat_r; [now rewrite <- Zle_Qle | ].
    apply Qlt_le_weak, pow2_pos.
Qed.

Lemma roundPositive_mono (x y : Q) :
  0 < x -> x <= y -> roundPositive x <= roundPositive y.
Proof.
  intros Hx Hxy.
  assert (Hy : 0 < y) by (eapply Qlt_le_trans; eassumption).
  pose proof (exponent_mono x y Hx Hxy) as He.
  destruct (Z.eq_dec (ulpExponent x) (ulpExponent y)) as [E | N].
  - unfold roundPositive. cbv zeta. rewrite E.
    apply Qmult_le_compat_r; [ | apply Qlt_le_weak, pow2_pos].
    rewrite <- Zle_Qle. apply nearestEven_mono. now apply div_pow2_mono.
  - assert (Hk : ulpExponent y = (exponent y - 52)%Z)
      by (unfold ulpExponent in *; lia).
    apply Qle_trans with (pow2 (Z.max (exponent x + 1) (ulpExponent x)));
      [now apply roundPositive_upper | ].
    apply Qle_trans with (pow2 (exponent y));
      [ | now apply roundPositive_lower].
    apply pow2_le. unfold ulpExponent in *. lia.
Qed.

(** [round] is monotone on the non-negative numbers. *)
Lemma round_mono (x y : Q) : 0 <= x -> x <= y -> round x <= round y.
Proof.
  intros Hx Hxy.
  destruct (Qlt_le_dec 0 x) as [Hpos | Hzero].
  - assert (Hy : 0 < y) by (eapply Qlt_le_trans; eassumption).
    rewrite !round_positive by assumption. now apply roundPositive_mono.
  - rewrite (round_zero x) by lra.
    destruct (Qlt_le_dec 0 y) as [Hy | Hy].
    + rewrite round_positive by assumption. now apply roundPositive_nonneg.
    + rewrite (round_zero y) by lra. apply Qle_refl.
Qed.

(** The rounding error below a power of two. *)
Lemma round_error (x : Q) (j : Z) :
  0 <= x -> x < pow2 j -> (-1022 <= j)%Z ->
  x - pow2 (j - 53) <= round x <= x + pow2 (j - 53).
Proof.
  intros Hx Hj Hmin.
  pose proof (pow2_pos (j - 53)) as Hp.
  destruct (Qlt_le_dec 0 x) as [Hpos | Hzero].
  - rewrite round_positive by assumption.
    destruct (exponent_spec x Hpos) as [Hlo _].
    assert (He : (exponent x < j)%Z).
    { apply pow2_lt_inv. eapply Qle_lt_trans; eassumption. }
    unfold roundPositive. cbv zeta. set (k := ulpExponent x).
    assert (Hk : (k - 1 <= j - 53)%Z) by (unfold k, ulpExponent; lia).
    pose proof (nearestEven_error (x / pow2 k)) as [E1 E2].
    pose proof (pow2_pos k) as Hpk.
    assert (Hhalf : (1 # 2) * pow2 k <= pow2 (j - 53)).
    { apply Qle_trans with (pow2 (k - 1)); [ | now apply pow2_le].
      rewrite pow2_minus. change (pow2 1) with 2. apply Qle_shift_div_l; lra. }
    assert (Ea : (x / pow2 k - (1 # 2)) * pow2 k == x - (1 # 2) * pow2 k)
      by (field; lra).
    assert (Eb : (x / pow2 k + (1 # 2)) * pow2 k == x + (1 # 2) * pow2 k)
      by (field; lra).
    split.
    + apply Qle_trans with ((x / pow2 k - (1 # 2)) * pow2 k).
      * rewrite Ea. lra.
      * apply Qmult_le_compat_r; [exact E1 | lra].
    + apply Qle_trans with ((x / pow2 k + (1 # 2)) * pow2 k).
      * apply Qmult_le_compat_r; [exact E2 | lra].
      * rewrite Eb. lra.
  - rewrite (round_zero x) by lra. split; lra.
Qed.

(** A binary64 number below 1 is at most [1 - 2 ^ -53]. *)
Lemma round_below_one (x : Q) :
  0 <= x -> x < 1 -> round x == x -> x <= 1 - pow2 (-53).
Proof.
  intros Hx H1 Hr.
  destruct (Qlt_le_dec (1 - pow2 (-53)) x) as [Hbig | Hok]; [ | exact Hok].
  exfalso.
  assert (Hp : 0 < x) by (eapply Qlt_trans; [ | exact Hbig]; reflexivity).
  assert (He : exponent x = (-1)%Z).
  { apply exponent_unique.
    - apply Qle_trans with (1 - pow2 (-53)); [discriminate | now apply Qlt_le_weak].
    - exact H1. }
  rewrite round_positive in Hr by assumption.
  unfold roundPositive in Hr. cbv zeta in Hr.
  assert (Hk : ulpExponent x = (-53)%Z) by (unfold ulpExponent; rewrite He; reflexivity).
  rewrite Hk in Hr.
  set (m := nearestEven (x / pow2 (-53))) in Hr.
  assert (A : inject_Z (2 ^ 53 - 1) < inject_Z m).
  { apply Qmult_lt_r with (pow2 (-53)); [apply pow2_pos | ].
    rewrite Hr. eapply Qle_lt_trans; [ | exact Hbig]. discriminate. }
  assert (B : inject_Z m < inject_Z (2 ^ 53)).
  { apply Qmult_lt_r with (pow2 (-53)); [apply pow2_pos | ].
    rewrite Hr. eapply Qlt_le_trans; [exact H1 | ]. discriminate. }
  rewrite <- Zlt_Qlt in A, B. lia.
Qed.

(** The percentage that [Math.round] receives: the binary64 value of
    [(value / total) * 100] lies between 0 and 100 and within a billionth of
    the exact quotient. *)
Lemma percent_rounding (value total : Q) :
  0 <= value -> value <= total -> 0 < total ->
  0 <= mul (div value total) 100 <= 100
  /\ 100 * value / total - (1 # 1000000000) <= mul (div value total) 100
     <= 100 * value / total + (1 # 1000000000).
Proof.
  intros H0 Hle Hpos. unfold mul, div.
  set (q := value / total).
  assert (Eq : 100 * value / total == 100 * q) by (unfold q; field; lra).
  assert (Hq0 : 0 <= q).
  { unfold q. apply Qle_shift_div_l; [exact Hpos | lra]. }
  assert (Hq1 : q <= 1).
  { unfold q. apply Qle_shift_div_r; [exact Hpos | lra]. }
  assert (Ha : q - pow2 (1 - 53) <= round q <= q + pow2 (1 - 53)).
  { apply round_error; [exact Hq0 | | lia].
    eapply Qle_lt_trans; [exact Hq1 | reflexivity]. }
  assert (Ha0 : 0 <= round q) by (apply (round_mono 0 q); [apply Qle_refl | exact Hq0]).
  assert (Ha1 : round q <= 1).
  { apply Qle_trans with (round 1); [now apply round_mono | ].
    vm_compute; discriminate. }
  set (a := round q) in *.
  assert (Hy0 : 0 <= a * 100) by lra.
  assert (Hb : a * 100 - pow2 (7 - 53) <= round (a * 100) <= a * 100 + pow2 (7 - 53)).
  { apply round_error; [exact Hy0 | | lia].
    apply Qle_lt_trans with 100; [lra | reflexivity]. }
  assert (Hb0 : 0 <= round (a * 100))
    by (apply (round_mono 0 (a * 100)); [apply Qle_refl | exact Hy0]).
  assert (Hb1 : round (a * 100) <= 100).
  { apply Qle_trans with (round 100); [apply round_mono; lra | ].
    vm_compute; discriminate. }
  assert (E52 : pow2 (1 - 53) == 1 # 4503599627370496) by reflexivity.
  assert (E46 : pow2 (7 - 53) == 1 # 70368744177664) by reflexivity.
  rewrite E52 in Ha. rewrite E46 in Hb. rewrite Eq.
  set (b := round (a * 100)) in *.
  split; [split; assumption | ]. split; lra.
Qed.

End Binary64Facts.

(** ** The code generator *)

Lemma otpNumber_lower (r : Q) : (0 <= r)%Q -> 100000 <= otpNumber r.
Proof.
  intros Hlo. unfold otpNumber, Js.Math_floor, Binary64.add, Binary64.mul.
  apply Z.le_trans with (Qfloor 100000%Q); [discriminate | ].
  apply Qfloor_resp_le.
  assert (Hp : (0 <= Binary64.round (r * 900000))%Q).
  { apply (round_mono 0); [apply Qle_refl | ].
    apply Qmult_le_0_compat; [exact Hlo | discriminate]. }
  apply Qle_trans with (Binary64.round 100000).
  - vm_compute; discriminate.
  - apply round_mono; [discriminate | lra].
Qed.

(** The bound of [otpNumber] for a random number of at most [top]. *)
Lemma otpNumber_upper (r top : Q) :
  (0 <= r)%Q -> (r <= top)%Q ->
  otpNumber r
  <= Qfloor (Binary64.add 100000 (Binary64.mul top 900000)).
Proof.
  intros Hlo Hhi. unfold otpNumber, Js.Math_floor, Binary64.add, Binary64.mul.
  apply Qfloor_resp_le.
  assert (Hp0 : (0 <= Binary64.round (r * 900000))%Q).
  { apply (round_mono 0); [apply Qle_refl | ].
    apply Qmult_le_0_compat; [exact Hlo | discriminate]. }
  assert (Hp : (Binary64.round (r * 900000) <= Binary64.round (top * 900000))%Q).
  { apply round_mono.
    - apply Qmult_le_0_compat; [exact Hlo | discriminate].
    - apply Qmult_le_compat_r; [exact Hhi | discriminate]. }
  apply round_mono; lra.
Qed.

Lemma otpNumber_range (r : Q) :
  (0 <= r)%Q -> (r < 1)%Q -> (Binary64.round r == r)%Q ->
  100000 <= otpNumber r <= 999999.
Proof.
  intros Hlo Hhi Hr. split; [now apply otpNumber_lower | ].
  apply Z.le_trans
    with (Qfloor (Binary64.add 100000 (Binary64.mul (1 - Binary64.pow2 (-53)) 900000))).
  - apply otpNumber_upper; [exact Hlo | ]. now apply round_below_one.
  - vm_compute; discriminate.
Qed.

(** Whatever the number of [[0, 1)], binary64 or not. *)
Lemma otpNumber_range_any (r : Q) :
  (0 <= r)%Q -> (r < 1)%Q -> 100000 <= otpNumber r <= 1000000.
Proof.
  intros Hlo Hhi. split; [now apply otpNumber_lower | ].
  apply Z.le_trans with (Qfloor (Binary64.add 100000 (Binary64.mul 1 900000))).
  - apply otpNumber_upper; [exact Hlo | now apply Qlt_le_weak].
  - vm_compute; discriminate.
Qed.

Lemma digitChar_isDigit (d : Z) : 0 <= d <= 9 -> Js.isDigit (Js.digitChar d) = true.
Proof.
  intros Hd.
  assert (Hc : d = 0 \/ d = 1 \/ d = 2 \/ d = 3 \/ d = 4 \/ d = 5 \/ d = 6
               \/ d = 7 \/ d = 8 \/ d = 9) by lia.
  repeat (destruct Hc as [Hc | Hc]; [subst d; reflexivity | ]).
  subst d; reflexivity.
Qed.

Lemma digitChar_nonzero (d : Z) : 1 <= d <= 9 -> Js.digitChar d <> "0"%char.
Proof.
  intros Hd.
  assert (Hc : d = 1 \/ d = 2 \/ d = 3 \/ d = 4 \/ d = 5 \/ d = 6
               \/ d = 7 \/ d = 8 \/ d = 9) by lia.
  repeat (destruct Hc as [Hc | Hc]; [subst d; discriminate | ]).
  subst d; discriminate.
Qed.

Lemma decimalDigits_step (fuel : nat) (n : Z) (acc : string) :
  10 <= n ->
  Js.decimalDigits (S fuel) n acc
  = Js.decimalDigits fuel (n / 10) (String (Js.digitChar (n mod 10)) acc).
Proof.
  intros Hn. simpl.
  destruct (n / 10 =? 0) eqn:E; [ | reflexivity].
  apply Z.eqb_eq in E. exfalso. Z.div_mod_to_equations. lia.
Qed.

Lemma decimalDigits_last (fuel : nat) (n : Z) (acc : string) :
  0 <= n < 10 ->
  Js.decimalDigits (S fuel) n acc = String (Js.digitChar (n mod 10)) acc.
Proof.
  intros Hn. simpl.
  destruct (n / 10 =? 0) eqn:E; [reflexivity | ].
  apply Z.eqb_neq in E. exfalso. apply E. Z.div_mod_to_equations. lia.
Qed.

Lemma Number_toString_six (n : Z) :
  100000 <= n <= 999999 ->
  exists d5 d4 d3 d2 d1 d0,
    1 <= d5 <= 9 /\ 0 <= d4 <= 9 /\ 0 <= d3 <= 9 /\ 0 <= d2 <= 9
    /\ 0 <= d1 <= 9 /\ 0 <= d0 <= 9
    /\ n = d5 * 100000 + d4 * 10000 + d3 * 1000 + d2 * 100 + d1 * 10 + d0
    /\ Js.Number_toString n
       = String (Js.digitChar d5) (String (Js.digitChar d4)
           (String (Js.digitChar d3) (String (Js.digitChar d2)
             (String (Js.digitChar d1) (String (Js.digitChar d0) ""))))).
Proof.
  intros Hn.
  remember (n / 10) as n1 eqn:E1. remember (n1 / 10) as n2 eqn:E2.
  remember (n2 / 10) as n3 eqn:E3. remember (n3 / 10) as n4 eqn:E4.
  remember (n4 / 10) as n5 eqn:E5.
  exists (n5 mod 10), (n4 mod 10), (n3 mod 10), (n2 mod 10), (n1 mod 10), (n mod 10).
  assert (H1 : 10000 <= n1 <= 99999) by (Z.div_mod_to_equations; lia).
  assert (H2 : 1000 <= n2 <= 9999) by (Z.div_mod_to_equations; lia).
  assert (H3 : 100 <= n3 <= 999) by (Z.div_mod_to_equations; lia).
  assert (H4 : 10 <= n4 <= 99) by (Z.div_mod_to_equations; lia).
  assert (H5 : 1 <= n5 <= 9) by (Z.div_mod_to_equations; lia).
  repeat split; try (Z.div_mod_to_equations; lia).
  unfold Js.Number_toString.
  destruct (n <? 0) eqn:E; [apply Z.ltb_lt in E; lia | ].
  assert (Hlog : 16 <= Z.log2 n).
  { change 16 with (Z.log2 100000). apply Z.log2_le_mono. lia. }
  destruct (Z.to_nat (Z.log2 n)) as [|[|[|[|[|f]]]]] eqn:Ef; try lia.
  rewrite (decimalDigits_step _ n) by lia. rewrite <- E1.
  rewrite (decimalDigits_step _ n1) by lia. rewrite <- E2.
  rewrite (decimalDigits_step _ n2) by lia. rewrite <- E3.
  rewrite (decimalDigits_step _ n3) by lia. rewrite <- E4.
  rewrite (decimalDigits_step _ n4) by lia. rewrite <- E5.
  apply decimalDigits_last. lia.
Qed.

Lemma Qfloor_eq_iff (x : Q) (n : Z) :
  Qfloor x = n <-> (inject_Z n <= x /\ x < inject_Z (n + 1))%Q.
Proof.
  split.
  - intros <-. split; [apply Qfloor_le | apply Qlt_floor].
  - intros [Hlo Hhi].
    assert (H1 : n <= Qfloor x).
    { rewrite <- (Qfloor_Z n). now apply Qfloor_resp_le. }
    assert (H2 : (inject_Z (Qfloor x) < inject_Z (n + 1))%Q)
      by (eapply Qle_lt_trans; [apply Qfloor_le | exact Hhi]).
    rewrite <- Zlt_Qlt in H2. lia.
Qed.

Lemma Number_toString_shape (n : Z) :
  100000 <= n <= 999999 ->
  exists c5 c4 c3 c2 c1 c0,
    Js.Number_toString n
    = String c5 (String c4 (String c3 (String c2 (String c1 (String c0 "")))))
    /\ c5 <> "0"%char
    /\ Js.isDigit c5 = true /\ Js.isDigit c4 = true /\ Js.isDigit c3 = true
    /\ Js.isDigit c2 = true /\ Js.isDigit c1 = true /\ Js.isDigit c0 = true.
Proof.
  intros Hn.
  destruct (Number_toString_six n Hn)
    as (d5 & d4 & d3 & d2 & d1 & d0 & H5 & H4 & H3 & H2 & H1 & H0 & _ & E).
  exists (Js.digitChar d5), (Js.digitChar d4), (Js.digitChar d3),
         (Js.digitChar d2), (Js.digitChar d1), (Js.digitChar d0).
  split; [exact E | ].
  split; [now apply digitChar_nonzero | ].
  repeat split; apply digitChar_isDigit; lia.
Qed.

Lemma generateOTP_shape (r : Q) :
  (0 <= r)%Q -> (r < 1)%Q -> (Binary64.round r == r)%Q ->
  exists c5 c4 c3 c2 c1 c0,
    generateOTP r
    = String c5 (String c4 (String c3 (String c2 (String c1 (String c0 "")))))
    /\ c5 <> "0"%char
    /\ Js.isDigit c5 = true /\ Js.isDigit c4 = true /\ Js.isDigit c3 = true
    /\ Js.isDigit c2 = true /\ Js.isDigit c1 = true /\ Js.isDigit c0 = true.
Proof.
  intros Hlo Hhi Hr. apply Number_toString_shape. now apply otpNumber_range.
Qed.

(** Whatever the number of [[0, 1)]: six digits, or the seven of 1000000. *)
Lemma generateOTP_shape_any (r : Q) :
  (0 <= r)%Q -> (r < 1)%Q ->
  (exists c5 c4 c3 c2 c1 c0,
     generateOTP r
     = String c5 (String c4 (String c3 (String c2 (String c1 (String c0 "")))))
     /\ c5 <> "0"%char)
  \/ generateOTP r = "1000000".
Proof.
  intros Hlo Hhi. destruct (otpNumber_range_any r Hlo Hhi) as [H1 H2].
  destruct (Z.eq_dec (otpNumber r) 1000000) as [E | N].
  - right. unfold generateOTP. now rewrite E.
  - left. destruct (Number_toString_shape (otpNumber r) ltac:(lia))
      as (c5 & c4 & c3 & c2 & c1 & c0 & E & Hnz & _).
    now exists c5, c4, c3, c2, c1, c0.
Qed.

(** What reaches [Math.floor] is within [2 ^ -32] of [100000 + 900000 r]. *)
Lemma otpNumber_error (r : Q) :
  (0 <= r)%Q -> (r < 1)%Q ->
  (100000 + r * 900000 - (1 # 4294967296)
   <= Binary64.add 100000 (Binary64.mul r 900000)
   <= 100000 + r * 900000 + (1 # 4294967296))%Q.
Proof.
  intros Hlo Hhi. unfold Binary64.add, Binary64.mul.
  assert (Hx0 : (0 <= r * 900000)%Q)
    by (apply Qmult_le_0_compat; [exact Hlo | discriminate]).
  assert (Hx1 : (r * 900000 < 900000)%Q) by lra.
  assert (Hp : (r * 900000 - Binary64.pow2 (20 - 53)
                <= Binary64.round (r * 900000)
                <= r * 900000 + Binary64.pow2 (20 - 53))%Q).
  { apply round_error; [exact Hx0 | | lia].
    eapply Qlt_trans; [exact Hx1 | reflexivity]. }
  assert (E33 : (Binary64.pow2 (20 - 53) == 1 # 8589934592)%Q) by reflexivity.
  rewrite E33 in Hp. set (p := Binary64.round (r * 900000)) in *.
  assert (Hs : (100000 + p - Binary64.pow2 (20 - 53)
                <= Binary64.round (100000 + p)
                <= 100000 + p + Binary64.pow2 (20 - 53))%Q).
  { apply round_error; [lra | | lia].
    apply Qlt_trans with 1000001%Q; [lra | reflexivity]. }
  rewrite E33 in Hs. split; lra.
Qed.

(** C9, as amended. For every binary64 value [r] of [Math.random()] in
    [[0, 1)] the generated code is a string of exactly six decimal digits
    whose first digit is not 0: it is the decimal rendering of a number
    between 100000 and 999999. Such a number [n] is produced only for [r]
    with [900000 r] in [[n - 100000, n - 100000 + 1)] widened by [2 ^ -32]
    at both ends, and for every [r] with [900000 r] in that interval narrowed
    by [2 ^ -32] at both ends: up to the rounding of binary64, an interval of
    the same width for every [n]. *)
Theorem generateOTP_six_digits_first_nonzero (r : Q) :
  (0 <= r)%Q -> (r < 1)%Q -> (Binary64.round r == r)%Q ->
  String.length (generateOTP r) = 6%nat
  /\ Js.allDigits (generateOTP r) = true
  /\ String.get 0 (generateOTP r) <> Some "0"%char
  /\ 100000 <= otpNumber r <= 999999
  /\ forall n : Z,
       (otpNumber r = n ->
        (inject_Z (n - 100000) - (1 # 4294967296) <= r * 900000
         /\ r * 900000 < inject_Z (n - 100000 + 1) + (1 # 4294967296))%Q)
       /\ ((inject_Z (n - 100000) + (1 # 4294967296) <= r * 900000
            /\ r * 900000 < inject_Z (n - 100000 + 1) - (1 # 4294967296))%Q ->
           otpNumber r = n).
Proof.
  intros Hlo Hhi Hr.
  destruct (generateOTP_shape r Hlo Hhi Hr)
    as (c5 & c4 & c3 & c2 & c1 & c0 & E & Hnz & D5 & D4 & D3 & D2 & D1 & D0).
  rewrite E. split; [reflexivity | ].
  split; [simpl; rewrite D5, D4, D3, D2, D1, D0; reflexivity | ].
  split; [simpl; congruence | ].
  split; [now apply otpNumber_range | ].
  intros n. pose proof (otpNumber_error r Hlo Hhi) as [He1 He2].
  unfold otpNumber, Js.Math_floor. rewrite Qfloor_eq_iff.
  set (x := Binary64.add 100000 (Binary64.mul r 900000)) in *.
  assert (Ea : (inject_Z n == 100000 + inject_Z (n - 100000))%Q).
  { rewrite <- (inject_Z_plus 100000). apply inject_Z_injective. lia. }
  assert (Eb : (inject_Z (n + 1) == 100000 + inject_Z (n - 100000 + 1))%Q).
  { rewrite <- (inject_Z_plus 100000). apply inject_Z_injective. lia. }
  rewrite Ea, Eb.
  split; intros [Ha Hb]; split; lra.
Qed.

(** C9, the claim as stated fails: no value of [Math.random()] makes the
    generated code begin with the digit 0. *)
Lemma generateOTP_leading_zero_impossible :
  ~ (exists r : Q,
       (0 <= r)%Q /\ (r < 1)%Q
       /\ String.get 0 (generateOTP r) = Some "0"%char).
Proof.
  intros (r & Hlo & Hhi & Hget).
  destruct (generateOTP_shape_any r Hlo Hhi)
    as [(c5 & c4 & c3 & c2 & c1 & c0 & E & Hnz) | E];
    rewrite E in Hget; simpl in Hget; congruence.
Qed.

(** ** Owner-scoped access to categories and expenses *)

Section StoreFacts.
Context {A : Type} (idOf : A -> ObjectId).

Lemma findOne_none (f : A -> bool) (l : list A) :
  (forall d, In d l -> f d = false) -> Mongo.findOne f l = None.
Proof.
  unfold Mongo.findOne.
  induction l as [| d l IH]; intros Hall; simpl; [reflexivity | ].
  rewrite (Hall d (or_introl eq_refl)).
  apply IH. intros d' Hd'. apply Hall. now right.
Qed.

Lemma unique_id (l : list A) (a b : A) :
  NoDup (map idOf l) -> In a l -> In b l -> idOf a = idOf b -> a = b.
Proof.
  induction l as [| d l IH]; simpl; intros Hnd Ha Hb Hab; [contradiction | ].
  inversion Hnd as [| ? ? Hnotin Hnd']; subst.
  destruct Ha as [-> | Ha], Hb as [-> | Hb]; auto.
  - exfalso. apply Hnotin. rewrite Hab. now apply in_map.
  - exfalso. apply Hnotin. rewrite <- Hab. now apply in_map.
Qed.

Lemma findByIdAndDelete_subset (id : ObjectId) (l : list A) (d : A) :
  In d (Mongo.findByIdAndDelete idOf id l) -> In d l.
Proof.
  induction l as [| x l IH]; simpl; [tauto | ].
  destruct (String.eqb (idOf x) id); simpl; intuition.
Qed.

Lemma findByIdAndDelete_gone (id : ObjectId) (l : list A) (d : A) :
  NoDup (map idOf l) ->
  In d (Mongo.findByIdAndDelete idOf id l) -> idOf d <> id.
Proof.
  induction l as [| x l IH]; simpl; intros Hnd Hin; [contradiction | ].
  inversion Hnd as [| ? ? Hnotin Hnd']; subst.
  destruct (String.eqb (idOf x) id) eqn:E.
  - apply String.eqb_eq in E. intros Hd. apply Hnotin.
    rewrite E, <- Hd. now apply in_map.
  - destruct Hin as [-> | Hin]; [now apply String.eqb_neq | now apply IH].
Qed.

End StoreFacts.

Section Ownership.
Context `{Platform}.

Lemma foreign_category_not_found (id A : string) (l : list Category) (c : Category) :
  NoDup (map cat_id l) -> In c l ->
  cat_id c = ObjectId_cast id -> cat_userId c <> A ->
  Mongo.findOne (catByIdAndOwner id A) l = None.
Proof.
  intros Hnd Hin Hid Hown. apply findOne_none. intros d Hd.
  unfold catByIdAndOwner.
  destruct (String.eqb (cat_id d) (ObjectId_cast id)) eqn:E; [ | reflexivity].
  apply String.eqb_eq in E.
  assert (d = c) by (apply (unique_id cat_id l); congruence).
  subst d. simpl. now apply String.eqb_neq.
Qed.

Lemma deleted_category_not_found (id A : string) (l : list Category) :
  NoDup (map cat_id l) ->
  Mongo.findOne (catByIdAndOwner id A)
    (Mongo.findByIdAndDelete cat_id (ObjectId_cast id) l) = None.
Proof.
  intros Hnd. apply findOne_none. intros d Hd.
  apply (findByIdAndDelete_gone cat_id) in Hd; [ | exact Hnd].
  unfold catByIdAndOwner. apply String.eqb_neq in Hd. now rewrite Hd.
Qed.

Lemma foreign_expense_not_found (id A : string) (l : list Expense) (x : Expense) :
  NoDup (map exp_id l) -> In x l ->
  exp_id x = ObjectId_cast id -> exp_userId x <> A ->
  Mongo.findOne (expByIdAndOwner id A) l = None.
Proof.
  intros Hnd Hin Hid Hown. apply findOne_none. intros d Hd.
  unfold expByIdAndOwner.
  destruct (String.eqb (exp_id d) (ObjectId_cast id)) eqn:E; [ | reflexivity].
  apply String.eqb_eq in E.
  assert (d = x) by (apply (unique_id exp_id l); congruence).
  subst d. simpl. now apply String.eqb_neq.
Qed.

Lemma deleted_expense_not_found (id A : string) (l : list Expense) :
  NoDup (map exp_id l) ->
  Mongo.findOne (expByIdAndOwner id A)
    (Mongo.findByIdAndDelete exp_id (ObjectId_cast id) l) = None.
Proof.
  intros Hnd. apply findOne_none. intros d Hd.
  apply (findByIdAndDelete_gone exp_id) in Hd; [ | exact Hnd].
  unfold expByIdAndOwner. apply String.eqb_neq in Hd. now rewrite Hd.
Qed.

(** What [updateCategory] answers when the category is not found among the
    requester's: the check of [name] and [color] comes before the lookup. *)
Definition updateCategoryRefusal (req : Request) : Response :=
  if (Js.falsy (b_name (body req)) || Js.falsy (b_color (body req)))%bool
  then failure 400 "Name and color are required"
  else failure 404 "Category not found".

Lemma updateCategory_lookup_fails (e : Env) (req : Request) (s : Store) (A : string) :
  userIdOf req = Some A -> A <> "" ->
  ObjectId_isValid (params_id req) = true ->
  Mongo.findOne (catByIdAndOwner (params_id req) A) (categories s) = None ->
  updateCategory e req s = (updateCategoryRefusal req, s).
Proof.
  intros Hu HA Hv Hf. unfold updateCategory, updateCategoryRefusal.
  rewrite Hu. apply String.eqb_neq in HA. rewrite HA, Hv. simpl.
  destruct (b_name (body req)) as [name |], (b_color (body req)) as [color |];
    simpl; try reflexivity.
  - destruct (String.eqb name ""), (String.eqb color ""); simpl;
      try reflexivity; now rewrite Hf.
  - destruct (String.eqb name ""); reflexivity.
Qed.

End Ownership.

Section OwnershipTheorem.
Context `{Platform}.

(** C1, as amended. Let user [A] send a request whose id names a category,
    or an expense, that another user owns. Reading and deleting it answer
    404 as for a record that does not exist, and so does updating an expense;
    updating a category answers 404 when [name] and [color] are both given
    and the 400 of the field check otherwise. The store is left as it was,
    and the answers are those given once the record has been deleted. *)
Theorem foreign_record_is_hidden (e : Env) (req : Request) (s : Store) (A : string) :
  userIdOf req = Some A -> A <> "" ->
  ObjectId_isValid (params_id req) = true ->
  NoDup (map cat_id (categories s)) ->
  NoDup (map exp_id (expenses s)) ->
  (forall c : Category,
      In c (categories s) ->
      cat_id c = ObjectId_cast (params_id req) -> cat_userId c <> A ->
      let gone := with_categories s
                    (Mongo.findByIdAndDelete cat_id (cat_id c) (categories s)) in
      let refusal :=
        if (Js.falsy (b_name (body req)) || Js.falsy (b_color (body req)))%bool
        then failure 400 "Name and color are required"
        else failure 404 "Category not found" in
      getCategoryById e req s = (failure 404 "Category not found", s)
      /\ deleteCategory e req s = (failure 404 "Category not found", s)
      /\ updateCategory e req s = (refusal, s)
      /\ fst (getCategoryById e req gone) = failure 404 "Category not found"
      /\ fst (deleteCategory e req gone) = failure 404 "Category not found"
      /\ fst (updateCategory e req gone) = refusal)
  /\ (forall x : Expense,
      In x (expenses s) ->
      exp_id x = ObjectId_cast (params_id req) -> exp_userId x <> A ->
      let gone := with_expenses s
                    (Mongo.findByIdAndDelete exp_id (exp_id x) (expenses s)) in
      getExpenseById e req s = (failure 404 "Expense not found", s)
      /\ deleteExpense e req s = (failure 404 "Expense not found", s)
      /\ updateExpense e req s = (failure 404 "Expense not found", s)
      /\ fst (getExpenseById e req gone) = failure 404 "Expense not found"
      /\ fst (deleteExpense e req gone) = failure 404 "Expense not found"
      /\ fst (updateExpense e req gone) = failure 404 "Expense not found").
Proof.
  intros Hu HA Hv HndC HndE.
  assert (HA' : String.eqb A "" = false) by now apply String.eqb_neq.
  split.
  - intros c Hin Hid Hown gone refusal.
    assert (Hf := foreign_category_not_found _ _ _ _ HndC Hin Hid Hown).
    assert (Hg : Mongo.findOne (catByIdAndOwner (params_id req) A)
                   (categories gone) = None).
    { unfold gone. simpl. rewrite Hid. now apply deleted_category_not_found. }
    repeat split.
    + unfold getCategoryById. now rewrite Hu, HA', Hv, Hf.
    + unfold deleteCategory. now rewrite Hu, HA', Hv, Hf.
    + now apply (updateCategory_lookup_fails e req s A).
    + unfold getCategoryById. now rewrite Hu, HA', Hv, Hg.
    + unfold deleteCategory. now rewrite Hu, HA', Hv, Hg.
    + now rewrite (updateCategory_lookup_fails e req gone A Hu HA Hv Hg).
  - intros x Hin Hid Hown gone.
    assert (Hf := foreign_expense_not_found _ _ _ _ HndE Hin Hid Hown).
    assert (Hg : Mongo.findOne (expByIdAndOwner (params_id req) A)
                   (expenses gone) = None).
    { unfold gone. simpl. rewrite Hid. now apply deleted_expense_not_found. }
    repeat split.
    + unfold getExpenseById. now rewrite Hu, HA', Hv, Hf.
    + unfold deleteExpense. now rewrite Hu, HA', Hv, Hf.
    + unfold updateExpense. now rewrite Hu, HA', Hv, Hf.
    + unfold getExpenseById. now rewrite Hu, HA', Hv, Hg.
    + unfold deleteExpense. now rewrite Hu, HA', Hv, Hg.
    + unfold updateExpense. now rewrite Hu, HA', Hv, Hg.
Qed.

End OwnershipTheorem.

Section CategoryUpdate.
Context `{Platform}.

(** C10. An authenticated [updateCategory] request without [name] or without
    [color] is refused with a 400 (InvalidInput): that of the id check when
    the id is malformed, that of the field check otherwise. The store is
    unchanged; an update carrying the icon alone cannot go through. *)
Theorem updateCategory_requires_name_and_color
  (e : Env) (req : Request) (s : Store) (A : string) :
  userIdOf req = Some A -> A <> "" ->
  b_name (body req) = None \/ b_color (body req) = None ->
  updateCategory e req s
  = (if ObjectId_isValid (params_id req)
     then failure 400 "Name and color are required"
     else failure 400 "Invalid category ID", s)
  /\ classify (fst (updateCategory e req s)) = Some InvalidInput
  /\ snd (updateCategory e req s) = s.
Proof.
  intros Hu HA Habsent.
  assert (E : updateCategory e req s
              = (if ObjectId_isValid (params_id req)
                 then failure 400 "Name and color are required"
                 else failure 400 "Invalid category ID", s)).
  { unfold updateCategory. rewrite Hu.
    apply String.eqb_neq in HA. rewrite HA.
    destruct (ObjectId_isValid (params_id req)); simpl; [ | reflexivity].
    destruct Habsent as [-> | ->]; simpl; [reflexivity | ].
    now rewrite orb_true_r. }
  rewrite E. split; [reflexivity | ].
  split; [ | reflexivity].
  now destruct (ObjectId_isValid (params_id req)).
Qed.

End CategoryUpdate.


(** ** Issuing and verifying codes *)

Section SaveFacts.
Context {A : Type} (idOf : A -> ObjectId).

Lemma findOne_save (f : A -> bool) (l : list A) (d d' : A) :
  Mongo.findOne f l = Some d -> idOf d' = idOf d -> f d' = true ->
  Mongo.findOne f (Mongo.save idOf d' l) = Some d'.
Proof.
  unfold Mongo.findOne, Mongo.save. intros Hfind Hid Hf.
  induction l as [| x l IH]; simpl in *; [discriminate | ].
  destruct (String.eqb (idOf x) (idOf d')) eqn:Ex.
  - now rewrite Hf.
  - destruct (f x) eqn:Efx.
    + injection Hfind as ->. rewrite Hid, String.eqb_refl in Ex. discriminate.
    + now apply IH.
Qed.

Lemma findOne_insert (f : A -> bool) (l : list A) (d : A) :
  Mongo.findOne f l = None -> f d = true ->
  Mongo.findOne f (Mongo.insert d l) = Some d.
Proof.
  unfold Mongo.findOne, Mongo.insert. intros Hfind Hf.
  induction l as [| x l IH]; simpl in *; [now rewrite Hf | ].
  destruct (f x); [discriminate | now apply IH].
Qed.

End SaveFacts.

Lemma decimalDigits_nonempty (fuel : nat) (n : Z) (acc : string) :
  acc <> "" -> Js.decimalDigits fuel n acc <> "".
Proof.
  revert n acc. induction fuel as [| fuel IH]; intros n acc Hacc; simpl; [exact Hacc | ].
  destruct (n / 10 =? 0); [discriminate | ].
  apply IH. discriminate.
Qed.

Lemma Number_toString_nonempty (n : Z) : Js.Number_toString n <> "".
Proof.
  unfold Js.Number_toString. destruct (n <? 0); [discriminate | ].
  simpl. destruct (n / 10 =? 0); [discriminate | ].
  apply decimalDigits_nonempty. discriminate.
Qed.

Lemma generateOTP_nonempty (r : Q) : generateOTP r <> "".
Proof. apply Number_toString_nonempty. Qed.

Section Verification.
Context `{Platform}.

Lemma phoneRegex_nonempty (p : string) : phoneRegex_test p = true -> p <> "".
Proof. intros Hp ->. discriminate. Qed.

Lemma createDefaultCategories_users (e : Env) (uid : string) (s : Store) :
  users (fst (createDefaultCategories e uid s)) = users s.
Proof.
  unfold createDefaultCategories.
  destruct (insertManyFails e); [reflexivity | ].
  destruct (insertMany e uid defaultCategories (created s) (categories s))
    as [[coll n] thrown].
  reflexivity.
Qed.

Lemma verifyOTP_success (e : Env) (req : Request) (s : Store)
  (phone code secret : string) (u : User) (t : Z) :
  b_phoneNumber (body req) = Some phone -> phone <> "" ->
  b_otp (body req) = Some code -> code <> "" ->
  Mongo.findOne (byPhone phone) (users s) = Some u ->
  otp u = Some code -> otpExpires u = Some t -> now e <= t ->
  JWT_SECRET (processEnv e) = Some secret -> secret <> "" ->
  verifyOTP e req s
  = (reply 200 (Some "Phone number verified successfully")
       (Session (jwt_sign secret (user_id u) (now e))
          {| uv_id := user_id u; uv_phoneNumber := phoneNumber u;
             uv_isVerified := true; uv_createdAt := user_createdAt u |}),
     afterVerification e u s).
Proof.
  intros Hp Hpne Hc Hcne Hfind Hotp Hexp Ht Hsec Hsne.
  unfold verifyOTP, afterVerification, generateToken, verified.
  rewrite Hp, Hc. simpl.
  apply String.eqb_neq in Hpne, Hcne, Hsne. rewrite Hpne, Hcne. simpl.
  rewrite Hfind, Hotp. simpl. rewrite String.eqb_refl. simpl.
  rewrite Hexp. destruct (t <? now e) eqn:Et; [apply Z.ltb_lt in Et; lia | ].
  rewrite Hsec, Hsne.
  destruct (isVerified u); reflexivity.
Qed.

Lemma findOne_byPhone (phone : string) (l : list User) (u : User) :
  Mongo.findOne (byPhone phone) l = Some u -> phoneNumber u = phone.
Proof.
  intros Hf. apply find_some in Hf. destruct Hf as [_ Hf].
  now apply String.eqb_eq in Hf.
Qed.

Lemma afterVerification_user (e : Env) (u : User) (s : Store) (phone : string) :
  Mongo.findOne (byPhone phone) (users s) = Some u ->
  Mongo.findOne (byPhone phone) (users (afterVerification e u s))
  = Some (verified e u).
Proof.
  intros Hfind. unfold afterVerification.
  assert (E : Mongo.findOne (byPhone phone)
                (Mongo.save user_id (verified e u) (users s))
              = Some (verified e u)).
  { apply (findOne_save user_id _ _ u); [exact Hfind | reflexivity | ].
    unfold byPhone. simpl. rewrite (findOne_byPhone _ _ _ Hfind).
    apply String.eqb_refl. }
  destruct (isVerified u); [exact E | ].
  now rewrite createDefaultCategories_users.
Qed.

Lemma sendOTP_users (e : Env) (req : Request) (s : Store) (phone : string) :
  b_phoneNumber (body req) = Some phone -> phoneRegex_test phone = true ->
  users (snd (sendOTP e req s))
  = match Mongo.findOne (byPhone phone) (users s) with
    | Some _ => Mongo.save user_id (issued e phone s) (users s)
    | None => Mongo.insert (issued e phone s) (users s)
    end.
Proof.
  intros Hp Hre. unfold sendOTP, issued. rewrite Hp, Hre.
  assert (Hne := phoneRegex_nonempty _ Hre). apply String.eqb_neq in Hne.
  rewrite Hne. simpl negb. cbv iota.
  destruct (_ && _)%bool; [destruct (smsFails e) | ];
    destruct (Mongo.findOne (byPhone phone) (users s)); reflexivity.
Qed.

Lemma sendOTP_stores_code (e : Env) (req : Request) (s : Store) (phone : string) :
  b_phoneNumber (body req) = Some phone -> phoneRegex_test phone = true ->
  Mongo.findOne (byPhone phone) (users (snd (sendOTP e req s)))
  = Some (issued e phone s).
Proof.
  intros Hp Hre. rewrite (sendOTP_users e req s phone Hp Hre).
  destruct (Mongo.findOne (byPhone phone) (users s)) as [u |] eqn:Hfind.
  - apply (findOne_save user_id _ _ u); [exact Hfind | | ];
      unfold issued; rewrite Hfind; [reflexivity | ].
    unfold byPhone. simpl. rewrite (findOne_byPhone _ _ _ Hfind).
    apply String.eqb_refl.
  - apply findOne_insert; [exact Hfind | ].
    unfold issued. rewrite Hfind. unfold byPhone. simpl. apply String.eqb_refl.
Qed.

Lemma issued_code (e : Env) (phone : string) (s : Store) :
  otp (issued e phone s) = Some (generateOTP (random e))
  /\ otpExpires (issued e phone s) = Some (now e + 10 * 60 * 1000).
Proof.
  unfold issued. destruct (Mongo.findOne (byPhone phone) (users s)); split; reflexivity.
Qed.

End Verification.

Section Seeding.
Context `{Platform}.

Lemma insertMany_no_conflict (e : Env) (uid : string)
  (docs : list (string * string * string)) :
  forall (n : nat) (coll : list Category),
  (forall c, In c coll -> cat_userId c = uid ->
             ~ In (cat_name c) (map (fun d => fst (fst d)) docs)) ->
  NoDup (map (fun d => fst (fst d)) docs) ->
  insertMany e uid docs n coll
  = ((coll ++ seededFrom e uid n docs)%list, (n + List.length docs)%nat, false).
Proof.
  induction docs as [| [[name color] icon] rest IH]; intros n coll Hfree Hnd; simpl.
  - now rewrite app_nil_r, Nat.add_0_r.
  - inversion Hnd as [| ? ? Hnotin Hnd']; subst.
    assert (Hv : violatesUniqueIndex
                   {| cat_id := ObjectId_fresh n; cat_name := name;
                      cat_color := color; cat_icon := Some icon;
                      cat_userId := uid; cat_createdAt := now e;
                      cat_updatedAt := now e |} coll = false).
    { apply not_true_is_false. intros Hex. unfold violatesUniqueIndex in Hex.
      apply existsb_exists in Hex. destruct Hex as (c & Hin & Hc).
      apply andb_true_iff in Hc. destruct Hc as [Hu Hn].
      apply String.eqb_eq in Hu, Hn. simpl in Hu, Hn.
      apply (Hfree c Hin Hu). simpl. now left. }
    rewrite Hv, IH.
    + unfold Mongo.insert. rewrite <- app_assoc. simpl.
      now rewrite Nat.add_succ_r.
    + intros c Hin Hu Hname. unfold Mongo.insert in Hin.
      apply in_app_or in Hin. destruct Hin as [Hin | [<- | []]].
      * apply (Hfree c Hin Hu). simpl. now right.
      * simpl in Hname. contradiction.
    + exact Hnd'.
Qed.

End Seeding.

Section VerificationTheorems.
Context `{Platform}.

Lemma verifyOTP_mismatch (e : Env) (req : Request) (s : Store)
  (phone code : string) (u : User) :
  b_phoneNumber (body req) = Some phone -> phone <> "" ->
  b_otp (body req) = Some code -> code <> "" ->
  Mongo.findOne (byPhone phone) (users s) = Some u ->
  Js.strictNeq (otp u) code = true ->
  verifyOTP e req s = (failure 400 "Invalid OTP", s).
Proof.
  intros Hp Hpne Hc Hcne Hfind Hneq.
  unfold verifyOTP. rewrite Hp, Hc. simpl.
  apply String.eqb_neq in Hpne, Hcne. rewrite Hpne, Hcne. simpl.
  now rewrite Hfind, Hneq.
Qed.

(** C2, as amended. When the stored expiry is missing or strictly earlier
    than the clock, [verifyOTP] for an existing user fails and changes
    nothing: with Expired when the submitted code is the stored one, with
    InvalidCode when it is not (the code is compared first). *)
Theorem expired_code_is_refused
  (e : Env) (req : Request) (s : Store) (phone code : string) (u : User) :
  b_phoneNumber (body req) = Some phone -> phone <> "" ->
  b_otp (body req) = Some code -> code <> "" ->
  Mongo.findOne (byPhone phone) (users s) = Some u ->
  match otpExpires u with
  | None => True
  | Some expiry => expiry < now e
  end ->
  verifyOTP e req s
  = (if Js.strictNeq (otp u) code
     then failure 400 "Invalid OTP"
     else failure 400 "OTP has expired. Please request a new one.", s)
  /\ (otp u = Some code -> classify (fst (verifyOTP e req s)) = Some Expired)
  /\ (otp u <> Some code -> classify (fst (verifyOTP e req s)) = Some InvalidCode).
Proof.
  intros Hp Hpne Hc Hcne Hfind Hexp.
  assert (E : verifyOTP e req s
              = (if Js.strictNeq (otp u) code
                 then failure 400 "Invalid OTP"
                 else failure 400 "OTP has expired. Please request a new one.", s)).
  { unfold verifyOTP. rewrite Hp, Hc. simpl.
    apply String.eqb_neq in Hpne, Hcne. rewrite Hpne, Hcne. simpl.
    rewrite Hfind.
    destruct (Js.strictNeq (otp u) code); [reflexivity | ].
    destruct (otpExpires u) as [expiry |]; [ | reflexivity].
    apply Z.ltb_lt in Hexp. now rewrite Hexp. }
  rewrite E. split; [reflexivity | ]. split.
  - intros ->. simpl. now rewrite String.eqb_refl.
  - intros Hneq. destruct (otp u) as [stored |]; simpl; [ | reflexivity].
    destruct (String.eqb stored code) eqn:Es; [ | reflexivity].
    apply String.eqb_eq in Es. congruence.
Qed.

(** C5. After [sendOTP] for a well-formed phone number, a [verifyOTP] with
    the issued code made no later than the expiry succeeds (the server having
    a signing secret): the user is left verified with code and expiry
    cleared. Any further [verifyOTP] with the same phone number and code, at
    whatever time, fails with InvalidCode and changes nothing. *)
Theorem issued_code_verifies_once
  (e0 e1 e2 : Env) (req0 req1 req2 : Request) (s0 : Store)
  (phone secret : string) :
  b_phoneNumber (body req0) = Some phone -> phoneRegex_test phone = true ->
  b_phoneNumber (body req1) = Some phone ->
  b_otp (body req1) = Some (generateOTP (random e0)) ->
  body req2 = body req1 ->
  now e1 <= now e0 + 10 * 60 * 1000 ->
  JWT_SECRET (processEnv e1) = Some secret -> secret <> "" ->
  let s1 := snd (sendOTP e0 req0 s0) in
  let r2 := fst (verifyOTP e1 req1 s1) in
  let s2 := snd (verifyOTP e1 req1 s1) in
  (status r2 = 200 /\ success r2 = true
   /\ exists token view, data r2 = Session token view /\ uv_isVerified view = true)
  /\ (exists u, Mongo.findOne (byPhone phone) (users s2) = Some u
                /\ otp u = None /\ otpExpires u = None /\ isVerified u = true)
  /\ verifyOTP e2 req2 s2 = (failure 400 "Invalid OTP", s2)
  /\ classify (fst (verifyOTP e2 req2 s2)) = Some InvalidCode.
Proof.
  intros Hp0 Hre Hp1 Hc1 Hb2 Ht Hsec Hsne s1 r2 s2.
  assert (Hpne := phoneRegex_nonempty _ Hre).
  assert (Hcne := generateOTP_nonempty (random e0)).
  assert (Hfind1 := sendOTP_stores_code e0 req0 s0 phone Hp0 Hre).
  destruct (issued_code e0 phone s0) as [Hotp Hexp].
  assert (E2 := verifyOTP_success e1 req1 s1 phone _ secret _ _
                  Hp1 Hpne Hc1 Hcne Hfind1 Hotp Hexp Ht Hsec Hsne).
  assert (Hfind2 := afterVerification_user e1 _ _ _ Hfind1).
  subst r2 s2. rewrite E2. cbn [fst snd].
  split; [split; [reflexivity | split; [reflexivity | ]] | ].
  { eexists. eexists. split; reflexivity. }
  split.
  { exists (verified e1 (issued e0 phone s0)). now split. }
  assert (E3 : verifyOTP e2 req2 (afterVerification e1 (issued e0 phone s0) s1)
               = (failure 400 "Invalid OTP",
                  afterVerification e1 (issued e0 phone s0) s1)).
  { apply (verifyOTP_mismatch _ _ _ phone (generateOTP (random e0))
             (verified e1 (issued e0 phone s0)));
      try assumption; try congruence. reflexivity. }
  rewrite E3. split; reflexivity.
Qed.

(** C8. In a successful [verifyOTP] the answer is the 200 with the token
    whatever happens to the seeding. The default categories are inserted
    exactly when the user was not verified before: a verified user's
    categories are untouched; for an unverified one a rejected insertion
    leaves the categories as they were, and an insertion into a store where
    the user owns no category yet appends the six defaults, owned by the
    user. *)
Theorem seeding_only_on_first_verification
  (e : Env) (req : Request) (s : Store) (phone code secret : string)
  (u : User) (t : Z) :
  b_phoneNumber (body req) = Some phone -> phone <> "" ->
  b_otp (body req) = Some code -> code <> "" ->
  Mongo.findOne (byPhone phone) (users s) = Some u ->
  otp u = Some code -> otpExpires u = Some t -> now e <= t ->
  JWT_SECRET (processEnv e) = Some secret -> secret <> "" ->
  fst (verifyOTP e req s)
  = reply 200 (Some "Phone number verified successfully")
      (Session (jwt_sign secret (user_id u) (now e))
         {| uv_id := user_id u; uv_phoneNumber := phoneNumber u;
            uv_isVerified := true; uv_createdAt := user_createdAt u |})
  /\ (isVerified u = true ->
      categories (snd (verifyOTP e req s)) = categories s)
  /\ (isVerified u = false -> insertManyFails e = true ->
      categories (snd (verifyOTP e req s)) = categories s)
  /\ (isVerified u = false -> insertManyFails e = false ->
      (forall c, In c (categories s) -> cat_userId c <> user_id u) ->
      categories (snd (verifyOTP e req s))
      = (categories s
        ++ map (fun d : nat * (string * string * string) =>
                  let '(i, (name, color, icon)) := d in
                  {| cat_id := ObjectId_fresh (i + created s);
                     cat_name := name; cat_color := color;
                     cat_icon := Some icon; cat_userId := user_id u;
                     cat_createdAt := now e; cat_updatedAt := now e |})
               (combine (seq 0 6) defaultCategories))%list).
Proof.
  intros Hp Hpne Hc Hcne Hfind Hotp Hexp Ht Hsec Hsne.
  rewrite (verifyOTP_success e req s phone code secret u t) by assumption.
  cbn [fst snd]. unfold afterVerification.
  split; [reflexivity | ].
  split; [intros ->; reflexivity | ].
  split.
  - intros -> Hfail. unfold createDefaultCategories. now rewrite Hfail.
  - intros -> Hok Hnone. unfold createDefaultCategories. rewrite Hok.
    rewrite insertMany_no_conflict.
    + reflexivity.
    + intros c Hin Hu _. now apply (Hnone c).
    + unfold defaultCategories. simpl.
      repeat (constructor; [simpl; intuition discriminate | ]). constructor.
Qed.

End VerificationTheorems.


(** ** The authentication middleware *)

Lemma substring_whole (s : string) : String.substring 0 (String.length s) s = s.
Proof. induction s as [| c s IH]; simpl; [reflexivity | now rewrite IH]. Qed.

Lemma bearer_token (token : string) :
  String.prefix "Bearer " ("Bearer " ++ token) = true
  /\ String.substring 7 (String.length ("Bearer " ++ token) - 7) ("Bearer " ++ token)
     = token.
Proof.
  split; simpl.
  - now destruct token.
  - rewrite Nat.sub_0_r. apply substring_whole.
Qed.

Section Authentication.
Context `{Platform}.
Variable others : Endpoint -> Handler.

(** C4. On every endpoint behind [authenticate] (all of categories and
    expenses, and [/auth/me]), a request whose token verifies against the
    server secret and has not expired, and whose embedded user id is a
    well-formed ObjectId as [generateToken] embeds it, is answered 401
    (Unauthorized) when no user has that id or when the user's verified flag
    is false, the store being untouched; only when the user exists and is
    verified does the endpoint's handler run, with [req.user] carrying that
    user's id and phone number. *)
Theorem authenticate_rechecks_user
  (ep : Endpoint) (e : Env) (req : Request) (s : Store)
  (token secret userId : string) :
  guarded ep = true ->
  authorization req = Some ("Bearer " ++ token) ->
  JWT_SECRET (processEnv e) = Some secret -> secret <> "" ->
  jwt_verify token secret (now e) = Decoded userId ->
  ObjectId_isValid userId = true ->
  route others ep e req s
  = match Mongo.findOne (byId (ObjectId_cast userId)) (users s) with
    | None => (failure 401 "User no longer exists.", s)
    | Some user =>
        if isVerified user then
          controllerOf others ep e
            (with_user req {| ru_userId := user_id user;
                              ru_phoneNumber := phoneNumber user |}) s
        else
          (failure 401 "Account not verified. Please verify your phone number.",
           s)
    end
  /\ ((Mongo.findOne (byId (ObjectId_cast userId)) (users s) = None
       \/ exists user,
            Mongo.findOne (byId (ObjectId_cast userId)) (users s) = Some user
            /\ isVerified user = false) ->
      classify (fst (route others ep e req s)) = Some Unauthorized
      /\ snd (route others ep e req s) = s).
Proof.
  intros Hg Hauth Hsec Hsne Hjwt Hvalid.
  destruct (bearer_token token) as [Hpre Hsub].
  assert (E : route others ep e req s
              = match Mongo.findOne (byId (ObjectId_cast userId)) (users s) with
                | None => (failure 401 "User no longer exists.", s)
                | Some user =>
                    if isVerified user then
                      controllerOf others ep e
                        (with_user req {| ru_userId := user_id user;
                                          ru_phoneNumber := phoneNumber user |}) s
                    else
                      (failure 401
                         "Account not verified. Please verify your phone number.",
                       s)
                end).
  { unfold route. rewrite Hg. unfold authenticate.
    rewrite Hauth, Hpre, Hsub, Hsec. cbn [negb].
    apply String.eqb_neq in Hsne. rewrite Hsne, Hjwt, Hvalid. cbn [negb].
    destruct (Mongo.findOne (byId (ObjectId_cast userId)) (users s)) as [user |];
      [ | reflexivity].
    now destruct (isVerified user). }
  split; [exact E | ].
  intros [Hnone | (user & Hsome & Hunverified)]; rewrite E.
  - rewrite Hnone. split; reflexivity.
  - rewrite Hsome, Hunverified. split; reflexivity.
Qed.

End Authentication.


(** ** Sorting *)

Section SortFacts.
Context {A : Type} (precedes : A -> A -> bool).
Hypothesis precedes_total :
  forall a b, precedes a b = true \/ precedes b a = true.
Hypothesis precedes_trans :
  forall a b c, precedes a b = true -> precedes b c = true -> precedes a c = true.

Lemma insertBy_perm (x : A) (l : list A) :
  Permutation (x :: l) (Aggregate.insertBy precedes x l).
Proof.
  induction l as [| y l IH]; simpl; [apply Permutation_refl | ].
  destruct (precedes x y); [apply Permutation_refl | ].
  eapply perm_trans; [apply perm_swap | now apply perm_skip].
Qed.

Lemma sortBy_perm (l : list A) : Permutation l (Aggregate.sortBy precedes l).
Proof.
  induction l as [| x l IH]; simpl; [constructor | ].
  eapply perm_trans; [apply perm_skip, IH | apply insertBy_perm].
Qed.

Lemma insertBy_sorted (x : A) (l : list A) :
  StronglySorted (fun a b => precedes a b = true) l ->
  StronglySorted (fun a b => precedes a b = true) (Aggregate.insertBy precedes x l).
Proof.
  induction 1 as [| y l Hsorted IH Hall]; simpl.
  - repeat constructor.
  - destruct (precedes x y) eqn:Exy.
    + constructor; [now constructor | ].
      constructor; [exact Exy | ].
      rewrite Forall_forall in *. intros z Hz.
      apply (precedes_trans x y z); auto.
    + constructor; [exact IH | ].
      rewrite Forall_forall in *. intros z Hz.
      apply (Permutation_in _ (Permutation_sym (insertBy_perm x l))) in Hz.
      destruct Hz as [<- | Hz]; [ | now apply Hall].
      destruct (precedes_total x y) as [Hxy | Hyx]; congruence.
Qed.

Lemma sortBy_sorted (l : list A) :
  StronglySorted (fun a b => precedes a b = true) (Aggregate.sortBy precedes l).
Proof.
  induction l as [| x l IH]; simpl; [constructor | now apply insertBy_sorted].
Qed.

End SortFacts.

Lemma firstn_subset {A : Type} (n : nat) (l : list A) (x : A) :
  In x (firstn n l) -> In x l.
Proof.
  revert n. induction l as [| y l IH]; intros [| n]; simpl; try tauto.
  intros [-> | Hx]; [now left | right; now apply (IH n)].
Qed.

Lemma StronglySorted_firstn {A : Type} (R : A -> A -> Prop) (n : nat) (l : list A) :
  StronglySorted R l -> StronglySorted R (firstn n l).
Proof.
  intros Hs. revert n. induction Hs as [| x l Hs IH Hall]; intros [| n]; simpl;
    try constructor.
  - apply IH.
  - rewrite Forall_forall in *. intros y Hy. apply Hall.
    now apply (firstn_subset n l).
Qed.

Lemma dropNulls_In {A B : Type} (f : A -> option B) (l : list A) (b : B) :
  In b (dropNulls (map f l)) <-> exists a, In a l /\ f a = Some b.
Proof.
  induction l as [| x l IH]; simpl.
  - split; [tauto | intros (a & [] & _)].
  - destruct (f x) as [b' |] eqn:Ef; simpl; rewrite IH.
    + split.
      * intros [-> | (a & Ha & Hfa)]; [exists x; auto | exists a; auto].
      * intros (a & [-> | Ha] & Hfa); [left; congruence | right; exists a; auto].
    + split.
      * intros (a & Ha & Hfa); exists a; auto.
      * intros (a & [-> | Ha] & Hfa); [congruence | exists a; auto].
Qed.

Lemma dropNulls_length {A B : Type} (f : A -> option B) (l : list A) :
  (List.length (dropNulls (map f l)) <= List.length l)%nat.
Proof.
  induction l as [| x l IH]; simpl; [lia | ].
  destruct (f x); simpl; lia.
Qed.

Lemma dropNulls_sorted {A B : Type} (f : A -> option B)
  (R : A -> A -> Prop) (R' : B -> B -> Prop) (l : list A) :
  (forall a a' b b', f a = Some b -> f a' = Some b' -> R a a' -> R' b b') ->
  StronglySorted R l -> StronglySorted R' (dropNulls (map f l)).
Proof.
  intros Hf. induction 1 as [| x l Hs IH Hall]; simpl; [constructor | ].
  destruct (f x) as [b |] eqn:Ef; [ | exact IH].
  constructor; [exact IH | ].
  rewrite Forall_forall in *. intros b' Hb'.
  apply dropNulls_In in Hb'. destruct Hb' as (a' & Ha' & Hfa').
  apply (Hf x a' b b' Ef Hfa'). now apply Hall.
Qed.

Lemma newerFirst_spec (a b : Expense) :
  newerFirst a b = true
  <-> date b < date a \/ (date a = date b /\ exp_createdAt b <= exp_createdAt a).
Proof.
  unfold newerFirst.
  rewrite orb_true_iff, andb_true_iff, Z.ltb_lt, Z.eqb_eq, Z.leb_le. tauto.
Qed.

Lemma newerFirst_total (a b : Expense) :
  newerFirst a b = true \/ newerFirst b a = true.
Proof. rewrite !newerFirst_spec. lia. Qed.

Lemma newerFirst_trans (a b c : Expense) :
  newerFirst a b = true -> newerFirst b c = true -> newerFirst a c = true.
Proof. rewrite !newerFirst_spec. lia. Qed.

Section RecentActivity.
Context `{Platform}.

Lemma formatRecent_fields (e : Env) (s : Store) (x : Expense) (v : ExpenseView) :
  formatRecent e s x = Some v ->
  ev_id v = exp_id x /\ ev_userId v = exp_userId x /\ ev_date v = date x
  /\ ev_createdAt v = exp_createdAt x /\ ev_amount v = amount x
  /\ exists c, populate x s = Some c /\ ev_categoryId v = cat_id c
               /\ cr_name (ev_category v) = cat_name c.
Proof.
  unfold formatRecent. destruct (populate x s) as [c |]; [ | discriminate].
  intros [= <-]. simpl. repeat split; try reflexivity. now exists c.
Qed.

Lemma dropNulls_formatRecent_ids (e : Env) (s : Store) (l : list Expense) :
  map ev_id (dropNulls (map (formatRecent e s) l))
  = map exp_id
      (filter (fun x => match populate x s with Some _ => true | None => false end) l).
Proof.
  induction l as [| x l IH]; simpl; [reflexivity | ].
  unfold formatRecent at 1. destruct (populate x s); simpl; now rewrite IH.
Qed.

(** C7. The summary is answered with a 200 whatever the store holds. Its
    recent transactions are built from the first five of the requester's
    expenses sorted by date descending, then creation time descending: they
    are at most five, all owned by the requester, in that same order, and
    they are the fetched expenses whose category resolves, the others being
    left out. *)
Theorem recent_transactions_newest_five
  (e : Env) (req : Request) (s : Store) (userId : string) :
  userIdOf req = Some userId -> userId <> "" ->
  let sorted := Aggregate.sortBy newerFirst (findByUser userId (expenses s)) in
  let fetched := firstn 5 sorted in
  let recent := recentTransactions (summarize e userId s) in
  getExpenseSummary e req s
  = (reply 200 None (SummaryData (summarize e userId s)), s)
  /\ Permutation (findByUser userId (expenses s)) sorted
  /\ StronglySorted
       (fun a b => date b < date a
                   \/ (date a = date b /\ exp_createdAt b <= exp_createdAt a))
       sorted
  /\ (List.length recent <= 5)%nat
  /\ (forall v, In v recent -> ev_userId v = userId)
  /\ StronglySorted
       (fun a b => ev_date b < ev_date a
                   \/ (ev_date a = ev_date b /\ ev_createdAt b <= ev_createdAt a))
       recent
  /\ recent = dropNulls (map (formatRecent e s) fetched)
  /\ map ev_id recent
     = map exp_id
         (filter (fun x => match populate x s with
                           | Some _ => true
                           | None => false
                           end) fetched).
Proof.
  intros Hu Hne sorted fetched recent.
  assert (Hsorted : StronglySorted
            (fun a b => date b < date a
                        \/ (date a = date b /\ exp_createdAt b <= exp_createdAt a))
            sorted).
  { assert (Hs := sortBy_sorted newerFirst newerFirst_total newerFirst_trans
                    (findByUser userId (expenses s))).
    fold sorted in Hs. clearbody sorted.
    induction Hs as [| x l Hs IH Hall]; constructor; [exact IH | ].
    rewrite Forall_forall in *. intros y Hy. now apply newerFirst_spec, Hall. }
  assert (Hperm : Permutation (findByUser userId (expenses s)) sorted)
    by apply sortBy_perm.
  assert (Erecent : recent = dropNulls (map (formatRecent e s) fetched))
    by reflexivity.
  split.
  { unfold getExpenseSummary. rewrite Hu.
    apply String.eqb_neq in Hne. now rewrite Hne. }
  split; [exact Hperm | ]. split; [exact Hsorted | ].
  split.
  { rewrite Erecent.
    eapply Nat.le_trans; [apply dropNulls_length | ].
    unfold fetched. apply firstn_le_length. }
  split.
  { intros v Hv. rewrite Erecent in Hv. apply dropNulls_In in Hv.
    destruct Hv as (x & Hx & Hfx).
    apply formatRecent_fields in Hfx. destruct Hfx as (_ & -> & _).
    apply firstn_subset in Hx.
    apply (Permutation_in _ (Permutation_sym Hperm)) in Hx.
    unfold findByUser in Hx. apply filter_In in Hx.
    now apply String.eqb_eq. }
  split.
  { rewrite Erecent.
    apply (dropNulls_sorted (formatRecent e s)
             (fun a b => date b < date a
                         \/ (date a = date b /\ exp_createdAt b <= exp_createdAt a))).
    - intros a a' b b' Ha Ha' HR.
      apply formatRecent_fields in Ha, Ha'.
      destruct Ha as (_ & _ & -> & -> & _), Ha' as (_ & _ & -> & -> & _).
      exact HR.
    - now apply StronglySorted_firstn. }
  split; [exact Erecent | ].
  rewrite Erecent. apply dropNulls_formatRecent_ids.
Qed.

End RecentActivity.

(** ** Grouping by category *)




Lemma firstCount_groupAll (l : list Expense) :
  firstCount (Aggregate.groupAll l) = Aggregate.count l.
Proof. now destruct l. Qed.

Lemma NoDup_snoc {A : Type} (l : list A) (a : A) :
  NoDup l -> ~ In a l -> NoDup (l ++ [a]).
Proof.
  induction 1 as [| x l Hx Hnd IH]; simpl; intros Ha.
  - constructor; [tauto | constructor].
  - constructor.
    + intros Hin. apply in_app_or in Hin. destruct Hin as [Hin | [-> | []]]; tauto.
    + apply IH. tauto.
Qed.

Section GroupFacts.











End GroupFacts.

Section Breakdown.
Context `{Platform}.



End Breakdown.

(** ** The period statistics *)

Section PeriodStatistics.
Context `{Platform}.

Lemma matchUserId_objectId (o : ObjectId) (l : list Expense) :
  matchUserId (BObjectId o) l = [].
Proof. induction l as [| x l IH]; [reflexivity | exact IH]. Qed.

(** Whatever the store, the user and the period, the statistics match no
    expense: the owner is stored as a string and looked for as an ObjectId. *)
Lemma periodStats_matches_nothing (e : Env) (userId p : string) (s : Store) :
  totalAmount (periodStats e userId p s) = 0%Q
  /\ totalCount (periodStats e userId p s) = 0
  /\ expensesByCategory (periodStats e userId p s) = []
  /\ dailyExpenses (periodStats e userId p s) = [].
Proof.
  unfold periodStats.
  cbn [totalAmount totalCount expensesByCategory dailyExpenses].
  rewrite matchUserId_objectId. repeat split.
Qed.

End PeriodStatistics.


(** * Further properties *)

(** ** Issuing codes *)

Lemma maskPhone_length (s : string) :
  String.length (maskPhone s) = String.length s.
Proof.
  induction s as [| c s IH]; [reflexivity | ].
  cbn [maskPhone]. destruct (Nat.leb 4 (String.length s)); [ | reflexivity].
  cbn [String.length]. now rewrite IH.
Qed.

(** X1. For a phone number that [sendOTP] accepts, the masked number of
    the answer has the length of the phone number; every character followed
    by at least four others is a star, and the last four characters (all of
    them when there are at most four) are those of the phone number. *)
Theorem maskPhone_shows_last_four_only (phone : string) :
  phoneRegex_test phone = true ->
  String.length (maskPhone phone) = String.length phone
  /\ (forall i, (i + 4 < String.length phone)%nat ->
                String.get i (maskPhone phone) = Some "*"%char)
  /\ (forall i, (String.length phone <= i + 4)%nat ->
                String.get i (maskPhone phone) = String.get i phone).
Proof.
  intros _. generalize phone as s. intros s.
  split; [apply maskPhone_length | ].
  induction s as [| c s [IHstar IHlast]].
  - split; [intros i Hi; simpl in Hi; lia | reflexivity].
  - cbn [maskPhone String.length].
    destruct (Nat.leb 4 (String.length s)) eqn:E.
    + apply Nat.leb_le in E. split.
      * intros [| i] Hi; cbn [String.get]; [reflexivity | apply IHstar; lia].
      * intros [| i] Hi; cbn [String.get]; [lia | apply IHlast; lia].
    + apply Nat.leb_gt in E. split; [intros i Hi; lia | reflexivity].
Qed.

Section IssuingCodes.
Context `{Platform}.

(** X2. The answer of [sendOTP] carries the code only when no SMS can be
    sent (no Twilio client or no sender number) and [NODE_ENV] is
    [development]; the phone number it carries is always the masked one. *)
Theorem sendOTP_reveals_code_in_development_only
  (e : Env) (req : Request) (s : Store) (shown : string) (code : option string) :
  data (fst (sendOTP e req s)) = OtpSent shown code ->
  (exists phone, b_phoneNumber (body req) = Some phone /\ shown = maskPhone phone)
  /\ (code <> None ->
      code = Some (generateOTP (random e))
      /\ NODE_ENV (processEnv e) = Some "development"
      /\ (twilioClient (processEnv e) = false
          \/ Js.falsy (TWILIO_PHONE_NUMBER (processEnv e)) = true)).
Proof.
  unfold sendOTP.
  destruct (b_phoneNumber (body req)) as [phone |]; [ | discriminate].
  destruct (String.eqb phone ""); [discriminate | ].
  destruct (negb (phoneRegex_test phone)); [discriminate | ].
  destruct (twilioClient (processEnv e)) eqn:Ec;
    destruct (Js.falsy (TWILIO_PHONE_NUMBER (processEnv e))) eqn:Ef; cbn [andb negb].
  2: destruct (smsFails e); [discriminate | ].
  all: cbn [fst data]; intros [= <- <-];
    (split; [now exists phone | intros Hcode]); try congruence.
  all: destruct (NODE_ENV (processEnv e)) as [mode |]; try congruence;
    destruct (String.eqb mode "development") eqn:Em; try congruence;
    apply String.eqb_eq in Em; subst mode; auto.
Qed.

(** X3. When the SMS provider is configured and the delivery fails, the
    answer is a 500 and yet the new code and its expiry are stored for the
    phone number. *)
Theorem sendOTP_stores_code_when_delivery_fails
  (e : Env) (req : Request) (s : Store) (phone : string) :
  b_phoneNumber (body req) = Some phone -> phoneRegex_test phone = true ->
  twilioClient (processEnv e) = true ->
  Js.falsy (TWILIO_PHONE_NUMBER (processEnv e)) = false ->
  smsFails e = true ->
  fst (sendOTP e req s)
  = failure 500 "Failed to send OTP. Please check your phone number and try again."
  /\ exists u,
       Mongo.findOne (byPhone phone) (users (snd (sendOTP e req s))) = Some u
       /\ otp u = Some (generateOTP (random e))
       /\ otpExpires u = Some (now e + 10 * 60 * 1000).
Proof.
  intros Hp Hre Hc Hf Hfail. split.
  - unfold sendOTP. rewrite Hp, Hre, Hc, Hf, Hfail.
    assert (Hne := phoneRegex_nonempty _ Hre). apply String.eqb_neq in Hne.
    now rewrite Hne.
  - exists (issued e phone s). split; [now apply sendOTP_stores_code | ].
    apply issued_code.
Qed.

(** X4. A second [sendOTP] for a phone number replaces the code of the
    first: the stored code and expiry are those of the second request, and
    the first code, when it differs, is refused as an invalid code. *)
Theorem reissued_code_replaces_previous
  (e1 e2 e3 : Env) (req1 req2 req3 : Request) (s0 : Store) (phone : string) :
  b_phoneNumber (body req1) = Some phone -> phoneRegex_test phone = true ->
  b_phoneNumber (body req2) = Some phone ->
  b_phoneNumber (body req3) = Some phone ->
  b_otp (body req3) = Some (generateOTP (random e1)) ->
  generateOTP (random e1) <> generateOTP (random e2) ->
  let s2 := snd (sendOTP e2 req2 (snd (sendOTP e1 req1 s0))) in
  (exists u,
     Mongo.findOne (byPhone phone) (users s2) = Some u
     /\ otp u = Some (generateOTP (random e2))
     /\ otpExpires u = Some (now e2 + 10 * 60 * 1000))
  /\ verifyOTP e3 req3 s2 = (failure 400 "Invalid OTP", s2).
Proof.
  intros Hp1 Hre Hp2 Hp3 Hc3 Hdiff s2.
  assert (Hfind := sendOTP_stores_code e2 req2 (snd (sendOTP e1 req1 s0)) phone Hp2 Hre).
  destruct (issued_code e2 phone (snd (sendOTP e1 req1 s0))) as [Hotp Hexp].
  split.
  - eexists. split; [exact Hfind | now split].
  - apply (verifyOTP_mismatch e3 req3 s2 phone (generateOTP (random e1))
             (issued e2 phone (snd (sendOTP e1 req1 s0))) Hp3).
    + now apply phoneRegex_nonempty.
    + exact Hc3.
    + apply generateOTP_nonempty.
    + exact Hfind.
    + rewrite Hotp. simpl. apply negb_true_iff, String.eqb_neq. congruence.
Qed.

End IssuingCodes.

Section SaveFrame.
Context {A : Type} (idOf : A -> ObjectId).

Lemma save_ids (d : A) (l : list A) :
  map idOf (Mongo.save idOf d l) = map idOf l.
Proof.
  unfold Mongo.save. induction l as [| x l IH]; simpl; [reflexivity | ].
  rewrite IH. destruct (String.eqb (idOf x) (idOf d)) eqn:E; [ | reflexivity].
  apply String.eqb_eq in E. now rewrite E.
Qed.

Lemma save_others (d v : A) (l : list A) :
  In v l -> idOf v <> idOf d -> In v (Mongo.save idOf d l).
Proof.
  intros Hin Hid. unfold Mongo.save. apply in_map_iff. exists v.
  split; [ | exact Hin]. apply String.eqb_neq in Hid. now rewrite Hid.
Qed.

Lemma save_member (d v : A) (l : list A) :
  In v (Mongo.save idOf d l) -> v = d \/ In v l.
Proof.
  unfold Mongo.save. intros Hin. apply in_map_iff in Hin.
  destruct Hin as (x & Hx & Hin).
  destruct (String.eqb (idOf x) (idOf d)); [left | right]; congruence.
Qed.

Lemma findOne_member (f : A -> bool) (l : list A) (d : A) :
  In d l -> f d = true -> exists d', Mongo.findOne f l = Some d'.
Proof.
  unfold Mongo.findOne. intros Hin Hf.
  destruct (find f l) as [d' |] eqn:E; [now exists d' | ].
  rewrite (find_none f l E d Hin) in Hf. discriminate.
Qed.

End SaveFrame.

Section CodesAndUsers.
Context `{Platform}.

Lemma sendOTP_store (e : Env) (req : Request) (s : Store) (phone : string) :
  b_phoneNumber (body req) = Some phone -> phoneRegex_test phone = true ->
  snd (sendOTP e req s)
  = match Mongo.findOne (byPhone phone) (users s) with
    | Some _ => with_users s (Mongo.save user_id (issued e phone s) (users s))
    | None =>
        with_created (with_users s (Mongo.insert (issued e phone s) (users s)))
                     (S (created s))
    end.
Proof.
  intros Hp Hre. unfold sendOTP, issued. rewrite Hp, Hre.
  assert (Hne := phoneRegex_nonempty _ Hre). apply String.eqb_neq in Hne.
  rewrite Hne. simpl negb. cbv iota.
  destruct (_ && _)%bool; [destruct (smsFails e) | ];
    destruct (Mongo.findOne (byPhone phone) (users s)); reflexivity.
Qed.

(** X5. [sendOTP] for a well-formed phone number touches the one user of
    that number: the categories, expenses and uploads are unchanged and the
    users of other numbers stay as they are. A user found keeps its id, its
    verified flag and its creation time, and no user is added; when none is
    found, one unverified user with that number is appended. *)
Theorem sendOTP_touches_one_user
  (e : Env) (req : Request) (s : Store) (phone : string) :
  b_phoneNumber (body req) = Some phone -> phoneRegex_test phone = true ->
  NoDup (map user_id (users s)) ->
  let s' := snd (sendOTP e req s) in
  categories s' = categories s /\ expenses s' = expenses s
  /\ uploads s' = uploads s
  /\ (forall v, In v (users s) -> phoneNumber v <> phone -> In v (users s'))
  /\ match Mongo.findOne (byPhone phone) (users s) with
     | Some u =>
         map user_id (users s') = map user_id (users s)
         /\ exists u', Mongo.findOne (byPhone phone) (users s') = Some u'
                       /\ user_id u' = user_id u
                       /\ isVerified u' = isVerified u
                       /\ user_createdAt u' = user_createdAt u
     | None =>
         exists u', users s' = (users s ++ [u'])%list
                    /\ phoneNumber u' = phone /\ isVerified u' = false
     end.
Proof.
  intros Hp Hre Hnd s'.
  assert (Hs := sendOTP_store e req s phone Hp Hre).
  assert (Hfind' := sendOTP_stores_code e req s phone Hp Hre).
  fold s' in Hs, Hfind'. clearbody s'.
  destruct (Mongo.findOne (byPhone phone) (users s)) as [u |] eqn:Hfind;
    subst s'; cbn [categories expenses uploads users with_users with_created].
  - assert (Hin : In u (users s)) by (apply find_some in Hfind; tauto).
    assert (Hu : issued e phone s
                 = {| user_id := user_id u; phoneNumber := phoneNumber u;
                      otp := Some (generateOTP (random e));
                      otpExpires := Some (now e + 10 * 60 * 1000);
                      isVerified := isVerified u;
                      user_createdAt := user_createdAt u;
                      user_updatedAt := now e |})
      by (unfold issued; now rewrite Hfind).
    repeat split.
    + intros v Hv Hphone. apply save_others; [exact Hv | ].
      rewrite Hu. cbn [user_id]. intros Hid.
      assert (v = u) by (apply (unique_id user_id (users s)); assumption).
      subst v. now rewrite (findOne_byPhone _ _ _ Hfind) in Hphone.
    + apply save_ids.
    + exists (issued e phone s). split; [exact Hfind' | ].
      rewrite Hu. repeat split.
  - repeat split.
    + intros v Hv _. unfold Mongo.insert. apply in_or_app. now left.
    + exists (issued e phone s). split; [reflexivity | ].
      unfold issued. rewrite Hfind. split; reflexivity.
Qed.

End CodesAndUsers.

(** ** Verifying codes *)

Section VerifyingCodes.
Context `{Platform}.

(** X6. A [verifyOTP] answered 400 or 404 leaves the store as it was. *)
Theorem verifyOTP_refusal_changes_nothing (e : Env) (req : Request) (s : Store) :
  status (fst (verifyOTP e req s)) = 400
  \/ status (fst (verifyOTP e req s)) = 404 ->
  snd (verifyOTP e req s) = s.
Proof.
  unfold verifyOTP.
  destruct (Js.falsy (b_phoneNumber (body req)) || Js.falsy (b_otp (body req)))%bool;
    [reflexivity | ].
  destruct (b_phoneNumber (body req)) as [phone |],
           (b_otp (body req)) as [code |]; try reflexivity.
  destruct (Mongo.findOne (byPhone phone) (users s)) as [u |]; [ | reflexivity].
  destruct (Js.strictNeq (otp u) code); [reflexivity | ].
  destruct (match otpExpires u with
            | Some expires => expires <? now e
            | None => true
            end); [reflexivity | ].
  cbv zeta. cbn [user_id].
  destruct (generateToken e (user_id u));
    intros [Hs | Hs]; cbn [fst status failure reply] in Hs; discriminate.
Qed.

Lemma verifyOTP_accepted (e : Env) (req : Request) (s : Store)
  (phone code : string) (u : User) (t : Z) :
  b_phoneNumber (body req) = Some phone -> phone <> "" ->
  b_otp (body req) = Some code -> code <> "" ->
  Mongo.findOne (byPhone phone) (users s) = Some u ->
  otp u = Some code -> otpExpires u = Some t -> now e <= t ->
  verifyOTP e req s
  = (match generateToken e (user_id u) with
     | None => failure 500 "Internal server error"
     | Some token =>
         reply 200 (Some "Phone number verified successfully")
           (Session token
              {| uv_id := user_id u; uv_phoneNumber := phoneNumber u;
                 uv_isVerified := true; uv_createdAt := user_createdAt u |})
     end,
     afterVerification e u s).
Proof.
  intros Hp Hpne Hc Hcne Hfind Hotp Hexp Ht.
  unfold verifyOTP, afterVerification, verified.
  rewrite Hp, Hc. simpl.
  apply String.eqb_neq in Hpne, Hcne. rewrite Hpne, Hcne. simpl.
  rewrite Hfind, Hotp. simpl. rewrite String.eqb_refl. simpl.
  rewrite Hexp. destruct (t <? now e) eqn:Et; [apply Z.ltb_lt in Et; lia | ].
  destruct (generateToken e (user_id u)); destruct (isVerified u); reflexivity.
Qed.

(** X7. Without a signing secret ([JWT_SECRET] unset or empty) a right code
    presented in time is answered 500, and it is used up all the same: the
    user is stored verified, code and expiry cleared. *)
Theorem verifyOTP_without_secret_uses_up_the_code
  (e : Env) (req : Request) (s : Store) (phone code : string) (u : User) (t : Z) :
  b_phoneNumber (body req) = Some phone -> phone <> "" ->
  b_otp (body req) = Some code -> code <> "" ->
  Mongo.findOne (byPhone phone) (users s) = Some u ->
  otp u = Some code -> otpExpires u = Some t -> now e <= t ->
  Js.falsy (JWT_SECRET (processEnv e)) = true ->
  fst (verifyOTP e req s) = failure 500 "Internal server error"
  /\ exists u',
       Mongo.findOne (byPhone phone) (users (snd (verifyOTP e req s))) = Some u'
       /\ isVerified u' = true /\ otp u' = None /\ otpExpires u' = None.
Proof.
  intros Hp Hpne Hc Hcne Hfind Hotp Hexp Ht Hsec.
  rewrite (verifyOTP_accepted e req s phone code u t) by assumption.
  cbn [fst snd]. split.
  - unfold generateToken. unfold Js.falsy in Hsec.
    destruct (JWT_SECRET (processEnv e)) as [secret |]; [ | reflexivity].
    now rewrite Hsec.
  - exists (verified e u). split; [now apply afterVerification_user | ].
    repeat split.
Qed.

(** X8. [verifyOTP] and the user schema method [isOTPValid] agree except at the expiry
    instant: for a user found and a server with a secret, a code that
    [isOTPValid] accepts is answered 200, and a code answered 200 is one
    that [isOTPValid] accepts or one presented at the very instant of its
    expiry. *)
Theorem verifyOTP_agrees_with_isOTPValid
  (e : Env) (req : Request) (s : Store) (phone code secret : string) (u : User) :
  b_phoneNumber (body req) = Some phone -> phone <> "" ->
  b_otp (body req) = Some code -> code <> "" ->
  Mongo.findOne (byPhone phone) (users s) = Some u ->
  JWT_SECRET (processEnv e) = Some secret -> secret <> "" ->
  (isOTPValid u code (now e) = true -> status (fst (verifyOTP e req s)) = 200)
  /\ (status (fst (verifyOTP e req s)) = 200 ->
      isOTPValid u code (now e) = true \/ otpExpires u = Some (now e)).
Proof.
  intros Hp Hpne Hc Hcne Hfind Hsec Hsne.
  unfold isOTPValid.
  destruct (Js.strictNeq (otp u) code) eqn:Eneq.
  - rewrite (verifyOTP_mismatch e req s phone code u) by assumption.
    cbn [fst status failure negb andb]. split; discriminate.
  - assert (Hotp : otp u = Some code).
    { unfold Js.strictNeq in Eneq. destruct (otp u) as [stored |]; [ | discriminate].
      apply negb_false_iff, String.eqb_eq in Eneq. congruence. }
    cbn [negb andb].
    destruct (otpExpires u) as [t |] eqn:Hexp.
    + destruct (Z.le_gt_cases (now e) t) as [Hle | Hgt].
      * rewrite (verifyOTP_success e req s phone code secret u t) by assumption.
        cbn [fst status reply]. split; [reflexivity | ].
        intros _. destruct (Z.eq_dec t (now e)) as [-> | Hneq]; [now right | left].
        apply Z.ltb_lt. lia.
      * assert (Hx : match otpExpires u with
                     | None => True
                     | Some expiry => expiry < now e
                     end) by (rewrite Hexp; lia).
        unfold verifyOTP. rewrite Hp, Hc. simpl.
        apply String.eqb_neq in Hpne, Hcne. rewrite Hpne, Hcne. simpl.
        rewrite Hfind, Eneq, Hexp.
        assert (Et : (t <? now e) = true) by (apply Z.ltb_lt; lia).
        rewrite Et. cbn [fst status failure].
        split; [ | discriminate].
        intros Hlt. apply Z.ltb_lt in Hlt. lia.
    + unfold verifyOTP. rewrite Hp, Hc. simpl.
      apply String.eqb_neq in Hpne, Hcne. rewrite Hpne, Hcne. simpl.
      rewrite Hfind, Eneq, Hexp. cbn [fst status failure].
      split; discriminate.
Qed.

End VerifyingCodes.

(** ** The middlewares *)

Section Gate.
Context `{Platform}.

(** X9. [authenticate] lets a request through only as a verified user of
    the store: either it answers by itself, with a 401 or a 500 and the store
    untouched, or it hands the request to the rest of the chain with
    [req.user] set to the id and phone number of a stored user whose
    verified flag is true. *)
Theorem authenticate_passes_verified_users_only
  (next : Handler) (e : Env) (req : Request) (s : Store) :
  (exists r, authenticate next e req s = (r, s)
             /\ success r = false /\ (status r = 401 \/ status r = 500))
  \/ (exists u, In u (users s) /\ isVerified u = true
                /\ authenticate next e req s
                   = next e (with_user req {| ru_userId := user_id u;
                                              ru_phoneNumber := phoneNumber u |})
                          s).
Proof.
  unfold authenticate.
  destruct (authorization req) as [authHeader |];
    [ | left; eexists; repeat split; now left].
  destruct (negb (String.prefix "Bearer " authHeader));
    [left; eexists; repeat split; now left | ].
  destruct (JWT_SECRET (processEnv e)) as [secret |];
    [ | left; eexists; repeat split; now right].
  destruct (String.eqb secret ""); [left; eexists; repeat split; now right | ].
  destruct (jwt_verify _ secret (now e)) as [userId | error].
  - destruct (negb (ObjectId_isValid userId));
      [left; eexists; repeat split; now right | ].
    destruct (Mongo.findOne (byId (ObjectId_cast userId)) (users s)) as [u |] eqn:Hfind;
      [ | left; eexists; repeat split; now left].
    destruct (isVerified u) eqn:Hv; cbn [negb];
      [ | left; eexists; repeat split; now left].
    right. exists u. apply find_some in Hfind. tauto.
  - destruct error; cbn [instanceof_JsonWebTokenError];
      left; eexists; repeat split; now left.
Qed.

(** X10. [optionalAuth] never answers by itself: the request always
    reaches the rest of the chain, either as it came or with [req.user] set
    to the id and phone number of a stored user whose verified flag is
    true. *)
Theorem optionalAuth_never_rejects
  (next : Handler) (e : Env) (req : Request) (s : Store) :
  optionalAuth next e req s = next e req s
  \/ (exists u, In u (users s) /\ isVerified u = true
                /\ optionalAuth next e req s
                   = next e (with_user req {| ru_userId := user_id u;
                                              ru_phoneNumber := phoneNumber u |})
                          s).
Proof.
  unfold optionalAuth.
  destruct (authorization req) as [authHeader |]; [ | now left].
  destruct (negb (String.prefix "Bearer " authHeader)); [now left | ].
  destruct (JWT_SECRET (processEnv e)) as [secret |]; [ | now left].
  destruct (String.eqb secret ""); [now left | ].
  destruct (jwt_verify _ secret (now e)) as [userId | error]; [ | now left].
  destruct (negb (ObjectId_isValid userId)); [now left | ].
  destruct (Mongo.findOne (byId (ObjectId_cast userId)) (users s)) as [u |] eqn:Hfind;
    [ | now left].
  destruct (isVerified u) eqn:Hv; [ | now left].
  right. exists u. apply find_some in Hfind. tauto.
Qed.

Lemma authenticate_decoded (next : Handler) (e : Env) (req : Request) (s : Store)
  (token secret userId : string) :
  authorization req = Some ("Bearer " ++ token) ->
  JWT_SECRET (processEnv e) = Some secret -> secret <> "" ->
  jwt_verify token secret (now e) = Decoded userId ->
  ObjectId_isValid userId = true ->
  authenticate next e req s
  = match Mongo.findOne (byId (ObjectId_cast userId)) (users s) with
    | None => (failure 401 "User no longer exists.", s)
    | Some user =>
        if isVerified user then
          next e (with_user req {| ru_userId := user_id user;
                                   ru_phoneNumber := phoneNumber user |}) s
        else
          (failure 401 "Account not verified. Please verify your phone number.",
           s)
    end.
Proof.
  intros Hauth Hsec Hsne Hjwt Hvalid.
  destruct (bearer_token token) as [Hpre Hsub].
  unfold authenticate.
  rewrite Hauth, Hpre, Hsub, Hsec. cbn [negb].
  apply String.eqb_neq in Hsne. rewrite Hsne, Hjwt, Hvalid. cbn [negb].
  destruct (Mongo.findOne (byId (ObjectId_cast userId)) (users s)) as [user |];
    [ | reflexivity].
  now destruct (isVerified user).
Qed.

Variable others : Endpoint -> Handler.

(** X11. The token that a successful [verifyOTP] returns opens every
    guarded endpoint to its user: on the store that [verifyOTP] leaves, a
    request bearing the token is handed to the endpoint's handler with
    [req.user] set to that user. This holds for a server with the same
    secret, as long as [jwt.verify] accepts the token it signed and the
    user's id is a well-formed ObjectId that casts to itself. *)
Theorem minted_token_authenticates
  (ep : Endpoint) (e e' : Env) (req req' : Request) (s : Store)
  (phone code secret : string) (u : User) (t : Z) :
  guarded ep = true ->
  b_phoneNumber (body req) = Some phone -> phone <> "" ->
  b_otp (body req) = Some code -> code <> "" ->
  Mongo.findOne (byPhone phone) (users s) = Some u ->
  otp u = Some code -> otpExpires u = Some t -> now e <= t ->
  JWT_SECRET (processEnv e) = Some secret -> secret <> "" ->
  JWT_SECRET (processEnv e') = Some secret ->
  jwt_verify (jwt_sign secret (user_id u) (now e)) secret (now e')
  = Decoded (user_id u) ->
  ObjectId_isValid (user_id u) = true ->
  ObjectId_cast (user_id u) = user_id u ->
  forall token view,
    data (fst (verifyOTP e req s)) = Session token view ->
    authorization req' = Some ("Bearer " ++ token) ->
    route others ep e' req' (snd (verifyOTP e req s))
    = controllerOf others ep e'
        (with_user req' {| ru_userId := user_id u;
                           ru_phoneNumber := phoneNumber u |})
        (snd (verifyOTP e req s)).
Proof.
  intros Hg Hp Hpne Hc Hcne Hfind Hotp Hexp Ht Hsec Hsne Hsec' Hjwt Hvalid Hcast
         token view.
  rewrite (verifyOTP_success e req s phone code secret u t) by assumption.
  cbn [fst snd data reply]. intros [= <- _] Hauth.
  unfold route. rewrite Hg.
  rewrite (authenticate_decoded _ e' req' _ _ secret (user_id u)
             Hauth Hsec' Hsne Hjwt Hvalid).
  rewrite Hcast.
  assert (Hin : In u (users s)) by (apply find_some in Hfind; tauto).
  destruct (findOne_member (byId (user_id u)) (users s) u Hin) as [d Hd].
  { unfold byId. apply String.eqb_refl. }
  assert (Hid : user_id d = user_id u).
  { apply find_some in Hd. destruct Hd as [_ Hd]. now apply String.eqb_eq in Hd. }
  assert (E : Mongo.findOne (byId (user_id u))
                (users (afterVerification e u s)) = Some (verified e u)).
  { assert (E0 : Mongo.findOne (byId (user_id u))
                   (Mongo.save user_id (verified e u) (users s))
                 = Some (verified e u)).
    { apply (findOne_save user_id _ _ d); [exact Hd | now rewrite Hid | ].
      unfold byId. apply String.eqb_refl. }
    unfold afterVerification. destruct (isVerified u); [exact E0 | ].
    now rewrite createDefaultCategories_users. }
  now rewrite E.
Qed.

End Gate.

(** ** Categories *)

Lemma newestCategoryFirst_total (a b : Category) :
  newestCategoryFirst a b = true \/ newestCategoryFirst b a = true.
Proof. unfold newestCategoryFirst. rewrite !Z.leb_le. lia. Qed.

Lemma newestCategoryFirst_trans (a b c : Category) :
  newestCategoryFirst a b = true -> newestCategoryFirst b c = true ->
  newestCategoryFirst a c = true.
Proof. unfold newestCategoryFirst. rewrite !Z.leb_le. lia. Qed.

Section DeleteFacts.
Context {A : Type} (idOf : A -> ObjectId).

Lemma findByIdAndDelete_others (id : ObjectId) (l : list A) (d : A) :
  In d l -> idOf d <> id -> In d (Mongo.findByIdAndDelete idOf id l).
Proof.
  induction l as [| x l IH]; simpl; [tauto | ].
  intros [-> | Hin] Hid.
  - apply String.eqb_neq in Hid. rewrite Hid. now left.
  - destruct (String.eqb (idOf x) id); [exact Hin | right; now apply IH].
Qed.

Lemma findByIdAndDelete_keys {K : Type} (key : A -> K) (id : ObjectId) (l : list A) :
  NoDup (map key l) -> NoDup (map key (Mongo.findByIdAndDelete idOf id l)).
Proof.
  induction l as [| x l IH]; simpl; intros Hnd; [constructor | ].
  inversion Hnd as [| ? ? Hnotin Hnd']; subst.
  destruct (String.eqb (idOf x) id); [exact Hnd' | ].
  simpl. constructor; [ | now apply IH].
  intros Hin. apply Hnotin. apply in_map_iff in Hin.
  destruct Hin as (y & Hy & Hin). apply in_map_iff. exists y.
  split; [exact Hy | now apply (findByIdAndDelete_subset idOf id l)].
Qed.

Lemma save_absent (d : A) (l : list A) :
  (forall y, In y l -> idOf y <> idOf d) -> Mongo.save idOf d l = l.
Proof.
  unfold Mongo.save. induction l as [| x l IH]; simpl; intros Hall; [reflexivity | ].
  assert (E : String.eqb (idOf x) (idOf d) = false)
    by (apply String.eqb_neq, Hall; now left).
  rewrite E, IH; [reflexivity | ]. intros y Hy. apply Hall. now right.
Qed.

Lemma save_unique_keys {K : Type} (key : A -> K) (d : A) (l : list A) :
  NoDup (map idOf l) -> NoDup (map key l) ->
  (forall x, In x l -> idOf x <> idOf d -> key x <> key d) ->
  NoDup (map key (Mongo.save idOf d l)).
Proof.
  induction l as [| x l IH]; intros Hids Hkeys Hfree; [constructor | ].
  inversion Hids as [| ? ? Hidx Hids']; subst.
  inversion Hkeys as [| ? ? Hkeyx Hkeys']; subst.
  destruct (String.eqb (idOf x) (idOf d)) eqn:E.
  - apply String.eqb_eq in E.
    assert (Hl : forall y, In y l -> idOf y <> idOf d).
    { intros y Hy Hyd. apply Hidx. rewrite E, <- Hyd. now apply in_map. }
    change (Mongo.save idOf d (x :: l))
      with ((if String.eqb (idOf x) (idOf d) then d else x) :: Mongo.save idOf d l).
    apply String.eqb_eq in E. rewrite E, (save_absent d l Hl). simpl.
    constructor; [ | exact Hkeys'].
    intros Hin. apply in_map_iff in Hin. destruct Hin as (y & Hy & Hin).
    apply (Hfree y); [now right | now apply Hl | exact Hy].
  - change (Mongo.save idOf d (x :: l))
      with ((if String.eqb (idOf x) (idOf d) then d else x) :: Mongo.save idOf d l).
    rewrite E. simpl. constructor.
    + intros Hin. apply in_map_iff in Hin. destruct Hin as (y & Hy & Hin).
      apply save_member in Hin. destruct Hin as [-> | Hin].
      * apply String.eqb_neq in E. apply (Hfree x); [now left | exact E | ].
        now symmetry.
      * apply Hkeyx. rewrite <- Hy. now apply in_map.
    + apply IH; [exact Hids' | exact Hkeys' | ].
      intros y Hy. apply Hfree. now right.
Qed.

End DeleteFacts.

Section Categories.
Context `{Platform}.

(** X12. [getCategories] answers an authenticated request with the views of
    the requester's categories, all of them and no other, the most recently
    created first, and leaves the store as it is. *)
Theorem getCategories_lists_own_newest_first
  (e : Env) (req : Request) (s : Store) (A : string) :
  userIdOf req = Some A -> A <> "" ->
  exists l,
    getCategories e req s = (inr (map transformCategory l), s)
    /\ Permutation (filter (fun c => String.eqb (cat_userId c) A) (categories s)) l
    /\ StronglySorted (fun a b => cat_createdAt b <= cat_createdAt a) l.
Proof.
  intros Hu HA.
  exists (Aggregate.sortBy newestCategoryFirst
            (filter (fun c => String.eqb (cat_userId c) A) (categories s))).
  split; [ | split].
  - unfold getCategories. rewrite Hu. apply String.eqb_neq in HA. now rewrite HA.
  - apply sortBy_perm.
  - assert (Hs := sortBy_sorted newestCategoryFirst newestCategoryFirst_total
                    newestCategoryFirst_trans
                    (filter (fun c => String.eqb (cat_userId c) A) (categories s))).
    induction Hs as [| x l Hs IH Hall]; constructor; [exact IH | ].
    rewrite Forall_forall in *. intros y Hy.
    specialize (Hall y Hy). unfold newestCategoryFirst in Hall.
    now apply Z.leb_le.
Qed.

(** X13. [createCategory] refuses a name that the requester already uses,
    white space around the submitted name aside: the answer is the 400 of
    the duplicate check and the store is unchanged. *)
Theorem createCategory_refuses_taken_name
  (e : Env) (req : Request) (s : Store) (A name color : string) (c : Category) :
  userIdOf req = Some A -> A <> "" ->
  b_name (body req) = Some name -> name <> "" ->
  b_color (body req) = Some color -> color <> "" ->
  In c (categories s) -> cat_userId c = A -> cat_name c = Js.trim name ->
  createCategory e req s
  = (failure 400 "Category with this name already exists", s).
Proof.
  intros Hu HA Hn Hnne Hc Hcne Hin Hown Hname.
  unfold createCategory. rewrite Hu, Hn, Hc.
  apply String.eqb_neq in HA, Hnne, Hcne. rewrite HA. simpl Js.falsy.
  rewrite Hnne, Hcne. cbn [orb].
  assert (Hf : catByNameAndOwner (Js.trim name) A c = true).
  { unfold catByNameAndOwner. rewrite Hown, Hname, !String.eqb_refl.
    reflexivity. }
  destruct (findOne_member (catByNameAndOwner (Js.trim name) A) (categories s)
              c Hin Hf) as [d Hd].
  now rewrite Hd.
Qed.

(** X14. Category names are per user: when the requester has no category
    named as submitted or as trimmed, and the trimmed name (1 to 50
    characters) and the colour (a hex colour) are valid, [createCategory]
    answers 201 and appends one category, owned by the requester, with the
    trimmed name, whatever categories other users have. *)
Theorem createCategory_names_are_per_user
  (e : Env) (req : Request) (s : Store) (A name color : string) :
  userIdOf req = Some A -> A <> "" ->
  b_name (body req) = Some name -> b_color (body req) = Some color ->
  Js.trim name <> "" -> (String.length (Js.trim name) <= 50)%nat ->
  colorRegex_test color = true ->
  (forall c, In c (categories s) -> cat_userId c = A ->
             cat_name c <> name /\ cat_name c <> Js.trim name) ->
  exists c',
    createCategory e req s
    = (reply 201 (Some "Category created successfully")
         (CategoryData (transformCategory c')),
       with_created (with_categories s (categories s ++ [c'])%list)
                    (S (created s)))
    /\ cat_userId c' = A /\ cat_name c' = Js.trim name /\ cat_color c' = color.
Proof.
  intros Hu HA Hn Hc Htrim Hlen Hcolor Hfree.
  assert (Hnne : String.eqb name "" = false).
  { apply String.eqb_neq. intros ->. now apply Htrim. }
  assert (Hcne : String.eqb color "" = false).
  { apply String.eqb_neq. intros ->. discriminate. }
  exists {| cat_id := ObjectId_fresh (created s);
            cat_name := Js.trim name; cat_color := color;
            cat_icon := option_map Js.trim (b_icon (body req));
            cat_userId := A; cat_createdAt := now e; cat_updatedAt := now e |}.
  split; [ | repeat split].
  unfold createCategory. rewrite Hu, Hn, Hc.
  apply String.eqb_neq in HA. rewrite HA. simpl Js.falsy.
  rewrite Hnne, Hcne. cbn [orb].
  rewrite (findOne_none (catByNameAndOwner (Js.trim name) A) (categories s)).
  2:{ intros d Hd. unfold catByNameAndOwner.
      destruct (String.eqb (cat_name d) (Js.trim name)) eqn:E1; [ | reflexivity].
      destruct (String.eqb (cat_userId d) A) eqn:E2; [ | reflexivity].
      apply String.eqb_eq in E1, E2. destruct (Hfree d Hd E2). contradiction. }
  assert (Hvalid : validCategory
                     {| cat_id := ObjectId_fresh (created s);
                        cat_name := Js.trim name; cat_color := color;
                        cat_icon := option_map Js.trim (b_icon (body req));
                        cat_userId := A; cat_createdAt := now e;
                        cat_updatedAt := now e |} = true).
  { unfold validCategory. cbn [cat_name cat_color].
    apply String.eqb_neq in Htrim. apply Nat.leb_le in Hlen.
    now rewrite Htrim, Hlen, Hcolor. }
  assert (Hnone : forall (extra : Category -> bool),
             existsb (fun c => String.eqb (cat_userId c) A
                               && String.eqb (cat_name c) (Js.trim name)
                               && extra c)%bool (categories s) = false).
  { intros extra. apply not_true_is_false. intros Hex.
    apply existsb_exists in Hex. destruct Hex as (d & Hd & Hm).
    apply andb_true_iff in Hm. destruct Hm as [Hm _].
    apply andb_true_iff in Hm. destruct Hm as [E2 E1].
    apply String.eqb_eq in E1, E2. destruct (Hfree d Hd E2). contradiction. }
  rewrite Hvalid. unfold nameTakenByAnother, violatesUniqueIndex.
  cbn [cat_userId cat_name cat_id negb orb].
  rewrite (Hnone (fun c => negb (String.eqb (cat_id c) (ObjectId_fresh (created s))))).
  assert (Hidx : existsb (fun c => String.eqb (cat_userId c) A
                                   && String.eqb (cat_name c) (Js.trim name))%bool
                         (categories s) = false).
  { apply not_true_is_false. intros Hex.
    apply existsb_exists in Hex. destruct Hex as (d & Hd & Hm).
    apply andb_true_iff in Hm. destruct Hm as [E2 E1].
    apply String.eqb_eq in E1, E2. destruct (Hfree d Hd E2). contradiction. }
  rewrite Hidx. reflexivity.
Qed.

End Categories.

Section CategoryInvariants.
Context `{Platform}.

Lemma updateCategory_outcome (e : Env) (req : Request) (s : Store) :
  (exists code msg, updateCategory e req s = (failure code msg, s) /\ code <> 200)
  \/ exists A name color category,
       userIdOf req = Some A
       /\ b_name (body req) = Some name /\ b_color (body req) = Some color
       /\ Mongo.findOne (catByIdAndOwner (params_id req) A) (categories s)
          = Some category
       /\ Mongo.findOne (catNameTaken (Js.trim name) A (params_id req))
            (categories s) = None
       /\ let category' :=
            {| cat_id := cat_id category; cat_name := Js.trim name;
               cat_color := color;
               cat_icon := match b_icon (body req) with
                           | Some icon => Some (Js.trim icon)
                           | None => cat_icon category
                           end;
               cat_userId := cat_userId category;
               cat_createdAt := cat_createdAt category;
               cat_updatedAt := now e |} in
          updateCategory e req s
          = (reply 200 (Some "Category updated successfully")
               (CategoryData (transformCategory category')),
             with_categories s (Mongo.save cat_id category' (categories s))).
Proof.
  assert (Hfail : forall code msg, code <> 200 ->
            (exists code' msg', (failure code msg, s) = (failure code' msg', s)
                                /\ code' <> 200)).
  { intros code msg Hcode. now exists code, msg. }
  unfold updateCategory.
  destruct (userIdOf req) as [A |]; [ | left; now apply Hfail].
  destruct (String.eqb A ""); [left; now apply Hfail | ].
  destruct (negb (ObjectId_isValid (params_id req))); [left; now apply Hfail | ].
  destruct (Js.falsy (b_name (body req)) || Js.falsy (b_color (body req)))%bool;
    [left; now apply Hfail | ].
  destruct (b_name (body req)) as [name |], (b_color (body req)) as [color |];
    try (left; now apply Hfail).
  destruct (Mongo.findOne (catByIdAndOwner (params_id req) A) (categories s))
    as [category |] eqn:Hfind; [ | left; now apply Hfail].
  destruct (Mongo.findOne (catNameTaken (Js.trim name) A (params_id req))
              (categories s)) as [other |] eqn:Htaken; [left; now apply Hfail | ].
  match goal with |- context [negb (validCategory ?c)] =>
    destruct (negb (validCategory c)) end; [left; now apply Hfail | ].
  right. exists A, name, color, category.
  split; [reflexivity | ]. split; [reflexivity | ]. split; [reflexivity | ].
  split; [exact Hfind | ]. split; [exact Htaken | ]. reflexivity.
Qed.

Lemma found_category (id A : string) (l : list Category) (c : Category) :
  Mongo.findOne (catByIdAndOwner id A) l = Some c ->
  In c l /\ cat_id c = ObjectId_cast id /\ cat_userId c = A.
Proof.
  intros Hf. apply find_some in Hf. destruct Hf as [Hin Hf].
  unfold catByIdAndOwner in Hf. apply andb_true_iff in Hf. destruct Hf as [E1 E2].
  apply String.eqb_eq in E1, E2. auto.
Qed.

(** X15. No user ever gets two categories of the same name: on a store
    whose category ids are distinct and where the pairs of owner and name
    are distinct, they are still distinct after [updateCategory], after
    [createCategory] and after [deleteCategory], whatever the request and
    the answer. *)
Theorem category_names_stay_unique_per_user
  (e : Env) (req : Request) (s : Store) :
  NoDup (map cat_id (categories s)) ->
  NoDup (map (fun c => (cat_userId c, cat_name c)) (categories s)) ->
  NoDup (map (fun c => (cat_userId c, cat_name c))
             (categories (snd (updateCategory e req s))))
  /\ NoDup (map (fun c => (cat_userId c, cat_name c))
                (categories (snd (createCategory e req s))))
  /\ NoDup (map (fun c => (cat_userId c, cat_name c))
                (categories (snd (deleteCategory e req s)))).
Proof.
  intros Hids Hkeys. split; [ | split].
  - destruct (updateCategory_outcome e req s)
      as [(code & msg & -> & _)
         | (A & name & color & category & Hu & Hn & Hc & Hfind & Hfree & E)];
      [exact Hkeys | ].
    cbv zeta in E. rewrite E. cbn [snd categories with_categories].
    destruct (found_category _ _ _ _ Hfind) as (Hin & Hid & Hown).
    apply save_unique_keys; [exact Hids | exact Hkeys | ].
    cbn [cat_id cat_userId cat_name]. intros x Hx Hidx [= Hox Hnx].
    assert (Hno := find_none _ _ Hfree x Hx). unfold catNameTaken in Hno.
    rewrite Hox, Hown, Hnx, !String.eqb_refl in Hno. cbn [andb] in Hno.
    apply negb_false_iff, String.eqb_eq in Hno. congruence.
  - unfold createCategory.
    destruct (userIdOf req) as [A |]; [ | exact Hkeys].
    destruct (String.eqb A ""); [exact Hkeys | ].
    destruct (Js.falsy (b_name (body req)) || Js.falsy (b_color (body req)))%bool;
      [exact Hkeys | ].
    destruct (b_name (body req)) as [name |], (b_color (body req)) as [color |];
      try exact Hkeys.
    destruct (Mongo.findOne (catByNameAndOwner (Js.trim name) A) (categories s));
      [exact Hkeys | ].
    match goal with |- context [nameTakenByAnother ?c ?l] =>
      destruct (negb (validCategory c)); [exact Hkeys | ];
      destruct (nameTakenByAnother c l) eqn:Etaken; [exact Hkeys | ]
    end.
    cbn [orb snd categories with_categories with_created].
    unfold Mongo.insert. rewrite map_app. apply NoDup_snoc; [exact Hkeys | ].
    cbn [cat_userId cat_name]. intros Hin. apply in_map_iff in Hin.
    destruct Hin as (d & [= Hod Hnd] & Hd).
    unfold nameTakenByAnother in Etaken. apply orb_false_iff in Etaken.
    destruct Etaken as [_ Eidx]. unfold violatesUniqueIndex in Eidx.
    assert (Hex : existsb (fun c => String.eqb (cat_userId c) A
                                    && String.eqb (cat_name c) (Js.trim name))%bool
                          (categories s) = true).
    { apply existsb_exists. exists d. split; [exact Hd | ].
      now rewrite Hod, Hnd, !String.eqb_refl. }
    cbn [cat_userId cat_name] in Eidx. congruence.
  - unfold deleteCategory.
    destruct (userIdOf req) as [A |]; [ | exact Hkeys].
    destruct (String.eqb A ""); [exact Hkeys | ].
    destruct (negb (ObjectId_isValid (params_id req))); [exact Hkeys | ].
    destruct (Mongo.findOne (catByIdAndOwner (params_id req) A) (categories s));
      [ | exact Hkeys].
    cbn [snd categories with_categories]. now apply findByIdAndDelete_keys.
Qed.

(** X16. What [updateCategory] answers with a 200 is what [getCategoryById]
    then reads back for the same id and user: the view carries the trimmed
    name and the colour of the request. *)
Theorem updated_category_is_read_back (e e' : Env) (req : Request) (s : Store) :
  status (fst (updateCategory e req s)) = 200 ->
  fst (getCategoryById e' req (snd (updateCategory e req s)))
  = reply 200 None (data (fst (updateCategory e req s)))
  /\ exists name color view,
       b_name (body req) = Some name /\ b_color (body req) = Some color
       /\ data (fst (updateCategory e req s)) = CategoryData view
       /\ cv_name view = Js.trim name /\ cv_color view = color.
Proof.
  intros Hok.
  destruct (updateCategory_outcome e req s)
    as [(code & msg & E & Hcode)
       | (A & name & color & category & Hu & Hn & Hc & Hfind & Hfree & E)].
  - rewrite E in Hok. cbn [fst status failure] in Hok. contradiction.
  - cbv zeta in E. rewrite E. cbn [fst snd data reply].
    destruct (found_category _ _ _ _ Hfind) as (Hin & Hid & Hown).
    split.
    + revert Hok. rewrite E. intros _.
      assert (Hgate : userIdOf req = Some A
                      /\ String.eqb A "" = false
                      /\ ObjectId_isValid (params_id req) = true).
      { revert E. unfold updateCategory. rewrite Hu.
        destruct (String.eqb A ""); [discriminate | ].
        destruct (ObjectId_isValid (params_id req)); [auto | discriminate]. }
      destruct Hgate as (_ & HA & Hvalid).
      unfold getCategoryById. rewrite Hu, HA, Hvalid. cbn [negb categories with_categories].
      match goal with |- context [Mongo.save cat_id ?c' _] =>
        rewrite (findOne_save cat_id (catByIdAndOwner (params_id req) A)
                   (categories s) category c' Hfind eq_refl)
      end; [reflexivity | ].
      unfold catByIdAndOwner. cbn [cat_id cat_userId].
      now rewrite Hid, Hown, !String.eqb_refl.
    + exists name, color. eexists. repeat split; assumption.
Qed.

End CategoryInvariants.

Section Deletions.
Context `{Platform}.

Lemma deleteCategory_done (e : Env) (req : Request) (s : Store) :
  status (fst (deleteCategory e req s)) = 200 ->
  exists A,
    userIdOf req = Some A /\ String.eqb A "" = false
    /\ ObjectId_isValid (params_id req) = true
    /\ snd (deleteCategory e req s)
       = with_categories s
           (Mongo.findByIdAndDelete cat_id (ObjectId_cast (params_id req))
              (categories s)).
Proof.
  unfold deleteCategory.
  destruct (userIdOf req) as [A |]; [ | discriminate].
  destruct (String.eqb A "") eqn:HA; [discriminate | ].
  destruct (ObjectId_isValid (params_id req)) eqn:Hvalid; [ | discriminate].
  cbn [negb].
  destruct (Mongo.findOne (catByIdAndOwner (params_id req) A) (categories s));
    [ | discriminate].
  intros _. exists A. auto.
Qed.

(** X17. After a [deleteCategory] answered 200, on a store whose category
    ids are distinct, [getCategoryById] for the same id and user answers 404;
    every category with another id is still there, and the users, the
    expenses and the uploads are untouched. *)
Theorem deleted_category_is_gone (e e' : Env) (req : Request) (s : Store) :
  NoDup (map cat_id (categories s)) ->
  status (fst (deleteCategory e req s)) = 200 ->
  let s' := snd (deleteCategory e req s) in
  fst (getCategoryById e' req s') = failure 404 "Category not found"
  /\ (forall c, In c (categories s) ->
                cat_id c <> ObjectId_cast (params_id req) ->
                In c (categories s'))
  /\ users s' = users s /\ expenses s' = expenses s /\ uploads s' = uploads s.
Proof.
  intros Hnd Hok s'.
  destruct (deleteCategory_done e req s Hok) as (A & Hu & HA & Hvalid & E).
  subst s'. rewrite E. cbn [categories users expenses uploads with_categories].
  split; [ | split; [ | repeat split]].
  - unfold getCategoryById. rewrite Hu, HA, Hvalid. cbn [negb categories with_categories].
    now rewrite deleted_category_not_found.
  - intros c Hc Hid. now apply findByIdAndDelete_others.
Qed.

(** X18. Deleting a category leaves the expenses that refer to it in the
    store, and they can no longer be read one by one: after a
    [deleteCategory] answered 200, on a store whose category ids are
    distinct, [getExpenseById] for an expense of that category answers the
    500 of a category that cannot be populated. *)
Theorem expense_of_deleted_category_cannot_be_read
  (e e' : Env) (req reqX : Request) (s : Store) (A : string) (x : Expense) :
  NoDup (map cat_id (categories s)) ->
  status (fst (deleteCategory e req s)) = 200 ->
  userIdOf reqX = Some A -> A <> "" ->
  ObjectId_isValid (params_id reqX) = true ->
  Mongo.findOne (expByIdAndOwner (params_id reqX) A) (expenses s) = Some x ->
  categoryId x = ObjectId_cast (params_id req) ->
  let s' := snd (deleteCategory e req s) in
  In x (expenses s')
  /\ getExpenseById e' reqX s'
     = (failure 500 "Failed to populate category information", s').
Proof.
  intros Hnd Hok Hu HA Hvalid Hfind Hcat s'.
  destruct (deleteCategory_done e req s Hok) as (B & _ & _ & _ & E).
  subst s'. rewrite E. split.
  - cbn [expenses with_categories]. apply find_some in Hfind. tauto.
  - unfold getExpenseById. rewrite Hu, Hvalid.
    apply String.eqb_neq in HA. rewrite HA. cbn [negb expenses with_categories].
    rewrite Hfind. unfold populate. cbn [categories with_categories].
    rewrite findOne_none; [reflexivity | ].
    intros d Hd. apply (findByIdAndDelete_gone cat_id) in Hd; [ | exact Hnd].
    apply String.eqb_neq. now rewrite Hcat.
Qed.

Lemma basename_of_upload (f : string) :
  afterLastSlash f = None -> basename ("/uploads/" ++ f) = f.
Proof. intros Hf. unfold basename. simpl. now rewrite Hf. Qed.

Lemma unlinkIfExists_gone (name : string) (files : list string) :
  ~ In name (unlinkIfExists name files).
Proof.
  unfold unlinkIfExists. intros Hin. apply filter_In in Hin.
  destruct Hin as [_ Hin]. now rewrite String.eqb_refl in Hin.
Qed.

Lemma unlinkIfExists_others (name g : string) (files : list string) :
  In g files -> g <> name -> In g (unlinkIfExists name files).
Proof.
  intros Hin Hneq. unfold unlinkIfExists. apply filter_In.
  split; [exact Hin | ]. apply negb_true_iff. now apply String.eqb_neq.
Qed.

(** X19. After a [deleteExpense] answered 200, on a store whose expense ids
    are distinct, [getExpenseById] for the same id and user answers 404 and
    the expenses with another id are still there. When the deleted expense
    had the receipt [/uploads/f], the file [f] is no longer in the uploads
    directory, and the other files still are. *)
Theorem deleted_expense_and_receipt_are_gone
  (e e' : Env) (req : Request) (s : Store) (A : string) (x : Expense) :
  NoDup (map exp_id (expenses s)) ->
  userIdOf req = Some A ->
  Mongo.findOne (expByIdAndOwner (params_id req) A) (expenses s) = Some x ->
  status (fst (deleteExpense e req s)) = 200 ->
  let s' := snd (deleteExpense e req s) in
  fst (getExpenseById e' req s') = failure 404 "Expense not found"
  /\ (forall y, In y (expenses s) ->
                exp_id y <> ObjectId_cast (params_id req) -> In y (expenses s'))
  /\ categories s' = categories s
  /\ (forall f, receiptUrl x = Some ("/uploads/" ++ f) ->
                afterLastSlash f = None ->
                ~ In f (uploads s')
                /\ forall g, In g (uploads s) -> g <> f -> In g (uploads s')).
Proof.
  intros Hnd Hu Hfind Hok s'.
  assert (E : String.eqb A "" = false
              /\ ObjectId_isValid (params_id req) = true
              /\ s' = with_expenses
                        (with_uploads s (removeReceipt x (uploads s)))
                        (Mongo.findByIdAndDelete exp_id
                           (ObjectId_cast (params_id req)) (expenses s))).
  { subst s'. revert Hok. unfold deleteExpense. rewrite Hu.
    destruct (String.eqb A "") eqn:HA; [discriminate | ].
    destruct (ObjectId_isValid (params_id req)) eqn:Hvalid; [ | discriminate].
    cbn [negb]. rewrite Hfind. auto. }
  destruct E as (HA & Hvalid & ->).
  cbn [expenses categories uploads with_expenses with_uploads].
  split; [ | split; [ | split; [reflexivity | ]]].
  - unfold getExpenseById. rewrite Hu, HA, Hvalid.
    cbn [negb expenses with_expenses].
    now rewrite deleted_expense_not_found.
  - intros y Hy Hid. now apply findByIdAndDelete_others.
  - intros f Hurl Hf. unfold removeReceipt. rewrite Hurl.
    assert (Hne : String.eqb ("/uploads/" ++ f) "" = false) by reflexivity.
    rewrite Hne, (basename_of_upload f Hf).
    split; [apply unlinkIfExists_gone | ].
    intros g Hg Hneq. now apply unlinkIfExists_others.
Qed.

End Deletions.

(** ** Expenses *)

Section ExpenseUpdates.
Context `{Platform}.

Lemma found_expense (id A : string) (l : list Expense) (x : Expense) :
  Mongo.findOne (expByIdAndOwner id A) l = Some x ->
  In x l /\ exp_id x = ObjectId_cast id /\ exp_userId x = A.
Proof.
  intros Hf. apply find_some in Hf. destruct Hf as [Hin Hf].
  unfold expByIdAndOwner in Hf. apply andb_true_iff in Hf. destruct Hf as [E1 E2].
  apply String.eqb_eq in E1, E2. auto.
Qed.

Lemma updateAmount_continue (req : Request) (x x1 : Expense) :
  updateAmount req x = Continue x1 ->
  x1 = set_amount x (amount x1)
  /\ (b_amount (body req) = None -> x1 = x)
  /\ (0 < amount x1 \/ b_amount (body req) = None)%Q.
Proof.
  unfold updateAmount. destruct (b_amount (body req)) as [a |].
  - destruct (parseFloat a) as [v |]; [ | discriminate].
    destruct (Qle_bool v 0) eqn:E; [discriminate | ].
    intros [= <-]. split; [reflexivity | ]. split; [discriminate | ].
    left. cbn [amount set_amount]. apply Qnot_le_lt. intros Hle.
    apply Qle_bool_iff in Hle. congruence.
  - intros [= <-]. split; [now destruct x | ]. split; [reflexivity | now right].
Qed.

Lemma updateCategoryRef_continue (req : Request) (A : string) (s : Store)
  (x1 x2 : Expense) :
  updateCategoryRef req A s x1 = Continue x2 ->
  x2 = set_categoryId x1 (categoryId x2)
  /\ match b_categoryId (body req) with
     | None => x2 = x1
     | Some cid =>
         categoryId x2 = ObjectId_cast cid
         /\ exists c, Mongo.findOne (catByIdAndOwner cid A) (categories s) = Some c
     end.
Proof.
  unfold updateCategoryRef. destruct (b_categoryId (body req)) as [cid |].
  - destruct (negb (ObjectId_isValid cid)); [discriminate | ].
    destruct (Mongo.findOne (catByIdAndOwner cid A) (categories s)) as [c |] eqn:Hf;
      [ | discriminate].
    intros [= <-]. split; [reflexivity | ]. split; [reflexivity | now exists c].
  - intros [= <-]. split; [now destruct x1 | reflexivity].
Qed.

Lemma updateOtherFields_some (req : Request) (x2 x3 : Expense) :
  updateOtherFields req x2 = Some x3 ->
  x3 = set_date (set_description x2 (description x3)) (date x3)
  /\ (b_description (body req) = None -> description x3 = description x2)
  /\ (b_date (body req) = None -> date x3 = date x2).
Proof.
  unfold updateOtherFields.
  destruct (b_description (body req)) as [d |], (b_date (body req)) as [dt |];
    try (destruct (Date_parse dt) as [t |]; [ | discriminate]);
    intros [= <-]; (split; [now destruct x2 | split; intros; congruence || reflexivity]).
Qed.

Lemma step_fields (req : Request) (A : string) (s : Store) (x x1 x2 x3 : Expense) :
  updateAmount req x = Continue x1 ->
  updateCategoryRef req A s x1 = Continue x2 ->
  updateOtherFields req x2 = Some x3 ->
  exp_id x3 = exp_id x /\ exp_userId x3 = exp_userId x
  /\ exp_createdAt x3 = exp_createdAt x /\ receiptUrl x3 = receiptUrl x
  /\ categoryId x3 = categoryId x2 /\ amount x3 = amount x1
  /\ (b_categoryId (body req) = None -> categoryId x3 = categoryId x)
  /\ (b_amount (body req) = None -> amount x3 = amount x)
  /\ (b_description (body req) = None -> description x3 = description x)
  /\ (b_date (body req) = None -> date x3 = date x).
Proof.
  intros H1 H2 H3.
  destruct (updateAmount_continue _ _ _ H1) as (E1 & N1 & _).
  destruct (updateCategoryRef_continue _ _ _ _ _ H2) as (E2 & N2).
  destruct (updateOtherFields_some _ _ _ H3) as (E3 & N3d & N3t).
  assert (F3 : exp_id x3 = exp_id x2 /\ exp_userId x3 = exp_userId x2
               /\ exp_createdAt x3 = exp_createdAt x2
               /\ receiptUrl x3 = receiptUrl x2 /\ categoryId x3 = categoryId x2
               /\ amount x3 = amount x2)
    by (rewrite E3; repeat split).
  assert (F2 : exp_id x2 = exp_id x1 /\ exp_userId x2 = exp_userId x1
               /\ exp_createdAt x2 = exp_createdAt x1
               /\ receiptUrl x2 = receiptUrl x1 /\ amount x2 = amount x1
               /\ description x2 = description x1 /\ date x2 = date x1)
    by (rewrite E2; repeat split).
  assert (F1 : exp_id x1 = exp_id x /\ exp_userId x1 = exp_userId x
               /\ exp_createdAt x1 = exp_createdAt x
               /\ receiptUrl x1 = receiptUrl x /\ categoryId x1 = categoryId x
               /\ description x1 = description x /\ date x1 = date x)
    by (rewrite E1; repeat split).
  destruct F3 as (A3 & B3 & C3 & D3 & G3 & K3).
  destruct F2 as (A2 & B2 & C2 & D2 & K2 & L2 & M2).
  destruct F1 as (A1 & B1 & C1 & D1 & G1 & L1 & M1).
  repeat split; try congruence.
  - intros Hn. rewrite Hn in N2. subst x2. congruence.
  - intros Hn. rewrite (N1 Hn) in *. congruence.
  - intros Hn. rewrite (N3d Hn). congruence.
  - intros Hn. rewrite (N3t Hn). congruence.
Qed.

End ExpenseUpdates.

Section ExpenseInvariants.
Context `{Platform}.

Lemma links_after_save (s s' : Store) (x x' : Expense) :
  linkedToOwnCategories s ->
  categories s' = categories s ->
  expenses s' = Mongo.save exp_id x' (expenses s) ->
  (forall c, In c (categories s) -> cat_id c = categoryId x' ->
             cat_userId c = exp_userId x') ->
  linkedToOwnCategories s'.
Proof.
  intros Hinv Hc He Hx' y c Hy Hcin Hid.
  rewrite Hc in Hcin. rewrite He in Hy. apply save_member in Hy.
  destruct Hy as [-> | Hy]; [now apply Hx' | now apply (Hinv y c)].
Qed.

Lemma links_same (s s' : Store) :
  linkedToOwnCategories s ->
  categories s' = categories s -> expenses s' = expenses s ->
  linkedToOwnCategories s'.
Proof.
  intros Hinv Hc He y c Hy Hcin Hid. rewrite Hc in Hcin. rewrite He in Hy.
  now apply (Hinv y c).
Qed.

Lemma own_category_only (s : Store) (cid A : string) (c0 c : Category) :
  NoDup (map cat_id (categories s)) ->
  Mongo.findOne (catByIdAndOwner cid A) (categories s) = Some c0 ->
  In c (categories s) -> cat_id c = ObjectId_cast cid -> cat_userId c = A.
Proof.
  intros Hnd Hf Hin Hid.
  destruct (found_category _ _ _ _ Hf) as (Hin0 & Hid0 & Hown0).
  assert (c = c0) by (apply (unique_id cat_id (categories s)); congruence).
  now subst c.
Qed.

(** X20. An expense is only ever linked to a category of its own user: on
    a store whose category ids are distinct and where every expense whose
    category exists refers to a category of the expense's owner, this still
    holds after [createExpense], [updateExpense], [updateCategory] and
    [deleteCategory], whatever the request and the answer. *)
Theorem expenses_stay_linked_to_own_categories
  (e : Env) (req : Request) (s : Store) :
  NoDup (map cat_id (categories s)) ->
  linkedToOwnCategories s ->
  linkedToOwnCategories (snd (createExpense e req s))
  /\ linkedToOwnCategories (snd (updateExpense e req s))
  /\ linkedToOwnCategories (snd (updateCategory e req s))
  /\ linkedToOwnCategories (snd (deleteCategory e req s)).
Proof.
  intros Hnd Hinv. split; [ | split; [ | split]].
  - unfold createExpense.
    destruct (userIdOf req) as [A |]; [ | exact Hinv].
    destruct (String.eqb A ""); [exact Hinv | ].
    destruct (Js.falsy (b_amount (body req)) || Js.falsy (b_description (body req))
              || Js.falsy (b_categoryId (body req)))%bool; [exact Hinv | ].
    destruct (b_amount (body req)) as [a |], (b_description (body req)) as [d |],
             (b_categoryId (body req)) as [cid |]; try exact Hinv.
    destruct (parseFloat a) as [v |]; [ | exact Hinv].
    destruct (Qle_bool v 0); [exact Hinv | ].
    destruct (negb (ObjectId_isValid cid)); [exact Hinv | ].
    destruct (Mongo.findOne (catByIdAndOwner cid A) (categories s)) as [c0 |] eqn:Hf;
      [ | exact Hinv].
    match goal with |- context [match ?d with Some _ => _ | None => (failure 500 _, s) end] =>
      destruct d as [day |]; [ | exact Hinv] end.
    cbv zeta.
    match goal with |- context [negb (validExpense ?x)] =>
      destruct (negb (validExpense x)); [exact Hinv | ];
      assert (Hnew : linkedToOwnCategories
                       (with_created (with_expenses s (Mongo.insert x (expenses s)))
                                     (S (created s))))
    end.
    { intros y c Hy Hc Hid. cbn [expenses categories with_created with_expenses] in Hy, Hc.
      unfold Mongo.insert in Hy. apply in_app_or in Hy.
      destruct Hy as [Hy | [<- | []]]; [now apply (Hinv y c) | ].
      cbn [exp_userId categoryId] in *.
      now apply (own_category_only s cid A c0 c). }
    match goal with |- context [populate ?x ?s1] => destruct (populate x s1) end;
      exact Hnew.
  - unfold updateExpense.
    destruct (userIdOf req) as [A |]; [ | exact Hinv].
    destruct (String.eqb A ""); [exact Hinv | ].
    destruct (negb (ObjectId_isValid (params_id req))); [exact Hinv | ].
    destruct (Mongo.findOne (expByIdAndOwner (params_id req) A) (expenses s))
      as [x |] eqn:Hfind; [ | exact Hinv].
    destruct (updateAmount req x) as [r1 | x1] eqn:H1; [exact Hinv | ].
    destruct (updateCategoryRef req A s x1) as [r2 | x2] eqn:H2; [exact Hinv | ].
    cbv zeta.
    destruct (updateOtherFields req x2) as [x3 |] eqn:H3.
    2:{ cbn [snd]. destruct (file req); [ | exact Hinv].
        now apply (links_same s). }
    destruct (found_expense _ _ _ _ Hfind) as (Hin & Hid & Hown).
    destruct (step_fields req A s x x1 x2 x3 H1 H2 H3)
      as (F1 & F2 & _ & _ & F5 & _ & F7 & _).
    match goal with |- context [negb (validExpense ?x')] =>
      destruct (negb (validExpense x'));
      [cbn [snd]; destruct (file req); [now apply (links_same s) | exact Hinv] | ];
      assert (Hsaved : forall s1, categories s1 = categories s ->
                         expenses s1 = expenses s ->
                         linkedToOwnCategories
                           (with_expenses s1 (Mongo.save exp_id x' (expenses s1))))
    end.
    { intros s1 Hc1 He1.
      eapply (links_after_save s _ x); [exact Hinv | exact Hc1 | | ].
      - cbn [expenses with_expenses]. now rewrite He1.
      - intros c Hc Hcid.
        assert (Hcat : cat_id c = categoryId x2).
        { rewrite Hcid. destruct (file req); cbn; congruence. }
        assert (Hu' : forall z, exp_userId z = exp_userId x3 -> exp_userId z = A)
          by (intros z Hz; congruence).
        assert (Hgoal : cat_userId c = A).
        { destruct (updateCategoryRef_continue _ _ _ _ _ H2) as (_ & N2).
          destruct (b_categoryId (body req)) as [cid |] eqn:Hcid'.
          - destruct N2 as (Ecat & c0 & Hf0).
            apply (own_category_only s cid A c0 c); congruence.
          - rewrite <- Hown. apply (Hinv x c Hin Hc).
            rewrite Hcat, <- F5. now apply F7. }
        rewrite Hgoal. symmetry. apply Hu'. destruct (file req); reflexivity. }
    match goal with |- context [populate ?x' ?s2] => destruct (populate x' s2) end;
      cbn [snd]; destruct (file req); apply Hsaved; reflexivity.
  - destruct (updateCategory_outcome e req s)
      as [(code & msg & -> & _)
         | (A & name & color & category & Hu & Hn & Hc & Hfind & Hfree & E)];
      [exact Hinv | ].
    cbv zeta in E. rewrite E. cbn [snd].
    destruct (found_category _ _ _ _ Hfind) as (Hin & Hid & Hown).
    intros y c Hy Hcin Hcid. cbn [expenses categories with_categories] in Hy, Hcin.
    apply save_member in Hcin. destruct Hcin as [-> | Hcin].
    + cbn [cat_id cat_userId] in *. now apply (Hinv y category).
    + now apply (Hinv y c).
  - unfold deleteCategory.
    destruct (userIdOf req) as [A |]; [ | exact Hinv].
    destruct (String.eqb A ""); [exact Hinv | ].
    destruct (negb (ObjectId_isValid (params_id req))); [exact Hinv | ].
    destruct (Mongo.findOne (catByIdAndOwner (params_id req) A) (categories s))
      as [found |]; [ | exact Hinv].
    intros y c Hy Hcin Hcid. cbn [snd expenses categories with_categories] in Hy, Hcin.
    apply findByIdAndDelete_subset in Hcin. now apply (Hinv y c).
Qed.

End ExpenseInvariants.

Section ExpenseWrites.
Context `{Platform}.


(** X22. [createExpense] stores all or nothing: answered 201, it has
    appended exactly one expense, owned by the requester, of an amount of at
    least 0.01, with a non-empty description of at most 200 characters, in a
    category that the requester owns; answered otherwise, it has left the
    store as it was. *)
Theorem createExpense_stores_all_or_nothing
  (e : Env) (req : Request) (s : Store) :
  let s' := snd (createExpense e req s) in
  (status (fst (createExpense e req s)) = 201 ->
   exists A x c,
     userIdOf req = Some A
     /\ s' = with_created (with_expenses s (expenses s ++ [x])%list)
                          (S (created s))
     /\ exp_userId x = A /\ (1 # 100 <= amount x)%Q
     /\ description x <> "" /\ (String.length (description x) <= 200)%nat
     /\ In c (categories s) /\ cat_id c = categoryId x /\ cat_userId c = A)
  /\ (status (fst (createExpense e req s)) <> 201 -> s' = s).
Proof.
  intros s'. subst s'. unfold createExpense.
  destruct (userIdOf req) as [A |]; [ | split; [discriminate | reflexivity]].
  destruct (String.eqb A ""); [split; [discriminate | reflexivity] | ].
  destruct (Js.falsy (b_amount (body req)) || Js.falsy (b_description (body req))
            || Js.falsy (b_categoryId (body req)))%bool;
    [split; [discriminate | reflexivity] | ].
  destruct (b_amount (body req)) as [a |], (b_description (body req)) as [d |],
           (b_categoryId (body req)) as [cid |];
    try (split; [discriminate | reflexivity]).
  destruct (parseFloat a) as [v |]; [ | split; [discriminate | reflexivity]].
  destruct (Qle_bool v 0); [split; [discriminate | reflexivity] | ].
  destruct (negb (ObjectId_isValid cid)); [split; [discriminate | reflexivity] | ].
  destruct (Mongo.findOne (catByIdAndOwner cid A) (categories s)) as [c0 |] eqn:Hf;
    [ | split; [discriminate | reflexivity]].
  destruct (found_category _ _ _ _ Hf) as (Hin0 & Hid0 & Hown0).
  match goal with |- context [match ?dd with Some _ => _ | None => (failure 500 _, s) end] =>
    destruct dd as [day |]; [ | split; [discriminate | reflexivity]] end.
  cbv zeta.
  match goal with |- context [negb (validExpense ?x)] =>
    destruct (validExpense x) eqn:Hvalid; cbn [negb];
    [ | split; [discriminate | reflexivity]];
    set (made := x) in *
  end.
  assert (Hpop : forall s1, categories s1 = categories s ->
                   exists c, populate made s1 = Some c).
  { intros s1 Hc1. unfold populate. rewrite Hc1.
    apply (findOne_member _ (categories s) c0 Hin0).
    unfold made. cbn [categoryId]. rewrite Hid0. apply String.eqb_refl. }
  match goal with |- context [populate made ?s1] =>
    destruct (Hpop s1 eq_refl) as [c Hc]; rewrite Hc end.
  cbn [fst snd status reply]. split; [ | intros Hno; now contradiction Hno].
  intros _. exists A, made, c0.
  unfold validExpense in Hvalid.
  apply andb_true_iff in Hvalid. destruct Hvalid as [Hvalid Hlen].
  apply andb_true_iff in Hvalid. destruct Hvalid as [Hamount Hdesc].
  apply Qle_bool_iff in Hamount. apply negb_true_iff, String.eqb_neq in Hdesc.
  apply Nat.leb_le in Hlen.
  repeat split; try assumption.
Qed.

(** X23. [updateExpense] removes the old receipt before it saves: when a
    request brings a new file and a date that does not parse (and neither
    amount nor category), for an expense of the requester whose receipt is
    [/uploads/f], the answer is a 500, the expenses are as they were (the
    expense still names [/uploads/f]), and the file [f] is gone from the
    uploads directory. *)
Theorem updateExpense_failed_save_still_removes_receipt
  (e : Env) (req : Request) (s : Store) (A f filename d : string) (x : Expense) :
  userIdOf req = Some A -> A <> "" ->
  ObjectId_isValid (params_id req) = true ->
  Mongo.findOne (expByIdAndOwner (params_id req) A) (expenses s) = Some x ->
  receiptUrl x = Some ("/uploads/" ++ f) -> afterLastSlash f = None ->
  file req = Some filename ->
  b_amount (body req) = None -> b_categoryId (body req) = None ->
  b_date (body req) = Some d -> Date_parse d = None ->
  fst (updateExpense e req s) = failure 500 "Internal server error"
  /\ expenses (snd (updateExpense e req s)) = expenses s
  /\ ~ In f (uploads (snd (updateExpense e req s))).
Proof.
  intros Hu HA Hvalid Hfind Hurl Hf Hfile Ha Hc Hd Hparse.
  unfold updateExpense. rewrite Hu, Hvalid.
  apply String.eqb_neq in HA. rewrite HA. cbn [negb]. rewrite Hfind.
  unfold updateAmount, updateCategoryRef, updateOtherFields.
  rewrite Ha, Hc, Hd, Hparse, Hfile. cbn [fst snd expenses uploads with_uploads].
  split; [reflexivity | ]. split; [reflexivity | ].
  unfold removeReceipt. rewrite Hurl.
  assert (Hne : String.eqb ("/uploads/" ++ f) "" = false) by reflexivity.
  rewrite Hne, (basename_of_upload f Hf). apply unlinkIfExists_gone.
Qed.

(** X24. [getExpenseStats] reports nothing: for every authenticated user
    whose id is a well-formed ObjectId, every period and every store, the
    answer is a 200 with total amount 0, total count 0, average per day 0
    and empty per-category and per-day lists. *)
Theorem getExpenseStats_reports_nothing
  (e : Env) (req : Request) (s : Store) (A : string) :
  userIdOf req = Some A -> A <> "" -> ObjectId_isValid A = true ->
  exists st,
    getExpenseStats e req s = (reply 200 None (StatsData st), s)
    /\ totalAmount st = 0%Q /\ totalCount st = 0
    /\ (averagePerDay st == 0)%Q
    /\ expensesByCategory st = [] /\ dailyExpenses st = [].
Proof.
  intros Hu HA Hvalid.
  exists (periodStats e A (match query_period req with Some p => p | None => "month" end) s).
  split.
  - unfold getExpenseStats. rewrite Hu, Hvalid.
    apply String.eqb_neq in HA. now rewrite HA.
  - destruct (periodStats_matches_nothing e A
                (match query_period req with Some p => p | None => "month" end) s)
      as (Ht & Hc & Hcat & Hday).
    repeat split; try assumption.
    unfold periodStats. cbn [averagePerDay]. rewrite matchUserId_objectId.
    cbn [filter Aggregate.groupAll firstTotal].
    destruct (0 <? _); reflexivity.
Qed.

End ExpenseWrites.
(* ================================================================== *)
(** ** The client's helpers against the server's rules *)

Section ClientAndServer.

(** X25. Every mobile number the login form lets through is sent in a form
    the server accepts: a string matching [/^[6-9]\d{9}$/], prefixed with
    [+91] as the form does, matches the server's [/^\+[1-9]\d{1,14}$/]. *)
Theorem login_phone_passes_server_check (mobile : string) :
  Client.mobileRegex_test mobile = true ->
  phoneRegex_test (Client.submittedPhone mobile) = true.
Proof.
  unfold Client.mobileRegex_test, Client.submittedPhone.
  destruct mobile as [| c rest]; [discriminate | ].
  intros Hm.
  apply Bool.andb_true_iff in Hm as [Hm Hlen].
  apply Bool.andb_true_iff in Hm as [Hm Hrest].
  apply Bool.andb_true_iff in Hm as [Hlo Hhi].
  apply Nat.eqb_eq in Hlen.
  apply Nat.leb_le in Hlo. apply Nat.leb_le in Hhi.
  cbn [append phoneRegex_test Js.allDigits String.length].
  rewrite Hrest, Hlen.
  assert (Hc : Js.isDigit c = true).
  { unfold Js.isDigit. cbv zeta.
    apply Bool.andb_true_iff. split; apply Nat.leb_le; lia. }
  rewrite Hc. reflexivity.
Qed.

(** X26. The client's [isValidOTP] (four digits) rejects every code the
    server's [generateOTP] produces (six digits). *)
Theorem isValidOTP_rejects_server_codes (random : Q) :
  (0 <= random)%Q -> (random < 1)%Q ->
  Client.isValidOTP (generateOTP random) = false.
Proof.
  intros H0 H1. unfold Client.isValidOTP.
  destruct (generateOTP_shape_any random H0 H1)
    as [(c5 & c4 & c3 & c2 & c1 & c0 & Hcode & _) | Hcode];
    rewrite Hcode; cbn [String.length Nat.eqb]; apply Bool.andb_false_r.
Qed.

Lemma colors_pass_colorRegex (c : string) :
  In c Client.colors -> colorRegex_test c = true.
Proof.
  unfold Client.colors. cbn [In].
  intros [<- | [<- | [<- | [<- | [<- | [<- | [<- | [<- | []]]]]]]]];
    reflexivity.
Qed.

(** X27. [getRandomColor] never yields [undefined]: for every value of
    [Math.random()], in [0, 1), it returns one of the eight listed colours,
    and that colour passes the [color] validator of the category schema. *)
Theorem getRandomColor_is_a_valid_colour (random : Q) :
  (0 <= random)%Q -> (random < 1)%Q ->
  exists c,
    Client.getRandomColor random = Some c
    /\ In c Client.colors /\ colorRegex_test c = true.
Proof.
  intros H0 H1.
  unfold Client.getRandomColor, Client.index, Js.Math_floor.
  change (inject_Z (Z.of_nat (List.length Client.colors))) with (8 # 1)%Q.
  set (i := Qfloor (random * (8 # 1))).
  assert (Hlo : 0 <= i).
  { change 0 with (Qfloor 0). apply Qfloor_resp_le.
    apply Qmult_le_0_compat; [exact H0 | discriminate]. }
  assert (Hhi : i < 8).
  { rewrite Zlt_Qlt. apply Qle_lt_trans with (random * (8 # 1))%Q;
      [apply Qfloor_le | ].
    change (inject_Z 8) with (1 * (8 # 1))%Q.
    apply Qmult_lt_compat_r; [reflexivity | exact H1]. }
  destruct (i <? 0) eqn:Hneg; [apply Z.ltb_lt in Hneg; lia | ].
  assert (Hi : (Z.to_nat i < 8)%nat) by lia.
  destruct (nth_error Client.colors (Z.to_nat i)) as [c |] eqn:Hnth.
  - exists c. split; [reflexivity | ].
    pose proof (nth_error_In _ _ Hnth) as Hin.
    split; [exact Hin | now apply colors_pass_colorRegex].
  - apply nth_error_None in Hnth. cbn [Client.colors List.length] in Hnth. lia.
Qed.

(** X28. [calculatePercentage] of a part of a positive total lies between
    0 and 100. *)
Theorem calculatePercentage_within_0_100 (value total : Q) :
  (0 <= value)%Q -> (value <= total)%Q -> (0 < total)%Q ->
  0 <= Client.calculatePercentage value total <= 100.
Proof.
  intros H0 Hle Hpos.
  unfold Client.calculatePercentage, Js.Math_round.
  destruct (Qeq_bool total 0) eqn:Hz.
  - apply Qeq_bool_iff in Hz. rewrite Hz in Hpos.
    now apply Qlt_irrefl in Hpos.
  - destruct (percent_rounding value total H0 Hle Hpos) as [[Hb0 Hb1] _].
    split.
    + apply Z.le_trans with (Qfloor (0 + (1 # 2))); [discriminate | ].
      apply Qfloor_resp_le. now apply Qplus_le_l.
    + apply Z.le_trans with (Qfloor (100 + (1 # 2))); [ | discriminate].
      apply Qfloor_resp_le. now apply Qplus_le_l.
Qed.

(** X29. Every file type the client's [isValidImageFile] accepts passes the
    server's upload [fileFilter]. *)
Theorem client_image_types_pass_fileFilter (type : string) :
  Client.isValidImageFile type = true -> fileFilter type = true.
Proof.
  unfold Client.isValidImageFile. intros H.
  apply existsb_exists in H as (t & Hin & Heq).
  apply String.eqb_eq in Heq. subst t.
  cbn [In] in Hin.
  destruct Hin as [<- | [<- | [<- | [<- | [<- | []]]]]]; reflexivity.
Qed.

Lemma digitsOnly_allDigits (s : string) :
  Js.allDigits (Client.digitsOnly s) = true.
Proof.
  induction s as [| c s IH]; cbn [Client.digitsOnly]; [reflexivity | ].
  destruct (Js.isDigit c) eqn:Hc; [ | exact IH].
  cbn [Js.allDigits]. now rewrite Hc, IH.
Qed.

(** X30. [formatPhoneNumber] keeps the digits of its argument and formatting
    twice is formatting once. *)
Theorem formatPhoneNumber_keeps_digits_and_is_idempotent (phone : string) :
  Client.digitsOnly (Client.formatPhoneNumber phone) = Client.digitsOnly phone
  /\ Client.formatPhoneNumber (Client.formatPhoneNumber phone)
     = Client.formatPhoneNumber phone.
Proof.
  assert (Hdigits :
    Client.digitsOnly (Client.formatPhoneNumber phone) = Client.digitsOnly phone).
  { unfold Client.formatPhoneNumber. cbv zeta.
    pose proof (digitsOnly_allDigits phone) as Hall.
    destruct (Nat.eqb (String.length (Client.digitsOnly phone)) 10) eqn:Hlen;
      [ | reflexivity].
    apply Nat.eqb_eq in Hlen.
    destruct (Client.digitsOnly phone)
      as [| c1 [| c2 [| c3 [| c4 [| c5 [| c6 [| c7 [| c8 [| c9 [| c10 [| c11 r]]]]]]]]]]];
      try discriminate Hlen.
    cbn [Js.allDigits] in Hall.
    repeat match type of Hall with
           | (_ && _)%bool = true =>
               let Hd := fresh "Hd" in
               apply Bool.andb_true_iff in Hall as [Hd Hall]
           end.
    cbn [String.substring append Client.digitsOnly].
    repeat match goal with
           | Hd : Js.isDigit ?c = true |- context [Js.isDigit ?c] => rewrite Hd
           end.
    reflexivity. }
  split; [exact Hdigits | ].
  unfold Client.formatPhoneNumber at 1. cbv zeta. rewrite Hdigits.
  unfold Client.formatPhoneNumber. cbv zeta.
  destruct (Nat.eqb (String.length (Client.digitsOnly phone)) 10);
    reflexivity.
Qed.

End ClientAndServer.

(* ================================================================== *)
(** * Runs on the reference platform *)

Import Reference Sample.

(** C9 at [Math.random() = 3/8], which gives the code 437500. *)
Lemma generateOTP_six_digits_first_nonzero_witness :
  (Binary64.round (3 # 8) == 3 # 8)%Q
  /\ generateOTP (3 # 8) = "437500"
  /\ String.length (generateOTP (3 # 8)) = 6%nat
  /\ Js.allDigits (generateOTP (3 # 8)) = true
  /\ String.get 0 (generateOTP (3 # 8)) <> Some "0"%char
  /\ 100000 <= otpNumber (3 # 8) <= 999999.
Proof.
  assert (Hr : (Binary64.round (3 # 8) == 3 # 8)%Q) by reflexivity.
  assert (H0 : (0 <= 3 # 8)%Q) by discriminate.
  assert (H1 : (3 # 8 < 1)%Q) by reflexivity.
  split; [exact Hr | ]. split; [reflexivity | ].
  destruct (generateOTP_six_digits_first_nonzero (3 # 8) H0 H1 Hr)
    as (Hlen & Hdigits & Hfirst & Hrange & _).
  split; [exact Hlen | ]. split; [exact Hdigits | ].
  split; [exact Hfirst | exact Hrange].
Defined.

(** C1 for Alice reading Bob's category and updating Bob's expense. *)
Lemma foreign_record_is_hidden_witness :
  (userIdOf (requestOf alice (cat_id bobsCategory) emptyBody) = Some alice
   /\ In bobsCategory (categories bobsStore)
   /\ cat_userId bobsCategory <> alice
   /\ getCategoryById (envAt 5000 0)
        (requestOf alice (cat_id bobsCategory) emptyBody) bobsStore
      = (failure 404 "Category not found", bobsStore))
  /\ (In bobsExpense (expenses bobsStore)
      /\ exp_userId bobsExpense <> alice
      /\ updateExpense (envAt 5000 0)
           (requestOf alice (exp_id bobsExpense) emptyBody) bobsStore
         = (failure 404 "Expense not found", bobsStore)).
Proof.
  assert (HndC : NoDup (map cat_id (categories bobsStore)))
    by (constructor; [simpl; tauto | constructor]).
  assert (HndE : NoDup (map exp_id (expenses bobsStore)))
    by (constructor; [simpl; tauto | constructor]).
  assert (HA : alice <> "") by discriminate.
  split.
  - destruct (@foreign_record_is_hidden platform (envAt 5000 0)
                (requestOf alice (cat_id bobsCategory) emptyBody)
                bobsStore alice eq_refl HA eq_refl HndC HndE) as [HC _].
    assert (Hin : In bobsCategory (categories bobsStore)) by (simpl; tauto).
    assert (Hown : cat_userId bobsCategory <> alice) by discriminate.
    split; [reflexivity | ]. split; [exact Hin | ]. split; [exact Hown | ].
    exact (proj1 (HC bobsCategory Hin eq_refl Hown)).
  - destruct (@foreign_record_is_hidden platform (envAt 5000 0)
                (requestOf alice (exp_id bobsExpense) emptyBody)
                bobsStore alice eq_refl HA eq_refl HndC HndE) as [_ HE].
    assert (Hin : In bobsExpense (expenses bobsStore)) by (simpl; tauto).
    assert (Hown : exp_userId bobsExpense <> alice) by discriminate.
    split; [exact Hin | ]. split; [exact Hown | ].
    exact (proj1 (proj2 (proj2 (HE bobsExpense Hin eq_refl Hown)))).
Defined.

(** C1, the claim as stated fails: user A updates a category of user B
    without a [name]; the answer is the 400 of the field check (InvalidInput),
    not NotFound. *)
Lemma foreign_update_without_name_is_invalid_input :
  In bobsCategory (categories bobsStore)
  /\ cat_userId bobsCategory <> alice
  /\ userIdOf (requestOf alice (cat_id bobsCategory) iconOnly) = Some alice
  /\ updateCategory (envAt 5000 0)
       (requestOf alice (cat_id bobsCategory) iconOnly) bobsStore
     = (failure 400 "Name and color are required", bobsStore)
  /\ classify (fst (updateCategory (envAt 5000 0)
                      (requestOf alice (cat_id bobsCategory) iconOnly) bobsStore))
     <> Some NotFound.
Proof.
  split; [simpl; tauto | ].
  split; [discriminate | ].
  split; [reflexivity | ].
  split; [reflexivity | discriminate].
Qed.

(** C10 for Bob sending the icon alone for his own category. *)
Lemma updateCategory_requires_name_and_color_witness :
  userIdOf (requestOf bob (cat_id bobsCategory) iconOnly) = Some bob
  /\ b_name (body (requestOf bob (cat_id bobsCategory) iconOnly)) = None
  /\ updateCategory (envAt 5000 0)
       (requestOf bob (cat_id bobsCategory) iconOnly) bobsStore
     = (failure 400 "Name and color are required", bobsStore).
Proof.
  split; [reflexivity | ]. split; [reflexivity | ].
  assert (HB : bob <> "") by discriminate.
  exact (proj1 (@updateCategory_requires_name_and_color platform (envAt 5000 0)
                  (requestOf bob (cat_id bobsCategory) iconOnly) bobsStore bob
                  eq_refl HB (or_introl eq_refl))).
Defined.

(** C2 for the right code one millisecond after the expiry. *)
Lemma expired_code_is_refused_witness :
  Mongo.findOne (byPhone phone) (users issuedStore) = Some issuedUser
  /\ issuedAt + 600000 < now (envAt (issuedAt + 600001) 0)
  /\ verifyOTP (envAt (issuedAt + 600001) 0) (otpRequest phone (Some "482913"))
       issuedStore
     = (failure 400 "OTP has expired. Please request a new one.", issuedStore).
Proof.
  split; [reflexivity | ]. split; [reflexivity | ].
  assert (Hp : phone <> "") by discriminate.
  assert (Hc : "482913" <> "") by discriminate.
  assert (Hlt : match otpExpires issuedUser with
                | None => True
                | Some expiry => expiry < now (envAt (issuedAt + 600001) 0)
                end) by reflexivity.
  exact (proj1 (@expired_code_is_refused platform
                  (envAt (issuedAt + 600001) 0)
                  (otpRequest phone (Some "482913")) issuedStore
                  phone "482913" issuedUser eq_refl Hp eq_refl Hc eq_refl Hlt)).
Defined.

(** C2, the claim as stated fails, twice. One minute after the code issued
    for [+15550001111] has expired, a wrong code is answered InvalidCode, not
    Expired; and at the expiry instant itself (issuance + 10 minutes) the
    right code is accepted. *)
Lemma expiry_not_checked_first_nor_at_the_instant :
  otp issuedUser = Some "482913"
  /\ otpExpires issuedUser = Some (now issueEnv + 10 * 60 * 1000)
  /\ Mongo.findOne (byPhone phone) (users issuedStore) = Some issuedUser
  /\ fst (verifyOTP (envAt (now issueEnv + 11 * 60 * 1000) 0)
             (otpRequest phone (Some "000000")) issuedStore)
     = failure 400 "Invalid OTP"
  /\ classify (fst (verifyOTP (envAt (now issueEnv + 11 * 60 * 1000) 0)
                       (otpRequest phone (Some "000000")) issuedStore))
     <> Some Expired
  /\ status (fst (verifyOTP (envAt (now issueEnv + 10 * 60 * 1000) 0)
                    (otpRequest phone (Some "482913")) issuedStore)) = 200
  /\ classify (fst (verifyOTP (envAt (now issueEnv + 10 * 60 * 1000) 0)
                       (otpRequest phone (Some "482913")) issuedStore))
     <> Some Expired.
Proof.
  split; [reflexivity | ]. split; [reflexivity | ]. split; [reflexivity | ].
  split; [reflexivity | ]. split; [vm_compute; discriminate | ].
  split; [reflexivity | vm_compute; discriminate].
Qed.

(** C5 for a code verified five minutes after it was issued and replayed
    just after. *)
Lemma issued_code_verifies_once_witness :
  phoneRegex_test phone = true
  /\ now (envAt (issuedAt + 300000) 0) <= now issueEnv + 10 * 60 * 1000
  /\ verifyOTP (envAt (issuedAt + 400000) 0)
       (otpRequest phone (Some (generateOTP (random issueEnv))))
       (snd (verifyOTP (envAt (issuedAt + 300000) 0)
               (otpRequest phone (Some (generateOTP (random issueEnv))))
               (snd (sendOTP issueEnv (otpRequest phone None) emptyStore))))
     = (failure 400 "Invalid OTP",
        snd (verifyOTP (envAt (issuedAt + 300000) 0)
               (otpRequest phone (Some (generateOTP (random issueEnv))))
               (snd (sendOTP issueEnv (otpRequest phone None) emptyStore)))).
Proof.
  split; [reflexivity | ]. split; [discriminate | ].
  assert (Hs : "s3cret" <> "") by discriminate.
  assert (Ht : now (envAt (issuedAt + 300000) 0) <= now issueEnv + 10 * 60 * 1000)
    by discriminate.
  exact (proj1 (proj2 (proj2
    (@issued_code_verifies_once platform issueEnv
       (envAt (issuedAt + 300000) 0) (envAt (issuedAt + 400000) 0)
       (otpRequest phone None)
       (otpRequest phone (Some (generateOTP (random issueEnv))))
       (otpRequest phone (Some (generateOTP (random issueEnv))))
       emptyStore phone "s3cret"
       eq_refl eq_refl eq_refl eq_refl eq_refl Ht eq_refl Hs)))).
Defined.

(** C8 for the first verification of [+15550001111]: six categories. *)
Lemma seeding_only_on_first_verification_witness :
  Mongo.findOne (byPhone phone) (users issuedStore) = Some issuedUser
  /\ isVerified issuedUser = false
  /\ now (envAt (issuedAt + 300000) 0) <= issuedAt + 600000
  /\ List.length
       (categories (snd (verifyOTP (envAt (issuedAt + 300000) 0)
                           (otpRequest phone (Some "482913")) issuedStore)))
     = 6%nat.
Proof.
  split; [reflexivity | ]. split; [reflexivity | ]. split; [discriminate | ].
  assert (Hp : phone <> "") by discriminate.
  assert (Hc : "482913" <> "") by discriminate.
  assert (Hs : "s3cret" <> "") by discriminate.
  assert (Ht : now (envAt (issuedAt + 300000) 0) <= issuedAt + 600000)
    by discriminate.
  assert (Hnone : forall c, In c (categories issuedStore) ->
                            cat_userId c <> user_id issuedUser)
    by (intros c []).
  rewrite (proj2 (proj2 (proj2
    (@seeding_only_on_first_verification platform
       (envAt (issuedAt + 300000) 0) (otpRequest phone (Some "482913"))
       issuedStore phone "482913" "s3cret" issuedUser (issuedAt + 600000)
       eq_refl Hp eq_refl Hc eq_refl eq_refl eq_refl Ht eq_refl Hs)))
    eq_refl eq_refl Hnone).
  reflexivity.
Defined.

(** C4 for a token of Carol presented to a store that holds no user. *)
Lemma authenticate_rechecks_user_witness :
  guarded ExpensesSummary = true
  /\ jwt_verify carolsToken "s3cret" (now (envAt (utc 2024 1 20) 0))
     = Decoded (user_id carol)
  /\ Mongo.findOne (byId (ObjectId_cast (user_id carol))) (users bobsStore) = None
  /\ route (fun _ => getCategoryById) ExpensesSummary
       (envAt (utc 2024 1 20) 0) carolsRequest bobsStore
     = (failure 401 "User no longer exists.", bobsStore).
Proof.
  split; [reflexivity | ]. split; [reflexivity | ]. split; [reflexivity | ].
  assert (Hs : "s3cret" <> "") by discriminate.
  exact (proj1 (@authenticate_rechecks_user platform (fun _ => getCategoryById)
                  ExpensesSummary (envAt (utc 2024 1 20) 0) carolsRequest
                  bobsStore carolsToken "s3cret" (user_id carol)
                  eq_refl eq_refl eq_refl Hs eq_refl eq_refl)).
Defined.

(** C7 for Bob's January ledger. *)
Lemma recent_transactions_newest_five_witness :
  userIdOf (requestOf bob "" emptyBody) = Some bob
  /\ getExpenseSummary (envAt (utc 2024 1 20) 0) (requestOf bob "" emptyBody)
       bobsJanuary
     = (reply 200 None
          (SummaryData (summarize (envAt (utc 2024 1 20) 0) bob bobsJanuary)),
        bobsJanuary).
Proof.
  split; [reflexivity | ].
  assert (Hb : bob <> "") by discriminate.
  exact (proj1 (@recent_transactions_newest_five platform
                  (envAt (utc 2024 1 20) 0) (requestOf bob "" emptyBody)
                  bobsJanuary bob eq_refl Hb)).
Defined.

(** Expenses dated Jan 1, Jan 3, Jan 2 come back as Jan 3, Jan 2, Jan 1; the
    one of Jan 4, whose category does not resolve, is left out. *)
Example recent_transactions_january :
  map ev_date
      (recentTransactions (summarize (envAt (utc 2024 1 20) 0) bob bobsJanuary))
  = [utc 2024 1 3; utc 2024 1 2; utc 2024 1 1].
Proof. reflexivity. Qed.

(** C3, evaluated on Bob's January ledger on the 20th, period [month]: his
    four expenses of the month, which sum to 100, are what the statistics
    should count; the handler answers a total amount of 0 and a total count
    of 0. *)
Theorem getExpenseStats_counts_nothing :
  Aggregate.count
    (filter (dateWithin (periodStart (envAt (utc 2024 1 20) 0) "month")
                        (now (envAt (utc 2024 1 20) 0)))
            (findByUser bob (expenses bobsJanuary))) = 4
  /\ (Aggregate.sumAmounts
        (filter (dateWithin (periodStart (envAt (utc 2024 1 20) 0) "month")
                            (now (envAt (utc 2024 1 20) 0)))
                (findByUser bob (expenses bobsJanuary))) == 100)%Q
  /\ exists st : Stats,
       getExpenseStats (envAt (utc 2024 1 20) 0) (statsRequest bob "month")
         bobsJanuary
       = (reply 200 None (StatsData st), bobsJanuary)
       /\ totalAmount st = 0%Q /\ totalCount st = 0.
Proof.
  split; [reflexivity | ]. split; [reflexivity | ].
  eexists. split; [reflexivity | ]. split; reflexivity.
Qed.


(** The window total of Bob's January is 100, of which 60 are in his one
    resolvable category; a user without expenses gets zeros and empty lists. *)
Example breakdown_january :
  map (fun item => (cr_name (bi_category item), bi_transactionCount item,
                    bi_percentage item))
      (categoryBreakdown (summarize (envAt (utc 2024 1 20) 0) bob bobsJanuary))
  = [("Food", 3, 60)].
Proof. reflexivity. Qed.

Example summary_without_expenses :
  summarize (envAt (utc 2024 1 20) 0) alice bobsJanuary
  = {| totalExpenses := 0; monthlyExpenses := 0; categoryBreakdown := [];
       recentTransactions := [] |}.
Proof. reflexivity. Qed.

(** With Carol in the store, the same request goes through to the handler,
    which sees her as [req.user]. *)
Example authenticated_request_proceeds :
  route (fun _ => getCategoryById) ExpensesSummary
    (envAt (utc 2024 1 20) 0) carolsRequest carolsStore
  = getExpenseSummary (envAt (utc 2024 1 20) 0)
      (with_user carolsRequest
         {| ru_userId := user_id carol; ru_phoneNumber := phoneNumber carol |})
      carolsStore.
Proof. reflexivity. Qed.

(* ================================================================== *)
(** * Further runs on the reference platform *)

Import Scenario.



(** X1 for [phone]: eight stars, then 1111. *)
Lemma maskPhone_shows_last_four_only_witness :
  phoneRegex_test phone = true
  /\ String.length (maskPhone phone) = String.length phone
  /\ String.get 7 (maskPhone phone) = Some "*"%char
  /\ String.get 8 (maskPhone phone) = String.get 8 phone.
Proof.
  split; [reflexivity | ].
  destruct (maskPhone_shows_last_four_only phone eq_refl) as (Hlen & Hstar & Hlast).
  split; [exact Hlen | ].
  split; [apply Hstar; vm_compute; lia | apply Hlast; vm_compute; lia].
Defined.

(** X2 for the first code issued to [phone] by a development server. *)
Lemma sendOTP_reveals_code_in_development_only_witness :
  data (fst (sendOTP issueEnv (otpRequest phone None) emptyStore))
  = OtpSent "********1111" (Some "482913")
  /\ NODE_ENV (processEnv issueEnv) = Some "development".
Proof.
  split; [reflexivity | ].
  assert (Hcode : Some "482913" <> None) by discriminate.
  exact (proj1 (proj2 (proj2
    (@sendOTP_reveals_code_in_development_only platform issueEnv
       (otpRequest phone None) emptyStore "********1111" (Some "482913")
       eq_refl) Hcode))).
Defined.

(** X3 for a server whose SMS provider rejects the message. *)
Lemma sendOTP_stores_code_when_delivery_fails_witness :
  phoneRegex_test phone = true
  /\ smsFails failingSmsEnv = true
  /\ fst (sendOTP failingSmsEnv (otpRequest phone None) emptyStore)
     = failure 500 "Failed to send OTP. Please check your phone number and try again."
  /\ exists u,
       Mongo.findOne (byPhone phone)
         (users (snd (sendOTP failingSmsEnv (otpRequest phone None) emptyStore)))
       = Some u
       /\ otp u = Some (generateOTP (random failingSmsEnv))
       /\ otpExpires u = Some (now failingSmsEnv + 10 * 60 * 1000).
Proof.
  split; [reflexivity | ]. split; [reflexivity | ].
  exact (@sendOTP_stores_code_when_delivery_fails platform failingSmsEnv
           (otpRequest phone None) emptyStore phone
           eq_refl eq_refl eq_refl eq_refl eq_refl).
Defined.

(** X4 for the code 482913 replaced one minute later by 437500. *)
Lemma reissued_code_replaces_previous_witness :
  generateOTP (random issueEnv) <> generateOTP (random reissueEnv)
  /\ verifyOTP (envAt (issuedAt + 120000) 0)
       (otpRequest phone (Some (generateOTP (random issueEnv))))
       (snd (sendOTP reissueEnv (otpRequest phone None)
               (snd (sendOTP issueEnv (otpRequest phone None) emptyStore))))
     = (failure 400 "Invalid OTP",
        snd (sendOTP reissueEnv (otpRequest phone None)
               (snd (sendOTP issueEnv (otpRequest phone None) emptyStore)))).
Proof.
  assert (Hne : generateOTP (random issueEnv) <> generateOTP (random reissueEnv))
    by (vm_compute; discriminate).
  split; [exact Hne | ].
  exact (proj2
    (@reissued_code_replaces_previous platform issueEnv reissueEnv
       (envAt (issuedAt + 120000) 0)
       (otpRequest phone None) (otpRequest phone None)
       (otpRequest phone (Some (generateOTP (random issueEnv))))
       emptyStore phone eq_refl eq_refl eq_refl eq_refl eq_refl Hne)).
Defined.

(** X5 for a first code issued to [phone] on a store that holds Carol. *)
Lemma sendOTP_touches_one_user_witness :
  phoneRegex_test phone = true
  /\ NoDup (map user_id (users carolsStore))
  /\ categories (snd (sendOTP issueEnv (otpRequest phone None) carolsStore))
     = categories carolsStore
  /\ In carol (users (snd (sendOTP issueEnv (otpRequest phone None) carolsStore))).
Proof.
  assert (Hnd : NoDup (map user_id (users carolsStore)))
    by (constructor; [simpl; tauto | constructor]).
  split; [reflexivity | ]. split; [exact Hnd | ].
  destruct (@sendOTP_touches_one_user platform issueEnv (otpRequest phone None)
              carolsStore phone eq_refl eq_refl Hnd)
    as (Hc & _ & _ & Hothers & _).
  split; [exact Hc | ].
  apply Hothers; [simpl; tauto | discriminate].
Defined.

(** X6 for a wrong code. *)
Lemma verifyOTP_refusal_changes_nothing_witness :
  status (fst (verifyOTP (envAt (issuedAt + 1000) 0)
                 (otpRequest phone (Some "000000")) issuedStore)) = 400
  /\ snd (verifyOTP (envAt (issuedAt + 1000) 0)
            (otpRequest phone (Some "000000")) issuedStore) = issuedStore.
Proof.
  split; [reflexivity | ].
  exact (@verifyOTP_refusal_changes_nothing platform (envAt (issuedAt + 1000) 0)
           (otpRequest phone (Some "000000")) issuedStore (or_introl eq_refl)).
Defined.

(** X7 for the right code presented to a server without a secret. *)
Lemma verifyOTP_without_secret_uses_up_the_code_witness :
  Mongo.findOne (byPhone phone) (users issuedStore) = Some issuedUser
  /\ Js.falsy (JWT_SECRET (processEnv noSecretEnv)) = true
  /\ fst (verifyOTP noSecretEnv (otpRequest phone (Some "482913")) issuedStore)
     = failure 500 "Internal server error"
  /\ exists u',
       Mongo.findOne (byPhone phone)
         (users (snd (verifyOTP noSecretEnv (otpRequest phone (Some "482913"))
                        issuedStore)))
       = Some u'
       /\ isVerified u' = true /\ otp u' = None /\ otpExpires u' = None.
Proof.
  split; [reflexivity | ]. split; [reflexivity | ].
  assert (Hp : phone <> "") by discriminate.
  assert (Hc : "482913" <> "") by discriminate.
  assert (Ht : now noSecretEnv <= issuedAt + 600000) by discriminate.
  exact (@verifyOTP_without_secret_uses_up_the_code platform noSecretEnv
           (otpRequest phone (Some "482913")) issuedStore phone "482913"
           issuedUser (issuedAt + 600000)
           eq_refl Hp eq_refl Hc eq_refl eq_refl eq_refl Ht eq_refl).
Defined.

(** X8 for the right code one second after the issue. *)
Lemma verifyOTP_agrees_with_isOTPValid_witness :
  Mongo.findOne (byPhone phone) (users issuedStore) = Some issuedUser
  /\ isOTPValid issuedUser "482913" (now (envAt (issuedAt + 1000) 0)) = true
  /\ status (fst (verifyOTP (envAt (issuedAt + 1000) 0)
                    (otpRequest phone (Some "482913")) issuedStore)) = 200.
Proof.
  split; [reflexivity | ].
  assert (Hv : isOTPValid issuedUser "482913" (now (envAt (issuedAt + 1000) 0)) = true)
    by reflexivity.
  split; [exact Hv | ].
  assert (Hp : phone <> "") by discriminate.
  assert (Hc : "482913" <> "") by discriminate.
  assert (Hs : "s3cret" <> "") by discriminate.
  exact (proj1
    (@verifyOTP_agrees_with_isOTPValid platform (envAt (issuedAt + 1000) 0)
       (otpRequest phone (Some "482913")) issuedStore phone "482913" "s3cret"
       issuedUser eq_refl Hp eq_refl Hc eq_refl eq_refl Hs) Hv).
Defined.

(** X11 for the token minted one second after the issue, presented one
    second later to the endpoint that lists the categories. *)
Lemma minted_token_authenticates_witness :
  guarded CategoriesList = true
  /\ (exists view,
        data (fst (verifyOTP (envAt (issuedAt + 1000) 0)
                     (otpRequest phone (Some "482913")) issuedStore))
        = Session mintedToken view)
  /\ route noOthers CategoriesList (envAt (issuedAt + 2000) 0)
       (bearing mintedToken)
       (snd (verifyOTP (envAt (issuedAt + 1000) 0)
               (otpRequest phone (Some "482913")) issuedStore))
     = controllerOf noOthers CategoriesList (envAt (issuedAt + 2000) 0)
         (with_user (bearing mintedToken)
            {| ru_userId := user_id issuedUser;
               ru_phoneNumber := phoneNumber issuedUser |})
         (snd (verifyOTP (envAt (issuedAt + 1000) 0)
                 (otpRequest phone (Some "482913")) issuedStore)).
Proof.
  split; [reflexivity | ].
  assert (Hfind : Mongo.findOne (byPhone phone) (users issuedStore)
                  = Some issuedUser) by (vm_compute; reflexivity).
  assert (Hsession :
    data (fst (verifyOTP (envAt (issuedAt + 1000) 0)
                 (otpRequest phone (Some "482913")) issuedStore))
    = Session mintedToken
        {| uv_id := user_id issuedUser; uv_phoneNumber := phone;
           uv_isVerified := true; uv_createdAt := issuedAt |})
    by (vm_compute; reflexivity).
  split; [eexists; exact Hsession | ].
  assert (Hp : phone <> "") by discriminate.
  assert (Hc : "482913" <> "") by discriminate.
  assert (Hs : "s3cret" <> "") by discriminate.
  assert (Ht : now (envAt (issuedAt + 1000) 0) <= issuedAt + 600000)
    by discriminate.
  assert (Hjwt : jwt_verify (jwt_sign "s3cret" (user_id issuedUser)
                               (now (envAt (issuedAt + 1000) 0)))
                   "s3cret" (now (envAt (issuedAt + 2000) 0))
                 = Decoded (user_id issuedUser)) by (vm_compute; reflexivity).
  exact (@minted_token_authenticates platform noOthers CategoriesList
           (envAt (issuedAt + 1000) 0) (envAt (issuedAt + 2000) 0)
           (otpRequest phone (Some "482913")) (bearing mintedToken)
           issuedStore phone "482913" "s3cret" issuedUser (issuedAt + 600000)
           eq_refl eq_refl Hp eq_refl Hc Hfind eq_refl eq_refl Ht
           eq_refl Hs eq_refl Hjwt eq_refl eq_refl
           mintedToken _ Hsession eq_refl).
Defined.

(** X12 for Bob's categories. *)
Lemma getCategories_lists_own_newest_first_witness :
  userIdOf (requestOf bob "" emptyBody) = Some bob
  /\ exists l,
       getCategories (envAt 5000 0) (requestOf bob "" emptyBody) bobsStore
       = (inr (map transformCategory l), bobsStore)
       /\ Permutation
            (filter (fun c => String.eqb (cat_userId c) bob) (categories bobsStore)) l
       /\ StronglySorted (fun a b => cat_createdAt b <= cat_createdAt a) l.
Proof.
  split; [reflexivity | ].
  assert (HB : bob <> "") by discriminate.
  exact (@getCategories_lists_own_newest_first (envAt 5000 0)
           (requestOf bob "" emptyBody) bobsStore bob eq_refl HB).
Defined.

(** X13 for Bob submitting the name of his category with spaces around. *)
Lemma createCategory_refuses_taken_name_witness :
  In bobsCategory (categories bobsStore)
  /\ cat_name bobsCategory = Js.trim " Food "
  /\ createCategory (envAt 5000 0)
       (requestOf bob "" (categoryBody " Food " "#10B981")) bobsStore
     = (failure 400 "Category with this name already exists", bobsStore).
Proof.
  assert (Hin : In bobsCategory (categories bobsStore)) by (simpl; tauto).
  split; [exact Hin | ]. split; [reflexivity | ].
  assert (HB : bob <> "") by discriminate.
  assert (Hn : " Food " <> "") by discriminate.
  assert (Hc : "#10B981" <> "") by discriminate.
  exact (@createCategory_refuses_taken_name platform (envAt 5000 0)
           (requestOf bob "" (categoryBody " Food " "#10B981")) bobsStore
           bob " Food " "#10B981" bobsCategory
           eq_refl HB eq_refl Hn eq_refl Hc Hin eq_refl eq_refl).
Defined.

(** X14 for Alice creating a category named as Bob's. *)
Lemma createCategory_names_are_per_user_witness :
  colorRegex_test "#10B981" = true
  /\ exists c',
       createCategory (envAt 5000 0)
         (requestOf alice "" (categoryBody "Food" "#10B981")) bobsStore
       = (reply 201 (Some "Category created successfully")
            (CategoryData (transformCategory c')),
          with_created
            (with_categories bobsStore (categories bobsStore ++ [c'])%list)
            (S (created bobsStore)))
       /\ cat_userId c' = alice /\ cat_name c' = Js.trim "Food"
       /\ cat_color c' = "#10B981".
Proof.
  split; [reflexivity | ].
  assert (HA : alice <> "") by discriminate.
  assert (Hn : Js.trim "Food" <> "") by discriminate.
  assert (Hlen : (String.length (Js.trim "Food") <= 50)%nat)
    by (vm_compute; lia).
  assert (Hfree : forall c, In c (categories bobsStore) -> cat_userId c = alice ->
                            cat_name c <> "Food" /\ cat_name c <> Js.trim "Food").
  { intros c [<- | []] Hown. discriminate Hown. }
  exact (@createCategory_names_are_per_user platform (envAt 5000 0)
           (requestOf alice "" (categoryBody "Food" "#10B981")) bobsStore
           alice "Food" "#10B981" eq_refl HA eq_refl eq_refl Hn Hlen eq_refl Hfree).
Defined.

(** X15 for Alice creating a category named as Bob's. *)
Lemma category_names_stay_unique_per_user_witness :
  NoDup (map cat_id (categories bobsStore))
  /\ NoDup (map (fun c => (cat_userId c, cat_name c)) (categories bobsStore))
  /\ NoDup (map (fun c => (cat_userId c, cat_name c))
              (categories
                 (snd (createCategory (envAt 5000 0)
                         (requestOf alice "" (categoryBody "Food" "#10B981"))
                         bobsStore)))).
Proof.
  assert (Hid : NoDup (map cat_id (categories bobsStore)))
    by (constructor; [simpl; tauto | constructor]).
  assert (Hnm : NoDup (map (fun c => (cat_userId c, cat_name c))
                         (categories bobsStore)))
    by (constructor; [simpl; tauto | constructor]).
  split; [exact Hid | ]. split; [exact Hnm | ].
  exact (proj1 (proj2
    (@category_names_stay_unique_per_user platform (envAt 5000 0)
       (requestOf alice "" (categoryBody "Food" "#10B981")) bobsStore Hid Hnm))).
Defined.

(** X16 for Bob renaming his category. *)
Lemma updated_category_is_read_back_witness :
  status (fst (updateCategory (envAt 5000 0)
                 (requestOf bob (cat_id bobsCategory)
                    (categoryBody " Meals " "#abcdef"))
                 bobsStore)) = 200
  /\ fst (getCategoryById (envAt 6000 0)
            (requestOf bob (cat_id bobsCategory) (categoryBody " Meals " "#abcdef"))
            (snd (updateCategory (envAt 5000 0)
                    (requestOf bob (cat_id bobsCategory)
                       (categoryBody " Meals " "#abcdef"))
                    bobsStore)))
     = reply 200 None
         (data (fst (updateCategory (envAt 5000 0)
                       (requestOf bob (cat_id bobsCategory)
                          (categoryBody " Meals " "#abcdef"))
                       bobsStore))).
Proof.
  split; [reflexivity | ].
  exact (proj1
    (@updated_category_is_read_back platform (envAt 5000 0) (envAt 6000 0)
       (requestOf bob (cat_id bobsCategory) (categoryBody " Meals " "#abcdef"))
       bobsStore eq_refl)).
Defined.

(** X17 for Bob deleting his category. *)
Lemma deleted_category_is_gone_witness :
  status (fst (deleteCategory (envAt 5000 0)
                 (requestOf bob (cat_id bobsCategory) emptyBody) bobsStore)) = 200
  /\ fst (getCategoryById (envAt 6000 0)
            (requestOf bob (cat_id bobsCategory) emptyBody)
            (snd (deleteCategory (envAt 5000 0)
                    (requestOf bob (cat_id bobsCategory) emptyBody) bobsStore)))
     = failure 404 "Category not found".
Proof.
  split; [reflexivity | ].
  assert (Hid : NoDup (map cat_id (categories bobsStore)))
    by (constructor; [simpl; tauto | constructor]).
  exact (proj1
    (@deleted_category_is_gone platform (envAt 5000 0) (envAt 6000 0)
       (requestOf bob (cat_id bobsCategory) emptyBody) bobsStore Hid eq_refl)).
Defined.

(** X18 for Bob's expense after he deleted its category. *)
Lemma expense_of_deleted_category_cannot_be_read_witness :
  Mongo.findOne (expByIdAndOwner (exp_id bobsExpense) bob) (expenses bobsStore)
  = Some bobsExpense
  /\ categoryId bobsExpense = cat_id bobsCategory
  /\ fst (getExpenseById (envAt 6000 0)
            (requestOf bob (exp_id bobsExpense) emptyBody)
            (snd (deleteCategory (envAt 5000 0)
                    (requestOf bob (cat_id bobsCategory) emptyBody) bobsStore)))
     = failure 500 "Failed to populate category information".
Proof.
  split; [reflexivity | ]. split; [reflexivity | ].
  assert (Hid : NoDup (map cat_id (categories bobsStore)))
    by (constructor; [simpl; tauto | constructor]).
  assert (HB : bob <> "") by discriminate.
  exact (f_equal fst (proj2
    (@expense_of_deleted_category_cannot_be_read platform
       (envAt 5000 0) (envAt 6000 0)
       (requestOf bob (cat_id bobsCategory) emptyBody)
       (requestOf bob (exp_id bobsExpense) emptyBody)
       bobsStore bob bobsExpense Hid eq_refl eq_refl HB eq_refl eq_refl eq_refl))).
Defined.

(** X19 for Bob deleting his expense and its receipt [receipt-1.png]. *)
Lemma deleted_expense_and_receipt_are_gone_witness :
  status (fst (deleteExpense (envAt 5000 0)
                 (requestOf bob (exp_id bobsExpense) emptyBody) bobsStore)) = 200
  /\ receiptUrl bobsExpense = Some ("/uploads/" ++ "receipt-1.png")
  /\ fst (getExpenseById (envAt 6000 0)
            (requestOf bob (exp_id bobsExpense) emptyBody)
            (snd (deleteExpense (envAt 5000 0)
                    (requestOf bob (exp_id bobsExpense) emptyBody) bobsStore)))
     = failure 404 "Expense not found"
  /\ ~ In "receipt-1.png"
         (uploads (snd (deleteExpense (envAt 5000 0)
                          (requestOf bob (exp_id bobsExpense) emptyBody)
                          bobsStore))).
Proof.
  split; [reflexivity | ]. split; [reflexivity | ].
  assert (Hid : NoDup (map exp_id (expenses bobsStore)))
    by (constructor; [simpl; tauto | constructor]).
  destruct (@deleted_expense_and_receipt_are_gone platform
              (envAt 5000 0) (envAt 6000 0)
              (requestOf bob (exp_id bobsExpense) emptyBody) bobsStore
              bob bobsExpense Hid eq_refl eq_refl eq_refl)
    as (Hgone & _ & _ & Hfile).
  split; [exact Hgone | ].
  exact (proj1 (Hfile "receipt-1.png" eq_refl eq_refl)).
Defined.

(** X20 for Bob's store and Bob changing the description of his expense. *)
Lemma expenses_stay_linked_to_own_categories_witness :
  linkedToOwnCategories bobsStore
  /\ linkedToOwnCategories
       (snd (updateExpense (envAt 5000 0)
               (requestOf bob (exp_id bobsExpense) (descriptionOnly "Dinner"))
               bobsStore)).
Proof.
  assert (Hid : NoDup (map cat_id (categories bobsStore)))
    by (constructor; [simpl; tauto | constructor]).
  assert (Hlinked : linkedToOwnCategories bobsStore).
  { intros x c [<- | []] [<- | []] _. reflexivity. }
  split; [exact Hlinked | ].
  exact (proj1 (proj2
    (@expenses_stay_linked_to_own_categories platform (envAt 5000 0)
       (requestOf bob (exp_id bobsExpense) (descriptionOnly "Dinner"))
       bobsStore Hid Hlinked))).
Defined.


(** X23 for Bob sending a new receipt with a date that is not one. *)
Lemma updateExpense_failed_save_still_removes_receipt_witness :
  Date_parse "tomorrow" = None
  /\ In "receipt-1.png" (uploads bobsStore)
  /\ fst (updateExpense (envAt 5000 0) newReceiptBadDate bobsStore)
     = failure 500 "Internal server error"
  /\ expenses (snd (updateExpense (envAt 5000 0) newReceiptBadDate bobsStore))
     = expenses bobsStore
  /\ ~ In "receipt-1.png"
         (uploads (snd (updateExpense (envAt 5000 0) newReceiptBadDate bobsStore))).
Proof.
  split; [reflexivity | ]. split; [simpl; tauto | ].
  assert (HB : bob <> "") by discriminate.
  exact (@updateExpense_failed_save_still_removes_receipt platform (envAt 5000 0)
           newReceiptBadDate bobsStore bob "receipt-1.png" "receipt-2.png"
           "tomorrow" bobsExpense
           eq_refl HB eq_refl eq_refl eq_refl eq_refl eq_refl eq_refl eq_refl
           eq_refl eq_refl).
Defined.

(** X24 for Bob's January, asked on the 20th. *)
Lemma getExpenseStats_reports_nothing_witness :
  ObjectId_isValid bob = true
  /\ expenses bobsJanuary <> []
  /\ exists st,
       getExpenseStats (envAt (utc 2024 1 20) 0) (statsRequest bob "month")
         bobsJanuary
       = (reply 200 None (StatsData st), bobsJanuary)
       /\ totalAmount st = 0%Q /\ totalCount st = 0
       /\ (averagePerDay st == 0)%Q
       /\ expensesByCategory st = [] /\ dailyExpenses st = [].
Proof.
  split; [reflexivity | ]. split; [discriminate | ].
  assert (HB : bob <> "") by discriminate.
  exact (@getExpenseStats_reports_nothing platform (envAt (utc 2024 1 20) 0)
           (statsRequest bob "month") bobsJanuary bob eq_refl HB eq_refl).
Defined.

(** X25 for the mobile number 9876543210. *)
Lemma login_phone_passes_server_check_witness :
  Client.mobileRegex_test "9876543210" = true
  /\ phoneRegex_test (Client.submittedPhone "9876543210") = true.
Proof.
  split; [reflexivity | ].
  exact (login_phone_passes_server_check "9876543210" eq_refl).
Defined.

(** X26 at [Math.random() = 3/8]. *)
Lemma isValidOTP_rejects_server_codes_witness :
  Client.isValidOTP (generateOTP (3 # 8)) = false.
Proof.
  apply (isValidOTP_rejects_server_codes (3 # 8)).
  - discriminate.
  - reflexivity.
Defined.

(** X27 at [Math.random() = 3/8]. *)
Lemma getRandomColor_is_a_valid_colour_witness :
  exists c,
    Client.getRandomColor (3 # 8) = Some c
    /\ In c Client.colors /\ colorRegex_test c = true.
Proof.
  apply (getRandomColor_is_a_valid_colour (3 # 8)).
  - discriminate.
  - reflexivity.
Defined.

(** X28 for one third. *)
Lemma calculatePercentage_within_0_100_witness :
  0 <= Client.calculatePercentage 1 3 <= 100.
Proof.
  apply (calculatePercentage_within_0_100 1 3).
  - discriminate.
  - discriminate.
  - reflexivity.
Defined.

(** X29 for a PNG image. *)
Lemma client_image_types_pass_fileFilter_witness :
  Client.isValidImageFile "image/png" = true
  /\ fileFilter "image/png" = true.
Proof.
  split; [reflexivity | ].
  exact (client_image_types_pass_fileFilter "image/png" eq_refl).
Defined.
